(** * The nyaa tree-walking interpreter: a shallow embedding of
      [src/Interpreter.py] and [src/core/ASTNodes.py].

    The interpreter is a Python visitor over an AST.  It keeps its state in
    the fields of one [Interpreter] object, in environments that hold
    references to mutable [RunTimeObject]s, and in a process-wide cache
    ([cache_mem]).  The embedding threads that state explicitly through a
    small state-and-exception monad; runtime objects live in a heap and are
    passed by reference, as Python passes them. *)

From Stdlib Require Import ZArith QArith Qpower Lia Ascii String SpecFloat.
From stdpp Require Import base numbers option list strings gmap.
Close Scope Q_scope.
Open Scope Z_scope.
Set Warnings "-register-all".

(** ** Host values

    The payload of a runtime object is whatever Python value the evaluator
    stored in it.  A Python float is an IEEE 754 binary64 number: it is
    modelled by [spec_float] of the Standard Library, with the operations of
    [SpecFloat] at precision 53 and maximal exponent 1024 (round to nearest,
    ties to even), so that the zeros carry a sign and the infinities and NaN
    are values.  Integers are unbounded, and so is memory: no [MemoryError]
    is raised. *)

Inductive Payload :=
| PInt (z : Z)
| PFloat (f : spec_float)
| PStr (s : string)
| PBool (b : bool)
| PNone.

#[global] Instance spec_float_eq_dec : EqDecision spec_float.
Proof. solve_decision. Defined.

#[global] Instance Payload_eq_dec : EqDecision Payload.
Proof. solve_decision. Defined.

(** A number as Python's arithmetic sees it: [bool] is a subclass of [int]. *)
Inductive PyNum :=
| NInt (z : Z)
| NFloat (f : spec_float).

Definition as_number (p : Payload) : option PyNum :=
  match p with
  | PInt z => Some (NInt z)
  | PBool b => Some (NInt (Z.b2z b))
  | PFloat f => Some (NFloat f)
  | PStr _ | PNone => None
  end.

Definition float_prec : Z := 53.
Definition float_emax : Z := 1024.

(** [float(z)]: the double nearest to [z], an [OverflowError] when [z] is
    too large to have one. *)
Definition float_of_int (z : Z) : string + spec_float :=
  match binary_normalize float_prec float_emax z 0 false with
  | S754_infinity _ => inl "OverflowError"
  | f => inr f
  end.

Definition num_to_float (n : PyNum) : string + spec_float :=
  match n with
  | NInt z => float_of_int z
  | NFloat f => inr f
  end.

(** The integer [z] as a float of unbounded mantissa, for the division of
    two integers, which rounds once. *)
Definition exact_float (z : Z) : spec_float :=
  match z with
  | Z0 => S754_zero false
  | Zpos m => S754_finite false m 0
  | Zneg m => S754_finite true m 0
  end.

(** [a + b], [a - b] and [a * b] on numbers: exact on two integers; with a
    float among them the integer is converted and the operation is that of
    the doubles, which overflows to an infinity and raises nothing.  [inl]
    names the exception. *)
Definition num_binop (fz : Z -> Z -> Z) (ff : spec_float -> spec_float -> spec_float)
    (a b : PyNum) : string + Payload :=
  match a, b with
  | NInt x, NInt y => inr (PInt (fz x y))
  | _, _ =>
      match num_to_float a, num_to_float b with
      | inr x, inr y => inr (PFloat (ff x y))
      | inl exn, _ => inl exn
      | _, inl exn => inl exn
      end
  end.

Definition num_is_zero (n : PyNum) : bool :=
  match n with
  | NInt z => z =? 0
  | NFloat (S754_zero _) => true
  | NFloat _ => false
  end.

(** The value of a float that has one, as a rational. *)
Definition float_to_Q (f : spec_float) : option Q :=
  match f with
  | S754_zero _ => Some (inject_Z 0)
  | S754_finite s m e =>
      let v := if s then Zneg m else Zpos m in
      Some match e with
           | Zneg p => Qmake v (2 ^ p)%positive
           | _ => inject_Z (v * 2 ^ e)
           end
  | S754_infinity _ | S754_nan => None
  end.

(** The value of a number on the extended line; NaN is on none. *)
Inductive Extended :=
| ENaN
| ENegInf
| EFinite (q : Q)
| EPosInf.

Definition num_value (n : PyNum) : Extended :=
  match n with
  | NInt z => EFinite (inject_Z z)
  | NFloat (S754_infinity s) => if s then ENegInf else EPosInf
  | NFloat f =>
      match float_to_Q f with
      | Some q => EFinite q
      | None => ENaN
      end
  end.

(** The comparison of two numbers by value: Python compares an integer with
    a float exactly.  [None] when one of them is NaN, which is unordered. *)
Definition num_compare (a b : PyNum) : option comparison :=
  match num_value a, num_value b with
  | ENaN, _ | _, ENaN => None
  | EFinite x, EFinite y => Some (Qcompare x y)
  | ENegInf, ENegInf | EPosInf, EPosInf => Some Eq
  | ENegInf, _ | _, EPosInf => Some Lt
  | EPosInf, _ | _, ENegInf => Some Gt
  end.

(** [bool(v)]: Python truthiness of a payload. *)
Definition py_truthy (p : Payload) : bool :=
  match p with
  | PInt z => negb (z =? 0)
  | PFloat f => negb (num_is_zero (NFloat f))
  | PStr s => negb (String.eqb s "")
  | PBool b => b
  | PNone => false
  end.

(** [type(v).__name__] *)
Definition py_type_name (p : Payload) : string :=
  match p with
  | PInt _ => "int"
  | PFloat _ => "float"
  | PStr _ => "str"
  | PBool _ => "bool"
  | PNone => "NoneType"
  end.

(** [isinstance(v, int)]: true of integers and, as in Python, of booleans. *)
Definition isinstance_int (p : Payload) : bool :=
  match p with
  | PInt _ | PBool _ => true
  | _ => false
  end.

(** The integer an [int] instance stands for ([True] is 1, [False] is 0). *)
Definition int_value (p : Payload) : option Z :=
  match p with
  | PInt z => Some z
  | PBool b => Some (Z.b2z b)
  | _ => None
  end.

Fixpoint str_repeat (s : string) (n : nat) : string :=
  match n with
  | O => ""
  | S n' => String.append s (str_repeat s n')
  end.

(** [sys.maxsize], the largest index, on a 64-bit platform. *)
Definition index_max : Z := 2 ^ 63 - 1.

(** [s * n] on a string and an integer: the count has to fit an index, a
    count below 1 gives the empty string, and the repeated string may not be
    longer than the largest index. *)
Definition str_mul (s : string) (n : Z) : string + Payload :=
  if (n <? - 2 ^ 63) || (index_max <? n) then inl "OverflowError"
  else if n <? 1 then inr (PStr "")
  else if index_max / n <? Z.of_nat (String.length s) then inl "OverflowError"
  else inr (PStr (str_repeat s (Z.to_nat n))).

(** Binary operators of the host; [inl] names the exception Python raises. *)
Definition py_add (a b : Payload) : string + Payload :=
  match a, b with
  | PStr x, PStr y => inr (PStr (String.append x y))
  | _, _ =>
      match as_number a, as_number b with
      | Some x, Some y => num_binop Z.add (SFadd float_prec float_emax) x y
      | _, _ => inl "TypeError"
      end
  end.

Definition py_sub (a b : Payload) : string + Payload :=
  match as_number a, as_number b with
  | Some x, Some y => num_binop Z.sub (SFsub float_prec float_emax) x y
  | _, _ => inl "TypeError"
  end.

Definition py_mul (a b : Payload) : string + Payload :=
  match a, b with
  | PStr s, (PInt _ | PBool _) => str_mul s (default 0 (int_value b))
  | (PInt _ | PBool _), PStr s => str_mul s (default 0 (int_value a))
  | _, _ =>
      match as_number a, as_number b with
      | Some x, Some y => num_binop Z.mul (SFmul float_prec float_emax) x y
      | _, _ => inl "TypeError"
      end
  end.

(** [a / b], Python's true division: always a float on numbers.  The
    quotient of two integers is the exact quotient rounded once, and an
    [OverflowError] when it is too large for a float.  With a float among
    the operands the integer is converted, the divisor is tested for zero
    (the double of an integer is zero when the integer is), and the division
    is that of the doubles. *)
Definition py_truediv (a b : Payload) : string + Payload :=
  match as_number a, as_number b with
  | Some (NInt n), Some (NInt d) =>
      if d =? 0 then inl "ZeroDivisionError"
      else match SFdiv float_prec float_emax (exact_float n) (exact_float d) with
           | S754_infinity _ => inl "OverflowError"
           | f => inr (PFloat f)
           end
  | Some x, Some y =>
      match num_to_float x, num_to_float y with
      | inr u, inr v =>
          if num_is_zero y then inl "ZeroDivisionError"
          else inr (PFloat (SFdiv float_prec float_emax u v))
      | inl exn, _ => inl exn
      | _, inl exn => inl exn
      end
  | _, _ => inl "TypeError"
  end.

(** [- a]; [None] stands for Python's [TypeError]. *)
Definition py_neg (a : Payload) : option Payload :=
  match as_number a with
  | Some (NInt z) => Some (PInt (- z))
  | Some (NFloat f) => Some (PFloat (SFopp f))
  | None => None
  end.

Definition py_or (a b : Payload) : Payload := if py_truthy a then a else b.
Definition py_and (a b : Payload) : Payload := if py_truthy a then b else a.

(** [v != 0] *)
Definition py_ne_zero (p : Payload) : bool :=
  match as_number p with
  | Some n => negb (num_is_zero n)
  | None => true
  end.

(** [v == w] on payloads (numbers compare by value across int, bool, float). *)
Definition py_eq (a b : Payload) : bool :=
  match as_number a, as_number b with
  | Some x, Some y => match num_compare x y with Some Eq => true | _ => false end
  | _, _ => bool_decide (a = b)
  end.

(** [int(f)] of a float: truncation towards zero. *)
Definition float_trunc (f : spec_float) : string + Z :=
  match f with
  | S754_zero _ => inr 0
  | S754_finite s m e =>
      let v := match e with
               | Zneg p => Zpos m / 2 ^ Zpos p
               | _ => Zpos m * 2 ^ e
               end in
      inr (if s then - v else v)
  | S754_infinity _ => inl "OverflowError"
  | S754_nan => inl "ValueError"
  end.

(** The largest number of digits of a decimal numeral that Python converts
    to or from an integer ([sys.get_int_max_str_digits()], by default). *)
Definition int_max_str_digits : nat := 4300.

Definition digit_of (c : ascii) : option Z :=
  let n := Z.of_nat (nat_of_ascii c) in
  if (48 <=? n) && (n <=? 57) then Some (n - 48) else None.

(** White space, as [int] strips it from both ends of its argument: the
    blanks of ASCII, and the two of the characters above 127 that Unicode
    holds to be spaces. *)
Definition is_space (c : ascii) : bool :=
  bool_decide (nat_of_ascii c ∈ [9; 10; 11; 12; 13; 32; 133; 160]%nat).

(** The digits of a numeral: a digit first, then digits with single
    underscores between them.  [after_digit] tells whether the character
    before was a digit; the count of the digits comes with the value. *)
Fixpoint parse_digits (after_digit : bool) (acc : Z) (count : nat) (cs : list ascii)
    : option (Z * nat) :=
  match cs with
  | [] => if after_digit then Some (acc, count) else None
  | c :: rest =>
      match digit_of c with
      | Some d => parse_digits true (10 * acc + d) (S count) rest
      | None =>
          if after_digit && bool_decide (nat_of_ascii c = 95%nat)
          then parse_digits false acc count rest
          else None
      end
  end.

Fixpoint drop_spaces (cs : list ascii) : list ascii :=
  match cs with
  | c :: rest => if is_space c then drop_spaces rest else cs
  | [] => []
  end.

(** [int(s)] of a string, base 10. *)
Definition int_of_string (s : string) : string + Z :=
  let cs := drop_spaces (list_ascii_of_string s) in
  let cs := rev (drop_spaces (rev cs)) in
  let '(negative, cs) :=
    match cs with
    | c :: rest =>
        if bool_decide (nat_of_ascii c = 45%nat) then (true, rest)
        else if bool_decide (nat_of_ascii c = 43%nat) then (false, rest)
        else (false, cs)
    | [] => (false, cs)
    end in
  match parse_digits false 0 0 cs with
  | Some (z, count) =>
      if bool_decide (int_max_str_digits < count)%nat then inl "ValueError"
      else inr (if negative then - z else z)
  | None => inl "ValueError"
  end.

(** [int(v)]; [inl] carries the name of the exception Python raises. *)
Definition py_int (p : Payload) : string + Z :=
  match p with
  | PInt z => inr z
  | PBool b => inr (Z.b2z b)
  | PFloat f => float_trunc f
  | PStr s => int_of_string s
  | PNone => inl "TypeError"
  end.

(** [range(start, stop, step)] as the list of its elements. *)
Definition py_range (start stop step : Z) : list Z :=
  if 0 <? step then
    (fun k => start + k * step) <$> seqZ 0 ((stop - start + step - 1) / step)
  else if step <? 0 then
    (fun k => start + k * step) <$> seqZ 0 ((start - stop - step - 1) / (- step))
  else [].

(** The six relational operators, as Python's [eval] applies them to two
    literals. *)
Definition relop_of_comparison (op : string) (c : comparison) : option bool :=
  if String.eqb op "==" then Some (match c with Eq => true | _ => false end)
  else if String.eqb op "!=" then Some (match c with Eq => false | _ => true end)
  else if String.eqb op "<" then Some (match c with Lt => true | _ => false end)
  else if String.eqb op ">" then Some (match c with Gt => true | _ => false end)
  else if String.eqb op "<=" then Some (match c with Gt => false | _ => true end)
  else if String.eqb op ">=" then Some (match c with Lt => false | _ => true end)
  else None.

(** ** Runtime values, errors and the AST *)

Definition Pos : Type := Z * Z.

(** A reference to a runtime object: an index into the heap. *)
Definition loc : Type := nat.

(** Modelled from the spec: [RunTimeObject] ([src/core/RuntimeObject.py] is
    not among the sources), a record of a label, a payload and an optional
    value type, built as [RunTimeObject(label, value, value_type=None)]. *)
Record RunTimeObject := mkRunTimeObject {
  label : string;
  value : Payload;
  type : option string;
}.

#[global] Instance RunTimeObject_eq_dec : EqDecision RunTimeObject.
Proof. solve_decision. Defined.

(** What an evaluation hands back: [None], a reference to a runtime object,
    or the Python list that [visit_args] builds. *)
Inductive PyVal :=
| PyNone
| PyObj (l : loc)
| PyList (xs : list PyVal).

(** Modelled from the spec: the error taxonomy of [src/utils/ErrorHandler.py]
    (not among the sources).  Messages are kept as data, not as formatted
    text. *)
Inductive ErrorType := RUNTIME | TYPE | RECURSION.

Inductive Message :=
| UndefinedScope
| DuplicateParameter (param : string)
| RangeNotInteger (type_name : string)
| ArrayIndexOutOfBounds
| InvalidArgumentCount (expected got : nat)
| DivisionByZero
| RecursionDepthExceeded
| InvalidOperation (left_label op right_label : string)
| UnaryTypeError (op operand : Payload)
| HostTypeError
| NameNotFound (name : Payload).

(** Python exceptions.  [interpret] catches [InterpreterError] and
    [RecursionError]; any other exception of the host ([AttributeError],
    [TypeError], [IndexError], ...) escapes it. *)
Inductive Exn :=
| InterpreterError (ty : ErrorType) (msg : Message) (start_pos end_pos : Pos)
| RecursionError
| HostError (exn_name : string).

Record Info := mkInfo {
  nid : nat;            (* the identity of the node object *)
  start_pos : Pos;
  end_pos : Pos;
}.

(** The node classes of [ASTNodes.py], one constructor for each class that
    sets a label of its own.  The two base classes have none: [Node], which
    holds the label and the positions, and [ConditionalNode], which
    [WhileNode], [IfNode], [ElifNode] and [ElseNode] extend and whose label,
    when none is given, is [Conditional].  Optional children are [None] in
    Python when absent. *)
Inductive Node :=
| ProgramNode (i : Info) (functions : list Node) (body : option Node) (eof : bool)
| FuncDefNode (i : Info) (identifier : string) (args : option Node) (body : Node)
| BodyNode (i : Info) (statements : list Node)
| BreakNode (i : Info)
| ContinueNode (i : Info)
| ReturnNode (i : Info) (expr : option Node)
| ArgsNode (i : Info) (children : list Node)
| WhileNode (i : Info) (expr : Node) (body : option Node)
| ForNode (i : Info) (identifier : Node) (range_start range_end : Node)
    (body : option Node)
| IfNode (i : Info) (expr : Node) (body : option Node)
    (else_if_statements : list Node) (else_body : option Node)
| ElifNode (i : Info) (expr : Node) (body : option Node)
| ElseNode (i : Info) (body : option Node)
| AssignmentNode (i : Info) (left right : Node)
| ExprNode (i : Info) (left : Node) (right : option Node) (operator : option string)
| CallNode (i : Info) (identifier : string) (args : option Node)
| InputNode (i : Info) (message : string)
| PrintNode (i : Info) (args : Node) (println : bool)
| PostfixExprNode (i : Info) (left : Node) (operator : option string)
| SimpleExprNode (i : Info) (left : Node) (right : option Node) (operator : option string)
| TermNode (i : Info) (left : Node) (right : option Node) (operator : option string)
| FactorNode (i : Info) (left : Node) (right : option Node)
| ArrayNode (i : Info) (array_label : string) (identifier : string)
    (index size val : option Node) (initial_values : option (list Node))
| IdentifierNode (i : Info) (name : string)
| NumericLiteralNode (i : Info) (number : Payload)
| StringLiteralNode (i : Info) (word : string)
| BooleanNode (i : Info) (boolean_value : bool)
| OperatorNode (i : Info) (op : string).

Definition node_info (n : Node) : Info :=
  match n with
  | ProgramNode i _ _ _ | FuncDefNode i _ _ _ | BodyNode i _ | BreakNode i
  | ContinueNode i | ReturnNode i _ | ArgsNode i _ | WhileNode i _ _
  | ForNode i _ _ _ _ | IfNode i _ _ _ _ | ElifNode i _ _ | ElseNode i _
  | AssignmentNode i _ _ | ExprNode i _ _ _ | CallNode i _ _ | InputNode i _
  | PrintNode i _ _ | PostfixExprNode i _ _ | SimpleExprNode i _ _ _
  | TermNode i _ _ _ | FactorNode i _ _ | ArrayNode i _ _ _ _ _ _
  | IdentifierNode i _ | NumericLiteralNode i _ | StringLiteralNode i _
  | BooleanNode i _ | OperatorNode i _ => i
  end.

(** [node.label], as each class's constructor sets it. *)
Definition node_label (n : Node) : string :=
  match n with
  | ProgramNode _ _ _ _ => "program"
  | FuncDefNode _ _ _ _ => "func_def"
  | BodyNode _ _ => "body"
  | BreakNode _ => "break"
  | ContinueNode _ => "continue"
  | ReturnNode _ _ => "return"
  | ArgsNode _ _ => "args"
  | WhileNode _ _ _ => "while"
  | ForNode _ _ _ _ _ => "for"
  | IfNode _ _ _ _ _ => "if"
  | ElifNode _ _ _ => "elif"
  | ElseNode _ _ => "else"
  | AssignmentNode _ _ _ => "assignment"
  | ExprNode _ _ _ _ => "expr"
  | CallNode _ _ _ => "call"
  | InputNode _ _ => "input"
  | PrintNode _ _ _ => "print"
  | PostfixExprNode _ _ _ => "postfix_expr"
  | SimpleExprNode _ _ _ _ => "simple_expr"
  | TermNode _ _ _ _ => "term"
  | FactorNode _ _ _ => "factor"
  | ArrayNode _ l _ _ _ _ _ => l
  | IdentifierNode _ _ => "identifier"
  | NumericLiteralNode _ _ => "numeric_literal"
  | StringLiteralNode _ _ => "string_literal"
  | BooleanNode _ _ => "boolean_literal"
  | OperatorNode _ _ => "operator"
  end.

(** The bound methods [getattr(self, "visit_" + label, self.generic_visit)]
    can return. *)
Inductive VisitMethod :=
| m_visit_program | m_visit_func_def | m_visit_body | m_visit_return
| m_visit_break | m_visit_continue | m_visit_if | m_visit_while | m_visit_for
| m_visit_array_def | m_visit_array_access | m_visit_array_update
| m_visit_assignment | m_visit_call | m_visit_input | m_visit_print
| m_visit_postfix_expr | m_visit_args | m_visit_expr | m_visit_simple_expr
| m_visit_term | m_visit_factor | m_visit_operator | m_visit_identifier
| m_visit_numeric_literal | m_visit_string_literal | m_visit_boolean_literal
| m_generic_visit.

#[global] Instance VisitMethod_eq_dec : EqDecision VisitMethod.
Proof. solve_decision. Defined.

Definition visit_methods : list (string * VisitMethod) :=
  [ ("program", m_visit_program); ("func_def", m_visit_func_def);
    ("body", m_visit_body); ("return", m_visit_return);
    ("break", m_visit_break); ("continue", m_visit_continue);
    ("if", m_visit_if); ("while", m_visit_while); ("for", m_visit_for);
    ("array_def", m_visit_array_def); ("array_access", m_visit_array_access);
    ("array_update", m_visit_array_update); ("assignment", m_visit_assignment);
    ("call", m_visit_call); ("input", m_visit_input); ("print", m_visit_print);
    ("postfix_expr", m_visit_postfix_expr); ("args", m_visit_args);
    ("expr", m_visit_expr); ("simple_expr", m_visit_simple_expr);
    ("term", m_visit_term); ("factor", m_visit_factor);
    ("operator", m_visit_operator); ("identifier", m_visit_identifier);
    ("numeric_literal", m_visit_numeric_literal);
    ("string_literal", m_visit_string_literal);
    ("boolean_literal", m_visit_boolean_literal) ].

Fixpoint assoc_string {A : Type} (k : string) (l : list (string * A)) : option A :=
  match l with
  | [] => None
  | (k', a) :: rest => if String.eqb k k' then Some a else assoc_string k rest
  end.

(** [getattr(self, f"visit_{label}", self.generic_visit)] *)
Definition getattr_visit (lbl : string) : VisitMethod :=
  default m_generic_visit (assoc_string lbl visit_methods).

(** ** Symbols, environments and the cache

    [src/core/Symbol.py], [src/core/Environment.py] and
    [src/core/CacheMemory.py] are not among the sources: the three are
    modelled from the spec and from the way [Interpreter.py] uses them. *)

(** Modelled from the spec: [FunctionSymbol(name, ordered parameter names,
    body node)].  [visit_func_def] builds the parameters as a dict from
    name to declared type; its insertion order is the list order. *)
Record FunctionSymbol := mkFunctionSymbol {
  fn_name : string;
  params : list (string * option string);
  body : Node;
}.

(** Modelled from the spec: [ArraySymbol(name, declared_size, ordered list
    of runtime values)]. *)
Record ArraySymbol := mkArraySymbol {
  arr_name : string;
  arr_size : Payload;
  values : list PyVal;
}.

(** Modelled from the spec: [Environment], a named scope with three
    namespaces.  Only the global scope is ever a parent ([visit_call] passes
    [parent=self.global_env]), so [parent] records whether there is one. *)
Record Environment := mkEnvironment {
  name : string;
  level : Z;
  parent : bool;
  variables : gmap string PyVal;
  arrays : gmap string ArraySymbol;
  functions : gmap string FunctionSymbol;
}.

Definition new_Environment (nm : string) (lvl : Z) (has_parent : bool) : Environment :=
  {| name := nm; level := lvl; parent := has_parent;
     variables := ∅; arrays := ∅; functions := ∅ |}.

Definition env_insert_variable (k : string) (l : PyVal) (e : Environment) : Environment :=
  {| name := name e; level := level e; parent := parent e;
     variables := <[k := l]> (variables e);
     arrays := arrays e; functions := functions e |}.

Definition env_insert_array (k : string) (a : ArraySymbol) (e : Environment) : Environment :=
  {| name := name e; level := level e; parent := parent e;
     variables := variables e;
     arrays := <[k := a]> (arrays e); functions := functions e |}.

Definition env_insert_function (k : string) (f : FunctionSymbol) (e : Environment) : Environment :=
  {| name := name e; level := level e; parent := parent e;
     variables := variables e;
     arrays := arrays e; functions := <[k := f]> (functions e) |}.

(** The environment object a field such as [current_env] refers to: the
    global one, or a local one created by a call. *)
Inductive EnvRef :=
| GlobalEnv
| LocalEnv (e : Environment).

(** Modelled from the spec: the value [Environment.hash()] returns, "a
    fingerprint derived from (scope name, level, parameter bindings)".  The
    fingerprint is the triple itself, the bindings with their payloads. *)
Definition Fingerprint : Type := string * Z * list (string * option Payload).

Inductive LogEntry :=
| LogVisiting (lbl : string)
| LogReturned (lbl : string) (result : PyVal).

(** What the program writes to the terminal, call by call of [print]. *)
Inductive OutEvent :=
| OutPrint (v : Payload) (end_ : string)
| OutNewline
| OutPrompt (msg : string)
| OutLog (entry : LogEntry).

(** ** The state of a run

    The fields of the [Interpreter] object, the heap of runtime objects, the
    process-wide [cache_mem] (its node entries and its call entries) and the
    three streams. *)
Record State := mkState {
  verbose : bool;
  global_env : Environment;
  current_env : option EnvRef;
  conditional_flag : bool;
  break_flag : bool;
  continue_flag : bool;
  visitor_depth : Z;
  recursion_count : Z;
  node_start_pos : Pos;
  node_end_pos : Pos;
  heap : list RunTimeObject;
  node_cache : gmap (nat * string) VisitMethod;
  call_cache : list (Fingerprint * PyVal);
  stdin : list string;
  stdout : list OutEvent;
  stderr : list Exn;
}.

Definition set_verbose (x : bool) (s : State) : State :=
  {| verbose := x; global_env := global_env s; current_env := current_env s;
     conditional_flag := conditional_flag s; break_flag := break_flag s;
     continue_flag := continue_flag s; visitor_depth := visitor_depth s;
     recursion_count := recursion_count s;
     node_start_pos := node_start_pos s; node_end_pos := node_end_pos s;
     heap := heap s; node_cache := node_cache s; call_cache := call_cache s;
     stdin := stdin s; stdout := stdout s; stderr := stderr s |}.

Definition set_global_env (x : Environment) (s : State) : State :=
  {| verbose := verbose s; global_env := x; current_env := current_env s;
     conditional_flag := conditional_flag s; break_flag := break_flag s;
     continue_flag := continue_flag s; visitor_depth := visitor_depth s;
     recursion_count := recursion_count s;
     node_start_pos := node_start_pos s; node_end_pos := node_end_pos s;
     heap := heap s; node_cache := node_cache s; call_cache := call_cache s;
     stdin := stdin s; stdout := stdout s; stderr := stderr s |}.

Definition set_current_env (x : option EnvRef) (s : State) : State :=
  {| verbose := verbose s; global_env := global_env s; current_env := x;
     conditional_flag := conditional_flag s; break_flag := break_flag s;
     continue_flag := continue_flag s; visitor_depth := visitor_depth s;
     recursion_count := recursion_count s;
     node_start_pos := node_start_pos s; node_end_pos := node_end_pos s;
     heap := heap s; node_cache := node_cache s; call_cache := call_cache s;
     stdin := stdin s; stdout := stdout s; stderr := stderr s |}.

Definition set_conditional_flag (x : bool) (s : State) : State :=
  {| verbose := verbose s; global_env := global_env s;
     current_env := current_env s; conditional_flag := x;
     break_flag := break_flag s; continue_flag := continue_flag s;
     visitor_depth := visitor_depth s; recursion_count := recursion_count s;
     node_start_pos := node_start_pos s; node_end_pos := node_end_pos s;
     heap := heap s; node_cache := node_cache s; call_cache := call_cache s;
     stdin := stdin s; stdout := stdout s; stderr := stderr s |}.

Definition set_break_flag (x : bool) (s : State) : State :=
  {| verbose := verbose s; global_env := global_env s;
     current_env := current_env s; conditional_flag := conditional_flag s;
     break_flag := x; continue_flag := continue_flag s;
     visitor_depth := visitor_depth s; recursion_count := recursion_count s;
     node_start_pos := node_start_pos s; node_end_pos := node_end_pos s;
     heap := heap s; node_cache := node_cache s; call_cache := call_cache s;
     stdin := stdin s; stdout := stdout s; stderr := stderr s |}.

Definition set_continue_flag (x : bool) (s : State) : State :=
  {| verbose := verbose s; global_env := global_env s;
     current_env := current_env s; conditional_flag := conditional_flag s;
     break_flag := break_flag s; continue_flag := x;
     visitor_depth := visitor_depth s; recursion_count := recursion_count s;
     node_start_pos := node_start_pos s; node_end_pos := node_end_pos s;
     heap := heap s; node_cache := node_cache s; call_cache := call_cache s;
     stdin := stdin s; stdout := stdout s; stderr := stderr s |}.

Definition set_visitor_depth (x : Z) (s : State) : State :=
  {| verbose := verbose s; global_env := global_env s;
     current_env := current_env s; conditional_flag := conditional_flag s;
     break_flag := break_flag s; continue_flag := continue_flag s;
     visitor_depth := x; recursion_count := recursion_count s;
     node_start_pos := node_start_pos s; node_end_pos := node_end_pos s;
     heap := heap s; node_cache := node_cache s; call_cache := call_cache s;
     stdin := stdin s; stdout := stdout s; stderr := stderr s |}.

Definition set_recursion_count (x : Z) (s : State) : State :=
  {| verbose := verbose s; global_env := global_env s;
     current_env := current_env s; conditional_flag := conditional_flag s;
     break_flag := break_flag s; continue_flag := continue_flag s;
     visitor_depth := visitor_depth s; recursion_count := x;
     node_start_pos := node_start_pos s; node_end_pos := node_end_pos s;
     heap := heap s; node_cache := node_cache s; call_cache := call_cache s;
     stdin := stdin s; stdout := stdout s; stderr := stderr s |}.

Definition set_node_start_pos (x : Pos) (s : State) : State :=
  {| verbose := verbose s; global_env := global_env s;
     current_env := current_env s; conditional_flag := conditional_flag s;
     break_flag := break_flag s; continue_flag := continue_flag s;
     visitor_depth := visitor_depth s; recursion_count := recursion_count s;
     node_start_pos := x; node_end_pos := node_end_pos s; heap := heap s;
     node_cache := node_cache s; call_cache := call_cache s;
     stdin := stdin s; stdout := stdout s; stderr := stderr s |}.

Definition set_node_end_pos (x : Pos) (s : State) : State :=
  {| verbose := verbose s; global_env := global_env s;
     current_env := current_env s; conditional_flag := conditional_flag s;
     break_flag := break_flag s; continue_flag := continue_flag s;
     visitor_depth := visitor_depth s; recursion_count := recursion_count s;
     node_start_pos := node_start_pos s; node_end_pos := x; heap := heap s;
     node_cache := node_cache s; call_cache := call_cache s;
     stdin := stdin s; stdout := stdout s; stderr := stderr s |}.

Definition set_heap (x : list RunTimeObject) (s : State) : State :=
  {| verbose := verbose s; global_env := global_env s;
     current_env := current_env s; conditional_flag := conditional_flag s;
     break_flag := break_flag s; continue_flag := continue_flag s;
     visitor_depth := visitor_depth s; recursion_count := recursion_count s;
     node_start_pos := node_start_pos s; node_end_pos := node_end_pos s;
     heap := x; node_cache := node_cache s; call_cache := call_cache s;
     stdin := stdin s; stdout := stdout s; stderr := stderr s |}.

Definition set_node_cache (x : gmap (nat * string) VisitMethod) (s : State) : State :=
  {| verbose := verbose s; global_env := global_env s;
     current_env := current_env s; conditional_flag := conditional_flag s;
     break_flag := break_flag s; continue_flag := continue_flag s;
     visitor_depth := visitor_depth s; recursion_count := recursion_count s;
     node_start_pos := node_start_pos s; node_end_pos := node_end_pos s;
     heap := heap s; node_cache := x; call_cache := call_cache s;
     stdin := stdin s; stdout := stdout s; stderr := stderr s |}.

Definition set_call_cache (x : list (Fingerprint * PyVal)) (s : State) : State :=
  {| verbose := verbose s; global_env := global_env s;
     current_env := current_env s; conditional_flag := conditional_flag s;
     break_flag := break_flag s; continue_flag := continue_flag s;
     visitor_depth := visitor_depth s; recursion_count := recursion_count s;
     node_start_pos := node_start_pos s; node_end_pos := node_end_pos s;
     heap := heap s; node_cache := node_cache s; call_cache := x;
     stdin := stdin s; stdout := stdout s; stderr := stderr s |}.

Definition set_stdin (x : list string) (s : State) : State :=
  {| verbose := verbose s; global_env := global_env s;
     current_env := current_env s; conditional_flag := conditional_flag s;
     break_flag := break_flag s; continue_flag := continue_flag s;
     visitor_depth := visitor_depth s; recursion_count := recursion_count s;
     node_start_pos := node_start_pos s; node_end_pos := node_end_pos s;
     heap := heap s; node_cache := node_cache s; call_cache := call_cache s;
     stdin := x; stdout := stdout s; stderr := stderr s |}.

Definition set_stdout (x : list OutEvent) (s : State) : State :=
  {| verbose := verbose s; global_env := global_env s;
     current_env := current_env s; conditional_flag := conditional_flag s;
     break_flag := break_flag s; continue_flag := continue_flag s;
     visitor_depth := visitor_depth s; recursion_count := recursion_count s;
     node_start_pos := node_start_pos s; node_end_pos := node_end_pos s;
     heap := heap s; node_cache := node_cache s; call_cache := call_cache s;
     stdin := stdin s; stdout := x; stderr := stderr s |}.

Definition set_stderr (x : list Exn) (s : State) : State :=
  {| verbose := verbose s; global_env := global_env s;
     current_env := current_env s; conditional_flag := conditional_flag s;
     break_flag := break_flag s; continue_flag := continue_flag s;
     visitor_depth := visitor_depth s; recursion_count := recursion_count s;
     node_start_pos := node_start_pos s; node_end_pos := node_end_pos s;
     heap := heap s; node_cache := node_cache s; call_cache := call_cache s;
     stdin := stdin s; stdout := stdout s; stderr := x |}.

(** ** The monad: state threaded through, exceptions short-circuiting

    A raised exception keeps the state reached so far: Python does not undo
    the assignments made before a [raise].  [OutOfFuel] is no behaviour of
    the program; it marks a run cut short by the bound on the recursion of
    the embedding. *)

Inductive Result (A : Type) :=
| Ok (a : A)
| Raise (e : Exn)
| OutOfFuel.

Arguments Ok {A} a.
Arguments Raise {A} e.
Arguments OutOfFuel {A}.

Definition M (A : Type) : Type := State -> Result A * State.

Definition ret {A : Type} (a : A) : M A := fun s => (Ok a, s).

Definition bind {A B : Type} (m : M A) (k : A -> M B) : M B :=
  fun s =>
    match m s with
    | (Ok a, s') => k a s'
    | (Raise e, s') => (Raise e, s')
    | (OutOfFuel, s') => (OutOfFuel, s')
    end.

Definition raise {A : Type} (e : Exn) : M A := fun s => (Raise e, s).
Definition out_of_fuel {A : Type} : M A := fun s => (OutOfFuel, s).
Definition gets {A : Type} (f : State -> A) : M A := fun s => (Ok (f s), s).
Definition modify (f : State -> State) : M unit := fun s => (Ok tt, f s).

Notation "x <- m ;; k" := (bind m (fun x => k))
  (at level 100, m at next level, right associativity).
Notation "m ;; k" := (bind m (fun _ => k))
  (at level 100, right associativity).

Definition when (b : bool) (m : M unit) : M unit := if b then m else ret tt.

(** [for x in xs: ...], the loop body run for its effects. *)
Fixpoint for_each {A : Type} (f : A -> M unit) (xs : list A) : M unit :=
  match xs with
  | [] => ret tt
  | x :: rest => f x ;; for_each f rest
  end.

(** [[f(x) for x in xs]] *)
Fixpoint map_M {A B : Type} (f : A -> M B) (xs : list A) : M (list B) :=
  match xs with
  | [] => ret []
  | x :: rest => y <- f x ;; ys <- map_M f rest ;; ret (y :: ys)
  end.

Definition host_error {A : Type} (exn_name : string) : M A :=
  raise (HostError exn_name).

Definition interpreter_error {A : Type} (ty : ErrorType) (msg : Message)
    (start_ end_ : Pos) : M A :=
  raise (InterpreterError ty msg start_ end_).

(** ** Runtime objects on the heap *)

(** [RunTimeObject(label, value, value_type)]: a fresh object. *)
Definition new_RunTimeObject (lbl : string) (v : Payload) (ty : option string) : M PyVal :=
  fun s => (Ok (PyObj (length (heap s))),
            set_heap (heap s ++ [mkRunTimeObject lbl v ty]) s).

(** Reading an attribute of [v]: [None] and lists have none of the three. *)
Definition get_object (v : PyVal) : M RunTimeObject :=
  match v with
  | PyObj l =>
      fun s => match heap s !! l with
               | Some o => (Ok o, s)
               | None => (Raise (HostError "ReferenceError"), s)
               end
  | PyNone | PyList _ => host_error "AttributeError"
  end.

Definition attr_label (v : PyVal) : M string := o <- get_object v ;; ret (label o).
Definition attr_value (v : PyVal) : M Payload := o <- get_object v ;; ret (value o).

(** [obj.value = v], in place. *)
Definition set_object_value (l : loc) (v : Payload) : M unit :=
  modify (fun s =>
    match heap s !! l with
    | Some o => set_heap (<[l := mkRunTimeObject (label o) v (type o)]> (heap s)) s
    | None => s
    end).

Definition payload_of (h : list RunTimeObject) (v : PyVal) : option Payload :=
  match v with
  | PyObj l => value <$> h !! l
  | _ => None
  end.

(** ** Environment operations, on the environment [current_env] refers to *)

Definition no_pos : Pos := (-1, -1).

Definition env_of (r : EnvRef) (s : State) : Environment :=
  match r with
  | GlobalEnv => global_env s
  | LocalEnv e => e
  end.

(** [self.current_env.<attr>]: an [AttributeError] once [current_env] is
    [None]. *)
Definition get_current_env : M EnvRef :=
  fun s => match current_env s with
           | Some r => (Ok r, s)
           | None => (Raise (HostError "AttributeError"), s)
           end.

Definition update_current_env (f : Environment -> Environment) : M unit :=
  r <- get_current_env ;;
  match r with
  | GlobalEnv => modify (fun s => set_global_env (f (global_env s)) s)
  | LocalEnv e => modify (set_current_env (Some (LocalEnv (f e))))
  end.

(** Modelled from the spec: [insert_variable(name, value)], "upsert into
    current scope"; [insert_array] and [insert_function] are "analogous". *)
Definition insert_variable (k : Payload) (v : PyVal) : M unit :=
  match k with
  | PStr k => update_current_env (env_insert_variable k v)
  | _ => host_error "TypeError"   (* names are identifier words *)
  end.

Definition insert_array (k : string) (a : ArraySymbol) : M unit :=
  update_current_env (env_insert_array k a).

Definition insert_function (k : string) (ps : list (string * option string))
    (b : Node) : M unit :=
  update_current_env (env_insert_function k (mkFunctionSymbol k ps b)).

(** Modelled from the spec: a lookup resolves "in the current scope, then
    chain[s] to parent until a global root", and fails when the name is
    absent (a [RUNTIME] error, "name not found"). *)
Definition lookup_in {A : Type} (ns : Environment -> gmap string A) (k : string)
    (within_scope : bool) : M A :=
  r <- get_current_env ;;
  fun s =>
    let e := env_of r s in
    match ns e !! k with
    | Some a => (Ok a, s)
    | None =>
        match (if negb within_scope && parent e then ns (global_env s) !! k else None) with
        | Some a => (Ok a, s)
        | None => (Raise (InterpreterError RUNTIME (NameNotFound (PStr k)) no_pos no_pos), s)
        end
    end.

Definition lookup_variable (k : Payload) (within_scope : bool) : M PyVal :=
  match k with
  | PStr k => lookup_in variables k within_scope
  | _ => interpreter_error RUNTIME (NameNotFound k) no_pos no_pos
  end.
Definition lookup_array (k : string) : M ArraySymbol := lookup_in arrays k false.
Definition lookup_function (k : string) : M FunctionSymbol := lookup_in functions k false.

(** [array_symbol.values[index] = v] on the symbol [lookup_array] found: the
    list is changed in the scope that holds the symbol. *)
Definition store_array_element (k : string) (idx : nat) (v : PyVal) : M unit :=
  let upd (e : Environment) : Environment :=
    match arrays e !! k with
    | Some a => env_insert_array k (mkArraySymbol (arr_name a) (arr_size a) (<[idx := v]> (values a))) e
    | None => e
    end in
  r <- get_current_env ;;
  inner <- gets (fun s => bool_decide (is_Some (arrays (env_of r s) !! k))) ;;
  if (inner : bool) then update_current_env upd
  else modify (fun s => set_global_env (upd (global_env s)) s).

(** Modelled from the spec: [Environment.hash()]. *)
Definition Environment_hash (e : Environment) (h : list RunTimeObject) : Fingerprint :=
  (name e, level e, (fun kv => (fst kv, payload_of h (snd kv))) <$> map_to_list (variables e)).

(** Modelled from the spec: [cache_mem], one mapping with two kinds of key.
    [get] answers [None] for a key that is absent, which is what
    [visit_call] tests for. *)
Fixpoint assoc_fingerprint (k : Fingerprint) (l : list (Fingerprint * PyVal)) : option PyVal :=
  match l with
  | [] => None
  | (k', v) :: rest => if decide (k = k') then Some v else assoc_fingerprint k rest
  end.

Definition cache_mem_get (k : Fingerprint) (s : State) : PyVal :=
  default PyNone (assoc_fingerprint k (call_cache s)).

Definition cache_mem_put (k : Fingerprint) (v : PyVal) : M unit :=
  modify (fun s => set_call_cache ((k, v) :: filter (fun kv => fst kv ≠ k) (call_cache s)) s).

(** The key a node object has in [cache_mem].  Python keys the entry by the
    identity of the object; an object has one label for life, so the
    identity is taken together with the label: nodes of different labels are
    never the same object. *)
Definition node_key (n : Node) : nat * string := (nid (node_info n), node_label n).

Definition cache_mem_get_node (n : Node) (s : State) : option VisitMethod :=
  node_cache s !! node_key n.

Definition cache_mem_has_key (n : Node) (s : State) : bool :=
  bool_decide (is_Some (node_cache s !! node_key n)).

Definition cache_mem_put_node (n : Node) (m : VisitMethod) : M unit :=
  modify (fun s => set_node_cache (<[node_key n := m]> (node_cache s)) s).

Definition print_event (ev : OutEvent) : M unit :=
  modify (fun s => set_stdout (stdout s ++ [ev]) s).

(** ** The interpreter ([Interpreter.py])

    The methods call one another through [node.accept(self)].  They are
    written here against a parameter [accept] standing for that call; the
    knot is tied below by recursion on a bound [fuel], which also bounds the
    iterations of a [while] loop. *)

Definition MAX_VISIT_DEPTH : Z := 5470.
Definition INTERNAL_RECURSION_LIMIT : Z := 1010.

Section Host.

(** [bool(obj)] of a runtime object, as [if stmt := ...] tests it.  The
    class is not among the sources, so whether it overrides Python's default
    (every object is true) is left open. *)
Variable RunTimeObject_bool : RunTimeObject -> bool.

Section Methods.

Variable accept : Node -> M PyVal.
Variable fuel : nat.

(** The truth value of what an evaluation handed back: [None] and the empty
    list are false, an object is what [RunTimeObject_bool] makes of it. *)
Definition is_true (v : PyVal) (s : State) : bool :=
  match v with
  | PyNone => false
  | PyList [] => false
  | PyList (_ :: _) => true
  | PyObj l =>
      match heap s !! l with
      | Some o => RunTimeObject_bool o
      | None => true
      end
  end.

Definition truthy (v : PyVal) : M bool := gets (is_true v).

Definition log (entry : LogEntry) : M unit :=
  v <- gets verbose ;; when v (print_event (OutLog entry)).

Definition set_node_pos (node : Node) : M unit :=
  modify (fun s => set_node_end_pos (end_pos (node_info node))
                     (set_node_start_pos (start_pos (node_info node)) s)).

Definition throw_invalid_operation_err {A : Type} (left_label op right_label : string) : M A :=
  s <- gets node_start_pos ;; e <- gets node_end_pos ;;
  interpreter_error RUNTIME (InvalidOperation left_label op right_label) s e.

Definition throw_unary_type_err {A : Type} (op operand : Payload) : M A :=
  s <- gets node_start_pos ;; e <- gets node_end_pos ;;
  interpreter_error TYPE (UnaryTypeError op operand) s e.

(** The value a host operator computed, wrapped in a new object; an
    exception of the host escapes as such. *)
Definition new_from (lbl : string) (r : string + Payload) : M PyVal :=
  match r with
  | inr v => new_RunTimeObject lbl v None
  | inl exn => host_error exn
  end.

Definition test_for_identifier (runtime_object : PyVal) (current_scope : bool) : M PyVal :=
  o <- get_object runtime_object ;;
  if String.eqb (label o) "identifier"
  then lookup_variable (value o) current_scope
  else ret runtime_object.

Definition check_for_stack_overflow (node : Node) : M unit :=
  rc <- gets recursion_count ;;
  if INTERNAL_RECURSION_LIMIT <? rc then
    modify (set_recursion_count 0) ;;
    interpreter_error RECURSION RecursionDepthExceeded
      (start_pos (node_info node)) (end_pos (node_info node))
  else modify (set_recursion_count (rc + 1)).

Definition handle_additive_expressions (left right : RunTimeObject) (op : string) : M PyVal :=
  if String.eqb op "+" then
    if String.eqb (label left) "string" && String.eqb (label left) (label right)
    then new_from "string" (py_add (value left) (value right))
    else if String.eqb (label left) "number" && String.eqb (label left) (label right)
    then new_from "number" (py_add (value left) (value right))
    else throw_invalid_operation_err (label left) op (label right)
  else if String.eqb op "-" then
    if String.eqb (label left) "number" && String.eqb (label left) (label right)
    then new_from "number" (py_sub (value left) (value right))
    else throw_invalid_operation_err (label left) op (label right)
  else if String.eqb op "or" then
    new_RunTimeObject (label left) (py_or (value left) (value right)) None
  else throw_invalid_operation_err (label left) op (label right).

Definition handle_multiplicative_expressions (left right : RunTimeObject) (op : string) : M PyVal :=
  if String.eqb op "*" then
    if (String.eqb (label left) "string" && String.eqb (label right) "number")
       || (String.eqb (label left) "number" && String.eqb (label right) "string")
    then new_from "string" (py_mul (value left) (value right))
    else if String.eqb (label left) "number" && String.eqb (label left) (label right)
    then new_from "number" (py_mul (value left) (value right))
    else throw_invalid_operation_err (label left) op (label right)
  else if String.eqb op "/" then
    if String.eqb (label left) "number" && String.eqb (label left) (label right) then
      if py_ne_zero (value right)
      then new_from "number" (py_truediv (value left) (value right))
      else
        s <- gets node_start_pos ;; e <- gets node_end_pos ;;
        interpreter_error RUNTIME DivisionByZero s e
    else throw_invalid_operation_err (label left) op (label right)
  else if String.eqb op "and" then
    new_RunTimeObject (label right) (py_and (value left) (value right)) None
  else throw_invalid_operation_err (label left) op (label right).

(** [a op b] on two Python values, for the six relational operators.
    [inl] names the exception: ordering values of unlike kinds is a
    [TypeError], an operator that is none of the six a [SyntaxError].  NaN
    is unequal to every number and in no order with any. *)
Definition py_compare (op : string) (a b : Payload) : string + bool :=
  let of_cmp (c : comparison) :=
    match relop_of_comparison op c with
    | Some r => inr r
    | None => inl "SyntaxError"
    end in
  let unordered (equal : bool) (ordering : string + bool) :=
    if String.eqb op "==" then inr equal
    else if String.eqb op "!=" then inr (negb equal)
    else if String.eqb op "<" || String.eqb op ">"
            || String.eqb op "<=" || String.eqb op ">="
    then ordering else inl "SyntaxError" in
  match as_number a, as_number b, a, b with
  | Some x, Some y, _, _ =>
      match num_compare x y with
      | Some c => of_cmp c
      | None => unordered false (inr false)
      end
  | _, _, PStr x, PStr y => of_cmp (String.compare x y)
  | _, _, _, _ => unordered (bool_decide (a = b)) (inl "TypeError")
  end.

(** The exception, if any, of writing a payload into an f-string: the
    decimal numeral of an integer may not have more digits than
    [int_max_str_digits]. *)
Definition format_error (p : Payload) : option string :=
  match p with
  | PInt z =>
      if 10 ^ Z.of_nat int_max_str_digits <=? Z.abs z then Some "ValueError" else None
  | _ => None
  end.

(** The value Python's [eval] reads back from the text an f-string writes
    for a payload.  The text of an integer, of a float that has a value, of
    a boolean or of [None] is a literal of that value.  The text of an
    infinity or of NaN ([inf], [-inf], [nan]) is a name, and no such name is
    defined where [eval] is called.  The text of a string is Python source
    of its own and is not evaluated here: it stands as a name that is not
    defined, as the payload ["null"] of the [null] objects is. *)
Definition eval_operand (p : Payload) : string + Payload :=
  match p with
  | PStr _ => inl "NameError"
  | PFloat (S754_infinity _) | PFloat S754_nan => inl "NameError"
  | _ => inr p
  end.

(** A string that stands for itself between double quotes. *)
Definition plain_text (s : string) : bool :=
  forallb (fun c => negb (bool_decide (nat_of_ascii c ∈ [34; 92; 10; 13]%nat)))
          (list_ascii_of_string s).

(** [eval] of the text [a op b]: the operands are evaluated from left to
    right, then compared. *)
Definition eval_relation (op : string) (a b : string + Payload) : M PyVal :=
  match a, b with
  | inr x, inr y =>
      match py_compare op x y with
      | inr r => new_RunTimeObject "boolean" (PBool r) None
      | inl exn => host_error exn
      end
  | inl exn, _ => host_error exn
  | _, inl exn => host_error exn
  end.

(** The text is written before it is evaluated: an exception of the
    writing comes first. *)
Definition formatted (operands : list Payload) (m : M PyVal) : M PyVal :=
  match omap format_error operands with
  | exn :: _ => host_error exn
  | [] => m
  end.

Definition quoted_operand (p : Payload) : string + Payload :=
  match p with
  | PStr s => if plain_text s then inr p else inl "NameError"
  | _ => inl "NameError"
  end.

Definition handle_relational_expressions (left right : RunTimeObject) (op : string) : M PyVal :=
  if String.eqb (label left) "string" && String.eqb (label right) "number" then
    match value left with
    | PStr s =>
        formatted [value right]
          (eval_relation op (inr (PInt (Z.of_nat (String.length s))))
                         (eval_operand (value right)))
    | _ => host_error "TypeError"     (* len() of a payload that has none *)
    end
  else if String.eqb (label left) (label right) then
    if String.eqb (label left) "string"
    then eval_relation op (quoted_operand (value left)) (quoted_operand (value right))
    else formatted [value left; value right]
           (eval_relation op (eval_operand (value left)) (eval_operand (value right)))
  else throw_invalid_operation_err (label left) op (label right).

Definition is_in (x : string) (xs : list string) : bool :=
  existsb (String.eqb x) xs.

Definition handle_expressions (left_node : Node) (right_node : option Node)
    (operator : option string) : M PyVal :=
  left <- accept left_node ;;
  left <- test_for_identifier left false ;;
  match operator with
  | Some op =>
      if String.eqb op "" then ret left else
      right <- match right_node with
               | Some r => accept r
               | None => host_error "AttributeError"
               end ;;
      right <- test_for_identifier right false ;;
      lo <- get_object left ;; ro <- get_object right ;;
      if is_in op ["+"; "-"; "or"] then handle_additive_expressions lo ro op
      else if is_in op ["*"; "/"; "and"] then handle_multiplicative_expressions lo ro op
      else if is_in op ["=="; "!="; "<"; ">"; "<="; ">="]
      then handle_relational_expressions lo ro op
      else throw_invalid_operation_err (label lo) op (label ro)
  | None => ret left
  end.

Definition visit_expr (node : Node) : M PyVal :=
  match node with
  | ExprNode _ l r op => set_node_pos node ;; handle_expressions l r op
  | _ => host_error "AttributeError"
  end.

Definition visit_simple_expr (node : Node) : M PyVal :=
  match node with
  | SimpleExprNode _ l r op => handle_expressions l r op
  | _ => host_error "AttributeError"
  end.

Definition visit_term (node : Node) : M PyVal :=
  match node with
  | TermNode _ l r op => handle_expressions l r op
  | _ => host_error "AttributeError"
  end.

Definition visit_factor (node : Node) : M PyVal :=
  match node with
  | FactorNode _ l r =>
      left_factor <- accept l ;;
      left_factor <- test_for_identifier left_factor false ;;
      match r with
      | None => ret left_factor
      | Some r =>
          right_factor <- accept r ;;
          right_factor <- test_for_identifier right_factor false ;;
          lo <- get_object left_factor ;; ro <- get_object right_factor ;;
          if bool_decide (value lo = PStr "not") then
            if is_in (label ro) ["string"; "number"; "identifier"; "boolean"]
            then new_RunTimeObject "boolean" (PBool (negb (py_truthy (value ro)))) None
            else throw_unary_type_err (value lo) (value ro)
          else if bool_decide (value lo = PStr "-") then
            match py_neg (value ro) with
            | Some v => new_RunTimeObject "number" v None
            | None =>
                s <- gets node_start_pos ;; e <- gets node_end_pos ;;
                interpreter_error TYPE HostTypeError s e
            end
          else ret left_factor
      end
  | _ => host_error "AttributeError"
  end.

Definition visit_operator (node : Node) : M PyVal :=
  match node with
  | OperatorNode _ v => new_RunTimeObject "operator" (PStr v) None
  | _ => host_error "AttributeError"
  end.

Definition visit_identifier (node : Node) : M PyVal :=
  match node with
  | IdentifierNode _ v => new_RunTimeObject "identifier" (PStr v) None
  | _ => host_error "AttributeError"
  end.

Definition visit_numeric_literal (node : Node) : M PyVal :=
  match node with
  | NumericLiteralNode _ v => new_RunTimeObject "number" v None
  | _ => host_error "AttributeError"
  end.

Definition visit_string_literal (node : Node) : M PyVal :=
  match node with
  | StringLiteralNode _ v => new_RunTimeObject "string" (PStr v) None
  | _ => host_error "AttributeError"
  end.

Definition visit_boolean_literal (node : Node) : M PyVal :=
  match node with
  | BooleanNode _ v => new_RunTimeObject "boolean" (PBool v) None
  | _ => host_error "AttributeError"
  end.

Definition generic_visit (node : Node) : M PyVal :=
  host_error "NotImplementedError".

(** Iterating over, or taking the length of, a value that is not a list is
    a [TypeError]. *)
Definition as_list (v : PyVal) : M (list PyVal) :=
  match v with
  | PyList xs => ret xs
  | _ => host_error "TypeError"
  end.

Definition accept_opt (node : option Node) : M PyVal :=
  match node with
  | Some n => accept n
  | None => host_error "AttributeError"    (* None.accept *)
  end.

Definition visit_args (node : Node) : M PyVal :=
  match node with
  | ArgsNode _ children => xs <- map_M accept children ;; ret (PyList xs)
  | _ => host_error "AttributeError"
  end.

Fixpoint collect_params (args_node : Node) (args : list PyVal)
    (params : list (string * option string)) : M (list (string * option string)) :=
  match args with
  | [] => ret params
  | arg :: rest =>
      o <- get_object arg ;;
      match value o with
      | PStr k =>
          if is_in k (map fst params) then
            interpreter_error RUNTIME (DuplicateParameter k)
              (start_pos (node_info args_node)) (end_pos (node_info args_node))
          else collect_params args_node rest (params ++ [(k, type o)])
      | _ => host_error "TypeError"      (* names are identifier words *)
      end
  end.

Definition visit_func_def (node : Node) : M PyVal :=
  match node with
  | FuncDefNode _ identifier args body =>
      params <- match args with
                | Some a => xs <- accept a ;; xs <- as_list xs ;; collect_params a xs []
                | None => ret []
                end ;;
      insert_function identifier params body ;;
      ret PyNone
  | _ => host_error "AttributeError"
  end.

Definition visit_program (node : Node) : M PyVal :=
  match node with
  | ProgramNode _ functions body eof =>
      if eof then ret PyNone else
      for_each (fun func => accept func ;; ret tt) functions ;;
      accept_opt body ;;
      modify (set_current_env None) ;;
      ret PyNone
  | _ => host_error "AttributeError"
  end.

(** The loop of [visit_body], with [last_evaluated_stmt] as accumulator. *)
Fixpoint visit_body_loop (statements : list Node) (last_evaluated_stmt : PyVal) : M PyVal :=
  match statements with
  | [] => ret last_evaluated_stmt
  | stmt :: rest =>
      cf <- gets conditional_flag ;;
      if (cf : bool) then modify (set_conditional_flag false) ;; ret last_evaluated_stmt
      else
        bf <- gets break_flag ;;
        if (bf : bool) then ret last_evaluated_stmt
        else
          kf <- gets continue_flag ;;
          if (kf : bool) then
            modify (set_continue_flag false) ;;
            visit_body_loop rest last_evaluated_stmt
          else
            evaluated_stmt <- accept stmt ;;
            let last := match evaluated_stmt with
                        | PyNone => last_evaluated_stmt
                        | _ => evaluated_stmt
                        end in
            if String.eqb (node_label stmt) "return" then ret last
            else visit_body_loop rest last
  end.

Definition visit_body (node : Node) : M PyVal :=
  match node with
  | BodyNode _ statements => visit_body_loop statements PyNone
  | _ => host_error "AttributeError"
  end.

Definition visit_return (node : Node) : M PyVal :=
  match node with
  | ReturnNode _ (Some expr) => accept expr
  | ReturnNode _ None => ret PyNone
  | _ => host_error "AttributeError"
  end.

Definition visit_break (node : Node) : M PyVal :=
  set_node_pos node ;; modify (set_break_flag true) ;; ret PyNone.

Definition visit_continue (node : Node) : M PyVal :=
  set_node_pos node ;; modify (set_continue_flag true) ;; ret PyNone.

(** [__handle_conditional_execution] *)
Definition handle_conditional_execution (body_node : option Node) : M PyVal :=
  match body_node with
  | None => ret PyNone
  | Some b =>
      last_evaluated_stmt <- accept b ;;
      match b with
      | BodyNode _ statements =>
          match last statements with
          | Some last_node =>
              if String.eqb (node_label last_node) "return" then
                modify (set_conditional_flag true) ;; ret last_evaluated_stmt
              else ret PyNone
          | None => host_error "IndexError"     (* statements[-1] of [] *)
          end
      | _ => host_error "AttributeError"
      end
  end.

(** The [expr] and [body] of a conditional node. *)
Definition conditional_parts (node : Node) : option (Node * option Node) :=
  match node with
  | ElifNode _ e b | IfNode _ e b _ _ | WhileNode _ e b => Some (e, b)
  | _ => None
  end.

Fixpoint visit_else_ifs (else_if_statements : list Node) (else_body : option Node) : M PyVal :=
  match else_if_statements with
  | [] =>
      match else_body with
      | Some b => handle_conditional_execution (Some b)
      | None => ret PyNone
      end
  | else_if_stmt :: rest =>
      match conditional_parts else_if_stmt with
      | Some (e, b) =>
          condition <- accept e ;;
          c <- attr_value condition ;;
          if py_truthy c then handle_conditional_execution b
          else visit_else_ifs rest else_body
      | None => host_error "AttributeError"
      end
  end.

Definition visit_if (node : Node) : M PyVal :=
  match node with
  | IfNode _ expr body else_if_statements else_body =>
      condition <- accept expr ;;
      c <- attr_value condition ;;
      if py_truthy c then handle_conditional_execution body
      else visit_else_ifs else_if_statements else_body
  | _ => host_error "AttributeError"
  end.

(** The loop of [visit_while]; [n] bounds the number of iterations. *)
Fixpoint while_loop (n : nat) (expr : Node) (body : option Node) (condition : PyVal) : M PyVal :=
  c <- attr_value condition ;;
  if py_truthy c then
    match n with
    | O => out_of_fuel
    | S n' =>
        stmt <- handle_conditional_execution body ;;
        t <- truthy stmt ;;
        if (t : bool) then ret stmt
        else
          bf <- gets break_flag ;;
          if (bf : bool) then modify (set_break_flag false) ;; ret PyNone
          else
            condition <- accept expr ;;
            while_loop n' expr body condition
    end
  else ret PyNone.

Definition visit_while (node : Node) : M PyVal :=
  match node with
  | WhileNode _ expr body =>
      condition <- accept expr ;;
      while_loop fuel expr body condition
  | _ => host_error "AttributeError"
  end.

Definition validate_range_node (range_node : Node) : M Payload :=
  runtime_object <- accept range_node ;;
  v <- attr_value runtime_object ;;
  if isinstance_int v then ret v
  else interpreter_error RUNTIME (RangeNotInteger (py_type_name v))
         (start_pos (node_info range_node)) (end_pos (node_info range_node)).

(** The loop of [visit_for] over the elements of the range. *)
Fixpoint for_loop (iterator_runtime_object : loc) (body : option Node) (rng : list Z) : M PyVal :=
  match rng with
  | [] => ret PyNone
  | i :: rest =>
      set_object_value iterator_runtime_object (PInt i) ;;
      last_evaluated <- handle_conditional_execution body ;;
      t <- truthy last_evaluated ;;
      if (t : bool) then ret last_evaluated
      else for_loop iterator_runtime_object body rest
  end.

(** [node.value] of the node that names the loop variable. *)
Definition node_value (node : Node) : M Payload :=
  match node with
  | IdentifierNode _ v | StringLiteralNode _ v | OperatorNode _ v => ret (PStr v)
  | NumericLiteralNode _ v => ret v
  | BooleanNode _ b => ret (PBool b)
  | _ => host_error "AttributeError"
  end.

Definition visit_for (node : Node) : M PyVal :=
  match node with
  | ForNode _ identifier range_start range_end body =>
      range_start <- validate_range_node range_start ;;
      range_end <- validate_range_node range_end ;;
      iterator_runtime_object <- new_RunTimeObject "number" (PInt 0) (Some "int") ;;
      k <- node_value identifier ;;
      insert_variable k iterator_runtime_object ;;
      let a := default 0 (int_value range_start) in
      let b := default 0 (int_value range_end) in
      let incrementer := if a <? b then 1 else -1 in
      match iterator_runtime_object with
      | PyObj l => for_loop l body (py_range a b incrementer)
      | _ => ret PyNone
      end
  | _ => host_error "AttributeError"
  end.

Definition visit_array_def (node : Node) : M PyVal :=
  match node with
  | ArrayNode _ _ identifier _ size _ initial_values =>
      set_node_pos node ;;
      symbol <-
        match size, initial_values with
        | Some sz, _ =>
            o <- accept sz ;;
            o <- test_for_identifier o false ;;
            array_size <- attr_value o ;;
            filler <- new_RunTimeObject "null" (PStr "null") None ;;
            match py_int array_size with
            | inr n => ret (mkArraySymbol identifier array_size (replicate (Z.to_nat n) filler))
            | inl exn => host_error exn
            end
        | None, Some (v :: vs) =>
            vals <- map_M accept (v :: vs) ;;
            ret (mkArraySymbol identifier (PInt (Z.of_nat (length (v :: vs)))) vals)
        | None, _ => ret (mkArraySymbol identifier (PInt (-1)) [])
        end ;;
      insert_array identifier symbol ;;
      ret PyNone
  | _ => host_error "AttributeError"
  end.

Definition visit_array_access (node : Node) : M PyVal :=
  match node with
  | ArrayNode _ _ identifier index _ _ _ =>
      o <- accept_opt index ;;
      o <- test_for_identifier o false ;;
      idx <- attr_value o ;;
      array_symbol <- lookup_array identifier ;;
      match as_number idx with
      | None => host_error "TypeError"           (* index < 0 *)
      | Some n =>
          if match num_compare n (NInt 0) with Some Lt => true | _ => false end
             || match num_compare n (NInt (Z.of_nat (length (values array_symbol)))) with
                | Some Lt | None => false | _ => true end
          then interpreter_error RUNTIME ArrayIndexOutOfBounds
                 (start_pos (node_info node)) (end_pos (node_info node))
          else
            match int_value idx with
            | Some z => match values array_symbol !! Z.to_nat z with
                        | Some v => ret v
                        | None => host_error "IndexError"
                        end
            | None => host_error "TypeError"     (* a float as list index *)
            end
      end
  | _ => host_error "AttributeError"
  end.

Definition visit_array_update (node : Node) : M PyVal :=
  match node with
  | ArrayNode _ _ identifier index _ val _ =>
      set_node_pos node ;;
      o <- accept_opt index ;;
      o <- test_for_identifier o false ;;
      idx <- attr_value o ;;
      value_runtime <- accept_opt val ;;
      array_symbol <- lookup_array identifier ;;
      match py_int idx with
      | inl exn => host_error exn
      | inr n =>
          if (n <? 0) || (Z.of_nat (length (values array_symbol)) <=? n)
          then interpreter_error RUNTIME ArrayIndexOutOfBounds
                 (start_pos (node_info node)) (end_pos (node_info node))
          else
            vo <- get_object value_runtime ;;
            copy <- new_RunTimeObject (label vo) (value vo) (type vo) ;;
            match int_value idx with
            | Some z => store_array_element identifier (Z.to_nat z) copy ;; ret PyNone
            | None => host_error "TypeError"
            end
      end
  | _ => host_error "AttributeError"
  end.

Definition visit_assignment (node : Node) : M PyVal :=
  match node with
  | AssignmentNode _ left_node right_node =>
      lhs <- accept left_node ;;
      rhs <- accept right_node ;;
      k <- attr_value lhs ;;
      ro <- get_object rhs ;;
      copy <- new_RunTimeObject (label ro) (value ro) (type ro) ;;
      insert_variable k copy ;;
      ret PyNone
  | _ => host_error "AttributeError"
  end.

Definition bind_params (params : list (string * option string)) (function_args : list PyVal)
    (local_env : Environment) : Environment :=
  fold_left (fun e pa => env_insert_variable (fst (fst pa)) (snd pa) e)
            (zip params function_args) local_env.

(** The first half of [visit_call]: the recursion guard, the function
    lookup, and the arguments, evaluated while [current_env] is still the
    caller's scope and bound in a fresh local environment. *)
Definition prepare_call (node : Node) (identifier : string) (args : option Node)
    : M (FunctionSymbol * Environment * option EnvRef) :=
  check_for_stack_overflow node ;;
  cur <- get_current_env ;;
  lvl <- gets (fun s => level (env_of cur s)) ;;
  let local_env := new_Environment identifier (lvl + 1) true in
  old_env <- gets current_env ;;
  function_symbol <- lookup_function identifier ;;
  local_env <-
    match args with
    | Some a =>
        function_args <- accept a ;;
        function_args <- as_list function_args ;;
        if bool_decide (length function_args ≠ length (params function_symbol)) then
          interpreter_error RUNTIME
            (InvalidArgumentCount (length (params function_symbol)) (length function_args))
            (start_pos (node_info a)) (end_pos (node_info a))
        else ret (bind_params (params function_symbol) function_args local_env)
    | None => ret local_env
    end ;;
  ret (function_symbol, local_env, old_env).

(** The second half: the body is run unless the cache holds a result that is
    not [None] for the fingerprint of the local environment. *)
Definition call_through_cache (function_symbol : FunctionSymbol) (local_env : Environment)
    (old_env : option EnvRef) : M PyVal :=
  modify (set_current_env (Some (LocalEnv local_env))) ;;
  env_hash <- gets (fun s => Environment_hash local_env (heap s)) ;;
  result <- gets (cache_mem_get env_hash) ;;
  result <- match result with
            | PyNone =>
                result <- accept (body function_symbol) ;;
                cache_mem_put env_hash result ;;
                ret result
            | _ => ret result
            end ;;
  modify (set_current_env old_env) ;;
  modify (fun s => set_recursion_count (recursion_count s - 1) s) ;;
  ret result.

Definition visit_call (node : Node) : M PyVal :=
  match node with
  | CallNode _ identifier args =>
      prepared <- prepare_call node identifier args ;;
      call_through_cache (fst (fst prepared)) (snd (fst prepared)) (snd prepared)
  | _ => host_error "AttributeError"
  end.

Definition visit_input (node : Node) : M PyVal :=
  match node with
  | InputNode _ message =>
      print_event (OutPrompt message) ;;
      pending <- gets stdin ;;
      match pending with
      | line :: rest =>
          modify (set_stdin rest) ;;
          new_RunTimeObject "string" (PStr line) None
      | [] => host_error "EOFError"
      end
  | _ => host_error "AttributeError"
  end.

Fixpoint print_args (args : list PyVal) : M unit :=
  match args with
  | [] => ret tt
  | arg :: rest =>
      runtime_value <- attr_value arg ;;
      print_event (OutPrint runtime_value (match rest with [] => "" | _ => " " end)) ;;
      print_args rest
  end.

Definition visit_print (node : Node) : M PyVal :=
  match node with
  | PrintNode _ args println =>
      xs <- accept args ;;
      xs <- as_list xs ;;
      print_args xs ;;
      when println (print_event OutNewline) ;;
      ret PyNone
  | _ => host_error "AttributeError"
  end.

Definition visit_postfix_expr (node : Node) : M PyVal :=
  match node with
  | PostfixExprNode _ left_node operator =>
      lhs <- accept left_node ;;
      runtime_object <- test_for_identifier lhs false ;;
      o <- get_object runtime_object ;;
      let step := if bool_decide (operator = Some "++") then 1 else -1 in
      match runtime_object, py_add (value o) (PInt step) with
      | PyObj l, inr v =>
          set_object_value l v ;;
          new_RunTimeObject "number" v None
      | _, inl exn => host_error exn
      | _, inr _ => host_error "TypeError"
      end
  | _ => host_error "AttributeError"
  end.

(** The call [visit_method(node)] of a bound method of the interpreter. *)
Definition call_method (m : VisitMethod) (node : Node) : M PyVal :=
  match m with
  | m_visit_program => visit_program node
  | m_visit_func_def => visit_func_def node
  | m_visit_body => visit_body node
  | m_visit_return => visit_return node
  | m_visit_break => visit_break node
  | m_visit_continue => visit_continue node
  | m_visit_if => visit_if node
  | m_visit_while => visit_while node
  | m_visit_for => visit_for node
  | m_visit_array_def => visit_array_def node
  | m_visit_array_access => visit_array_access node
  | m_visit_array_update => visit_array_update node
  | m_visit_assignment => visit_assignment node
  | m_visit_call => visit_call node
  | m_visit_input => visit_input node
  | m_visit_print => visit_print node
  | m_visit_postfix_expr => visit_postfix_expr node
  | m_visit_args => visit_args node
  | m_visit_expr => visit_expr node
  | m_visit_simple_expr => visit_simple_expr node
  | m_visit_term => visit_term node
  | m_visit_factor => visit_factor node
  | m_visit_operator => visit_operator node
  | m_visit_identifier => visit_identifier node
  | m_visit_numeric_literal => visit_numeric_literal node
  | m_visit_string_literal => visit_string_literal node
  | m_visit_boolean_literal => visit_boolean_literal node
  | m_generic_visit => generic_visit node
  end.

(** [Interpreter.visit]: the two guards, the depth count, the dispatch by
    label, and the memoization of the method under the node. *)
Definition visit (node : Node) : M PyVal :=
  depth <- gets visitor_depth ;;
  if MAX_VISIT_DEPTH <=? depth then raise RecursionError
  else
    scope <- gets current_env ;;
    match scope with
    | None =>
        interpreter_error RUNTIME UndefinedScope
          (start_pos (node_info node)) (end_pos (node_info node))
    | Some _ =>
        modify (fun s => set_visitor_depth (visitor_depth s + 1) s) ;;
        log (LogVisiting (node_label node)) ;;
        let visit_method := getattr_visit (node_label node) in
        known <- gets (cache_mem_has_key node) ;;
        when (negb known) (cache_mem_put_node node visit_method) ;;
        result <- call_method visit_method node ;;
        t <- truthy result ;;
        when t (log (LogReturned (node_label node) result)) ;;
        modify (fun s => set_visitor_depth (visitor_depth s - 1) s) ;;
        ret result
    end.

(** [Node.accept]: a memoized method is called directly, past [visit]. *)
Definition Node_accept (node : Node) : M PyVal :=
  cached_visit <- gets (cache_mem_get_node node) ;;
  match cached_visit with
  | Some m => call_method m node
  | None => visit node
  end.

End Methods.

(** [node.accept(self)], with the recursion of the methods bounded. *)
Fixpoint accept (fuel : nat) (node : Node) : M PyVal :=
  match fuel with
  | O => out_of_fuel
  | S fuel' => Node_accept (accept fuel') fuel' node
  end.

(** [Interpreter.interpret]: the two exceptions it catches are printed to
    stderr, and the call then returns [None]. *)
Definition interpret (fuel : nat) (ast : Node) : M PyVal :=
  fun s =>
    match accept fuel ast s with
    | (Raise RecursionError, s') =>
        (Ok PyNone, set_stderr (stderr s' ++ [RecursionError]) s')
    | (Raise (InterpreterError ty msg p q), s') =>
        (Ok PyNone, set_stderr (stderr s' ++ [InterpreterError ty msg p q]) s')
    | r => r
    end.

End Host.

(** ** A fresh interpreter, and the programs used below *)

(** [Interpreter(verbose)] at the start of a run, [cache_mem] cleared. *)
Definition new_Interpreter (v : bool) (input : list string) : State :=
  {| verbose := v;
     global_env := new_Environment "global" 1 false;
     current_env := Some GlobalEnv;
     conditional_flag := false; break_flag := false; continue_flag := false;
     visitor_depth := 0; recursion_count := 0;
     node_start_pos := no_pos; node_end_pos := no_pos;
     heap := [];
     node_cache := ∅; call_cache := [];
     stdin := input; stdout := []; stderr := [] |}.

(** Modelled from the spec: the "coerce to boolean" view of a runtime value
    ([RuntimeObject.py] is not among the sources), "empty string / 0 / false
    / null are falsy; everything else truthy".  It is the instance of
    [RunTimeObject_bool] the worked examples run with; none of them tests an
    object for truth. *)
Definition coerce_to_boolean (o : RunTimeObject) : bool :=
  negb (String.eqb (label o) "null") && py_truthy (value o).

(** The node with identity [n], placed on line [n]. *)
Definition at_ (n : nat) : Info := mkInfo n (Z.of_nat n, 0) (Z.of_nat n, 1).

Definition number_ (n : nat) (z : Z) : Node := NumericLiteralNode (at_ n) (PInt z).
Definition var_ (n : nat) (x : string) : Node :=
  ExprNode (at_ n) (IdentifierNode (at_ (S n)) x) None None.
Definition return_ (n : nat) (e : Node) : Node := ReturnNode (at_ n) (Some e).
Definition print_ (n : nat) (e : Node) : Node :=
  PrintNode (at_ n) (ArgsNode (at_ (S n)) [e]) false.

Definition run (fuel : nat) (node : Node) : M PyVal := accept coerce_to_boolean fuel node.

(** [return 5] as the whole program. *)
Definition body_return_5 : Node := BodyNode (at_ 1) [return_ 2 (number_ 3 5)].
Definition program_return_5 : Node := ProgramNode (at_ 0) [] (Some body_return_5) false.

(** [func f() { if true { if true { return 1 } } return 2 }] *)
Definition func_nested_return : Node :=
  FuncDefNode (at_ 12) "f" None
    (BodyNode (at_ 1)
       [ IfNode (at_ 2) (BooleanNode (at_ 3) true)
           (Some (BodyNode (at_ 4)
              [ IfNode (at_ 5) (BooleanNode (at_ 6) true)
                  (Some (BodyNode (at_ 7) [return_ 8 (number_ 9 1)])) [] None ]))
           [] None;
         return_ 10 (number_ 11 2) ]).

(** [func f() { if true { return 1 } return 2 }] *)
Definition func_single_return : Node :=
  FuncDefNode (at_ 12) "f" None
    (BodyNode (at_ 1)
       [ IfNode (at_ 2) (BooleanNode (at_ 3) true)
           (Some (BodyNode (at_ 4) [return_ 8 (number_ 9 1)])) [] None;
         return_ 10 (number_ 11 2) ]).

Definition call_f : Node := CallNode (at_ 16) "f" None.

(** [for i in 0..3 { break }  return 7] *)
Definition for_break_then_return : Node :=
  BodyNode (at_ 20)
    [ ForNode (at_ 21) (IdentifierNode (at_ 22) "i") (number_ 23 0) (number_ 24 3)
        (Some (BodyNode (at_ 25) [BreakNode (at_ 26)]));
      return_ 27 (number_ 28 7) ].

(** [while true { break }  return 7] *)
Definition while_break_then_return : Node :=
  BodyNode (at_ 20)
    [ WhileNode (at_ 21) (BooleanNode (at_ 22) true)
        (Some (BodyNode (at_ 25) [BreakNode (at_ 26)]));
      return_ 27 (number_ 28 7) ].

(** [n = 0  while n < 2 { for i in 0..3 { break }  n++ }  return n] *)
Definition nested_loops : Node :=
  BodyNode (at_ 40)
    [ AssignmentNode (at_ 41) (IdentifierNode (at_ 42) "n") (number_ 43 0);
      WhileNode (at_ 44)
        (ExprNode (at_ 45) (IdentifierNode (at_ 46) "n") (Some (number_ 47 2)) (Some "<"))
        (Some (BodyNode (at_ 48)
           [ ForNode (at_ 49) (IdentifierNode (at_ 50) "i") (number_ 51 0) (number_ 52 3)
               (Some (BodyNode (at_ 53) [BreakNode (at_ 54)]));
             PostfixExprNode (at_ 55) (IdentifierNode (at_ 56) "n") (Some "++") ]));
      return_ 57 (var_ 58 "n") ].

(** [print 1] as the whole program. *)
Definition program_print_1 : Node :=
  ProgramNode (at_ 0) [] (Some (BodyNode (at_ 1) [print_ 2 (number_ 4 1)])) false.

(** [func f(x) { return 1 }] *)
Definition func_one_param : Node :=
  FuncDefNode (at_ 10) "f" (Some (ArgsNode (at_ 11) [IdentifierNode (at_ 12) "x"]))
    (BodyNode (at_ 13) [return_ 14 (number_ 15 1)]).

(** [f(1, 2)] *)
Definition call_f_two_args : Node :=
  CallNode (at_ 16) "f" (Some (ArgsNode (at_ 17) [number_ 18 1; number_ 19 2])).

(** [print 1 / 0] as the whole program. *)
Definition program_print_1_div_0 : Node :=
  ProgramNode (at_ 0) []
    (Some (BodyNode (at_ 1)
       [ print_ 2 (ExprNode (at_ 7)
                     (TermNode (at_ 4) (number_ 5 1) (Some (number_ 6 0)) (Some "/"))
                     None None) ]))
    false.


(** [func p() { print "x" }] and [func q() { print "y"  return 1 }] *)
Definition func_p : Node :=
  FuncDefNode (at_ 10) "p" None
    (BodyNode (at_ 13) [print_ 14 (StringLiteralNode (at_ 16) "x")]).
Definition func_q : Node :=
  FuncDefNode (at_ 20) "q" None
    (BodyNode (at_ 23) [print_ 24 (StringLiteralNode (at_ 26) "y");
                        return_ 27 (number_ 28 1)]).
Definition call_p (n : nat) : Node := CallNode (at_ n) "p" None.
Definition call_q (n : nat) : Node := CallNode (at_ n) "q" None.


(** ** Notions the properties are stated with *)


(** Every value [m] returns satisfies [P]. *)
Definition returns {A : Type} (P : A -> Prop) (m : M A) : Prop :=
  forall s, match m s with
            | (Ok v, _) => P v
            | _ => True
            end.

(** [func f() { if true { if true { return 1 }  print 0 } return 2 }] *)
Definition func_nested_return_then_print : Node :=
  FuncDefNode (at_ 12) "f" None
    (BodyNode (at_ 1)
       [ IfNode (at_ 2) (BooleanNode (at_ 3) true)
           (Some (BodyNode (at_ 4)
              [ IfNode (at_ 5) (BooleanNode (at_ 6) true)
                  (Some (BodyNode (at_ 7) [return_ 8 (number_ 9 1)])) [] None;
                print_ 30 (number_ 32 0) ]))
           [] None;
         return_ 10 (number_ 11 2) ]).

(** The payload of the object an evaluation returned. *)
Definition returned_payload (r : Result PyVal * State) : option Payload :=
  match fst r with
  | Ok v => payload_of (heap (snd r)) v
  | _ => None
  end.





(** ** Two runs side by side

    The cached path of [accept] and the full path through [visit] leave
    different traces in three places only: the visitor depth, the methods
    memoized in [cache_mem], and the log lines of verbose mode. *)

(** The output of the program itself, the trace of verbose mode left out. *)
Definition is_log (ev : OutEvent) : bool :=
  match ev with OutLog _ => true | _ => false end.

Definition user_output (s : State) : list OutEvent :=
  List.filter (fun ev => negb (is_log ev)) (stdout s).

(** The method memoized under a node is the one its label selects. *)
Definition cache_consistent (s : State) : Prop :=
  forall k lbl m, node_cache s !! (k, lbl) = Some m -> m = getattr_visit lbl.

(** Two states that agree on everything but the visitor depth, the
    memoized methods and the trace. *)
Record same_but_for_visit (s t : State) : Prop := mkSame {
  sv_verbose : verbose s = verbose t;
  sv_global_env : global_env s = global_env t;
  sv_current_env : current_env s = current_env t;
  sv_conditional_flag : conditional_flag s = conditional_flag t;
  sv_break_flag : break_flag s = break_flag t;
  sv_continue_flag : continue_flag s = continue_flag t;
  sv_recursion_count : recursion_count s = recursion_count t;
  sv_node_start_pos : node_start_pos s = node_start_pos t;
  sv_node_end_pos : node_end_pos s = node_end_pos t;
  sv_heap : heap s = heap t;
  sv_call_cache : call_cache s = call_cache t;
  sv_stdin : stdin s = stdin t;
  sv_output : user_output s = user_output t;
  sv_stderr : stderr s = stderr t;
  sv_cache_left : cache_consistent s;
  sv_cache_right : cache_consistent t;
}.

(** The two errors [visit] raises before it dispatches. *)
Definition guard_error {A : Type} (r : Result A) : Prop :=
  r = Raise RecursionError \/
  exists p q, r = Raise (InterpreterError RUNTIME UndefinedScope p q).

(** Two outcomes agree: the same result in states that are the same but for
    the visit, unless a guard stopped one of the runs (whose cache is then
    still consistent). *)
Definition stopped_by_guard {A : Type} (x : Result A * State) : Prop :=
  guard_error (fst x) /\ cache_consistent (snd x).

Definition agree {A : Type} (x y : Result A * State) : Prop :=
  stopped_by_guard x \/ stopped_by_guard y \/
  (fst x = fst y /\ same_but_for_visit (snd x) (snd y)).

(** [m] run from two such states has outcomes that agree. *)
Definition sim {A : Type} (m : M A) : Prop :=
  forall s t, same_but_for_visit s t -> agree (m s) (m t).



(** What [visit] does after the method has returned [result]. *)
Definition leave_visit (tb : RunTimeObject -> bool) (node : Node) (result : PyVal) : M PyVal :=
  t <- truthy tb result ;;
  when t (log (LogReturned (node_label node) result)) ;;
  modify (fun s => set_visitor_depth (visitor_depth s - 1) s) ;;
  ret result.

(** The state in which [visit] calls the method: one level deeper, the
    visit logged, the method memoized under the node. *)
Definition enter_visit (node : Node) (s : State) : State :=
  let s1 := set_visitor_depth (visitor_depth s + 1) s in
  let s2 := if verbose s1
            then set_stdout (stdout s1 ++ [OutLog (LogVisiting (node_label node))]) s1
            else s1 in
  if cache_mem_has_key node s2 then s2
  else set_node_cache (<[node_key node := getattr_visit (node_label node)]> (node_cache s2)) s2.


(** What follows the method on either path: [visit] logs and steps back
    out, the cached path hands the result on as it is. *)
Definition finish (tb : RunTimeObject -> bool) (through_visit : bool) (node : Node)
    (result : PyVal) : M PyVal :=
  if through_visit then leave_visit tb node result else ret result.
(** ** Further programs *)

(** [continue  print 1  print 2] as a body. *)
Definition continue_then_two_prints : list Node :=
  [ContinueNode (at_ 2); print_ 3 (number_ 5 1); print_ 6 (number_ 8 2)].

(** [for i in 0..3 { print i  continue }] *)
Definition for_print_continue : Node :=
  ForNode (at_ 21) (IdentifierNode (at_ 22) "i") (number_ 23 0) (number_ 24 3)
    (Some (BodyNode (at_ 25) [print_ 26 (var_ 28 "i"); ContinueNode (at_ 30)])).


(** [func g(x, x) { return 1 }] *)
Definition func_repeated_param : Node :=
  FuncDefNode (at_ 10) "g"
    (Some (ArgsNode (at_ 11) [IdentifierNode (at_ 12) "x"; IdentifierNode (at_ 13) "x"]))
    (BodyNode (at_ 14) [return_ 15 (number_ 16 1)]).

(** [a = array of size 2], [a[k]] and [a[k] = v] *)
Definition array_a_of_2 : Node :=
  ArrayNode (at_ 2) "array_def" "a" None (Some (number_ 3 2)) None None.
Definition a_at (n : nat) (k : Z) : Node :=
  ArrayNode (at_ n) "array_access" "a" (Some (number_ (S n) k)) None None None.
Definition a_update (n : nat) (k v : Z) : Node :=
  ArrayNode (at_ n) "array_update" "a" (Some (number_ (S n) k)) None
    (Some (number_ (S (S n)) v)) None.

(** [func inc(n) { n++ }], [x = 1], [inc(x)], [y = x] and [x++] *)
Definition func_inc : Node :=
  FuncDefNode (at_ 10) "inc" (Some (ArgsNode (at_ 11) [IdentifierNode (at_ 12) "n"]))
    (BodyNode (at_ 13) [PostfixExprNode (at_ 14) (IdentifierNode (at_ 15) "n") (Some "++")]).
Definition assign_x_1 : Node :=
  AssignmentNode (at_ 20) (IdentifierNode (at_ 21) "x") (number_ 22 1).
Definition call_inc_x : Node :=
  CallNode (at_ 30) "inc" (Some (ArgsNode (at_ 31) [var_ 32 "x"])).
Definition assign_y_x : Node :=
  AssignmentNode (at_ 40) (IdentifierNode (at_ 41) "y") (var_ 42 "x").
Definition incr_x : Node :=
  PostfixExprNode (at_ 50) (IdentifierNode (at_ 51) "x") (Some "++").

(** The state after [func inc(n) { n++ }] and [x = 1]. *)
Definition after_inc_and_x : State :=
  snd (run 10 assign_x_1 (snd (run 10 func_inc (new_Interpreter false [])))).

(** [func f() { if true { return 1 } }], and [x = f()  print x] as the
    body of the program. *)
Definition func_if_return : Node :=
  FuncDefNode (at_ 12) "f" None
    (BodyNode (at_ 1)
       [ IfNode (at_ 2) (BooleanNode (at_ 3) true)
           (Some (BodyNode (at_ 4) [return_ 8 (number_ 9 1)])) [] None ]).
Definition call_then_print : Node :=
  BodyNode (at_ 20)
    [ AssignmentNode (at_ 21) (IdentifierNode (at_ 22) "x") (CallNode (at_ 23) "f" None);
      print_ 24 (var_ 26 "x") ].
Definition program_call_then_print (f : Node) : Node :=
  ProgramNode (at_ 0) [f] (Some call_then_print) false.

(** [if true { }] *)
Definition if_true_nothing : Node :=
  IfNode (at_ 1) (BooleanNode (at_ 2) true) (Some (BodyNode (at_ 3) [])) [] None.


(** The doubles 1.5, 10.0, 3.5 and 1e308, and the double nearest to 1/3. *)
Definition float_1_5 : spec_float := S754_finite false 6755399441055744 (-52).
Definition float_3_5 : spec_float := S754_finite false 7881299347898368 (-51).
Definition float_third : spec_float := S754_finite false 6004799503160661 (-54).

(** [2 ** 1024 / 1], the dividend written out as a literal. *)
Definition huge_divided_by_1 : Node :=
  TermNode (at_ 4) (NumericLiteralNode (at_ 5) (PInt (2 ^ 1024))) (Some (number_ 6 1)) (Some "/").


(** ** Further notions the properties are stated with *)


(** [x] is an object whose payload is the name [fst p] and whose type is
    [snd p]: what the argument list of a definition evaluates to. *)
Definition names_parameter (h : list RunTimeObject) (x : PyVal) (p : string * option string) : Prop :=
  exists l o, x = PyObj l /\ h !! l = Some o /\ value o = PStr (fst p) /\ type o = snd p.


(** ** What an evaluation leaves as it found it

    Whatever a method does and however it ends, it leaves the objects it
    found on the heap under their references, with the label and the type
    they were created with; it writes nothing to stderr, never changes the
    verbosity, only appends to the output and only consumes input from the
    front; and it keeps the two counters within the bounds of their
    guards. *)
Record frame (s t : State) : Prop := mkFrame {
  fr_objects : forall l o, heap s !! l = Some o ->
                 exists o', heap t !! l = Some o' /\ label o' = label o /\ type o' = type o;
  fr_verbose : verbose t = verbose s;
  fr_stderr : stderr t = stderr s;
  fr_stdout : exists out, stdout t = stdout s ++ out;
  fr_stdin : exists used, stdin s = used ++ stdin t;
  fr_depth : visitor_depth s <= MAX_VISIT_DEPTH -> visitor_depth t <= MAX_VISIT_DEPTH;
  fr_count : recursion_count s <= INTERNAL_RECURSION_LIMIT + 1 ->
             recursion_count t <= INTERNAL_RECURSION_LIMIT + 1;
}.

(** [m] keeps the frame, and when it returns normally the visitor depth is
    what it was and the recursion count has moved by [d]. *)
Definition framed_by (d : Z) {A : Type} (m : M A) : Prop :=
  forall s,
    frame s (snd (m s)) /\
    (forall a, fst (m s) = Ok a ->
       visitor_depth (snd (m s)) = visitor_depth s /\
       recursion_count (snd (m s)) = recursion_count s + d).

Definition framed {A : Type} (m : M A) : Prop := framed_by 0 m.
(** ** The AST as a dictionary ([Node.to_json])

    [to_json] copies the attribute dictionary of the node and rewrites each
    entry that is not [None]: to the text ["true"] when the value is [True]
    and to ["false"] otherwise, then to a list of dictionaries when the
    value is a list of nodes and to a dictionary when it is a node.  The
    entries are kept in the order the constructors assign the attributes. *)

Inductive Json :=
| JNull
| JString (s : string)
| JArray (items : list Json)
| JObject (entries : list (string * Json)).

(** ["true" if v is True else "false"] on a boolean attribute. *)
Definition json_of_bool (b : bool) : Json := JString (if b then "true" else "false").

(** The same on a value that is neither [None] nor [True], nor a list, a
    dictionary or a node: a string, a position, a number. *)
Definition json_of_other : Json := JString "false".

Definition json_of_option_string (o : option string) : Json :=
  match o with
  | Some _ => json_of_other
  | None => JNull
  end.

(** The entries every node starts with: [label], [start_pos], [end_pos]. *)
Definition node_entries : list (string * Json) :=
  [("label", json_of_other); ("start_pos", json_of_other); ("end_pos", json_of_other)].

(** The entries of an [ExprNode]: the three of a node, then [_left],
    [_right] and [_operator]. *)
Definition expr_entries (l r op : Json) : list (string * Json) :=
  node_entries ++ [("_left", l); ("_right", r); ("_operator", op)].

Section To_json.

(** [str(x)] of the host, for the number of a numeric literal and for the
    type of its token.  The AST of this development does not keep the token
    type of a literal; its text is a function of the node. *)
Variable py_str : Payload -> string.
Variable str_of_token_type : Info -> string.

Fixpoint to_json (n : Node) : Json :=
  let opt (o : option Node) : Json :=
    match o with
    | Some m => to_json m
    | None => JNull
    end in
  let arr (l : list Node) : Json := JArray (map to_json l) in
  match n with
  | ProgramNode _ functions body eof =>
      JObject (node_entries ++
        [("functions", arr functions); ("body", opt body); ("eof", json_of_bool eof)])
  | FuncDefNode _ _ args body =>
      JObject (node_entries ++
        [("identifier", json_of_other); ("args", opt args); ("body", to_json body)])
  | BodyNode _ statements => JObject (node_entries ++ [("statements", arr statements)])
  | BreakNode _ | ContinueNode _ => JObject node_entries
  | ReturnNode _ expr => JObject (node_entries ++ [("expr", opt expr)])
  | ArgsNode _ children => JObject (node_entries ++ [("children", arr children)])
  | WhileNode _ expr body | ElifNode _ expr body =>
      JObject (node_entries ++ [("expr", to_json expr); ("body", opt body)])
  | ForNode _ identifier range_start range_end body =>
      JObject (node_entries ++
        [("identifier", to_json identifier); ("range_start", to_json range_start);
         ("range_end", to_json range_end); ("body", opt body)])
  | IfNode _ expr body else_if_statements else_body =>
      JObject (node_entries ++
        [("expr", to_json expr); ("body", opt body);
         ("else_if_statements", arr else_if_statements); ("else_body", opt else_body)])
  | ElseNode _ body => JObject (node_entries ++ [("expr", JNull); ("body", opt body)])
  | AssignmentNode _ left_node right_node =>
      JObject (node_entries ++ [("left", to_json left_node); ("right", to_json right_node)])
  | ExprNode _ l r op | SimpleExprNode _ l r op | TermNode _ l r op =>
      JObject (expr_entries (to_json l) (opt r) (json_of_option_string op))
  | FactorNode _ l r => JObject (expr_entries (to_json l) (opt r) JNull)
  | PostfixExprNode _ l op =>
      JObject (expr_entries (to_json l) JNull (json_of_option_string op))
  | CallNode _ _ args =>
      JObject (expr_entries JNull JNull JNull ++
        [("identifier", json_of_other); ("args", opt args)])
  | InputNode _ _ => JObject (expr_entries JNull JNull JNull ++ [("message", json_of_other)])
  | PrintNode _ args println =>
      JObject (expr_entries JNull JNull JNull ++
        [("args", to_json args); ("println", json_of_bool println)])
  | ArrayNode _ _ _ index size val initial_values =>
      JObject (node_entries ++
        [("identifier", json_of_other); ("index", opt index); ("size", opt size);
         ("value", opt val);
         ("initial_values", match initial_values with
                            | Some l => arr l
                            | None => JNull
                            end)])
  | IdentifierNode _ _ | StringLiteralNode _ _ =>
      JObject (expr_entries JNull JNull JNull ++ [("value", json_of_other)])
  | NumericLiteralNode i v =>
      JObject [("type", JString (str_of_token_type i)); ("value", JString (py_str v))]
  | BooleanNode _ b => JObject [("value", JString (if b then "True" else "False"))]
  | OperatorNode _ _ => JObject (node_entries ++ [("value", json_of_other)])
  end.

End To_json.

(** The texts at the leaves of a JSON value. *)
Fixpoint json_texts (j : Json) : list string :=
  match j with
  | JNull => []
  | JString s => [s]
  | JArray items => concat (map json_texts items)
  | JObject entries => concat (map (fun kv => json_texts (snd kv)) entries)
  end.

(** The texts [to_json] can write at a leaf: the two it writes for an
    attribute, and those of a numeric or boolean literal. *)
Definition json_leaf_text (py_str : Payload -> string) (str_of_token_type : Info -> string)
    (s : string) : Prop :=
  s = "true"%string \/ s = "false"%string \/ s = "True"%string \/ s = "False"%string \/
  (exists v, s = py_str v) \/ (exists i, s = str_of_token_type i).

(** * Properties *)

(** ** Reasoning about the monad *)

Lemma bind_Ok {A B : Type} (m : M A) (k : A -> M B) s a s' :
  m s = (Ok a, s') -> bind m k s = k a s'.
Proof. intros H. unfold bind. now rewrite H. Qed.

Lemma bind_Raise {A B : Type} (m : M A) (k : A -> M B) s e s' :
  m s = (Raise e, s') -> bind m k s = (Raise e, s').
Proof. intros H. unfold bind. now rewrite H. Qed.

Lemma bind_OutOfFuel {A B : Type} (m : M A) (k : A -> M B) s s' :
  m s = (OutOfFuel, s') -> bind m k s = (OutOfFuel, s').
Proof. intros H. unfold bind. now rewrite H. Qed.

(** ** Division (C7) *)

Lemma new_from_run lbl (r : string + Payload) s :
  new_from lbl r s =
    match r with
    | inr v => (Ok (PyObj (length (heap s))),
                set_heap (heap s ++ [mkRunTimeObject lbl v None]) s)
    | inl exn => (Raise (HostError exn), s)
    end.
Proof. now destruct r. Qed.

Lemma division_on_numbers (left right : RunTimeObject) (s : State) :
  label left = "number" -> label right = "number" ->
  handle_multiplicative_expressions left right "/" s =
    if py_ne_zero (value right)
    then new_from "number" (py_truediv (value left) (value right)) s
    else (Raise (InterpreterError RUNTIME DivisionByZero (node_start_pos s) (node_end_pos s)), s).
Proof.
  intros Hl Hr. unfold handle_multiplicative_expressions. rewrite Hl, Hr.
  cbn [String.eqb Ascii.eqb Bool.eqb andb orb].
  now destruct (py_ne_zero (value right)).
Qed.

(** The payloads that [!= 0] holds to be zero. *)
Lemma py_ne_zero_false (p : Payload) :
  py_ne_zero p = false <->
  p = PInt 0 \/ p = PBool false \/ exists negative, p = PFloat (S754_zero negative).
Proof.
  split.
  - destruct p as [z|f|t|b|]; unfold py_ne_zero; simpl; try discriminate.
    + rewrite negb_false_iff, Z.eqb_eq. intros ->. now left.
    + destruct f; try discriminate. intros _. right. right. now eexists.
    + destruct b; [discriminate|]. intros _. right. now left.
  - intros [->|[->|[negative ->]]]; reflexivity.
Qed.

Lemma new_from_is_no_interpreter_error lbl r s ty msg p q t :
  new_from lbl r s <> (Raise (InterpreterError ty msg p q), t).
Proof. rewrite new_from_run. destruct r; discriminate. Qed.

Lemma division_of_other_labels (left right : RunTimeObject) (s : State) :
  label left ≠ "number" \/ label right ≠ "number" ->
  handle_multiplicative_expressions left right "/" s =
    (Raise (InterpreterError RUNTIME (InvalidOperation (label left) "/" (label right))
              (node_start_pos s) (node_end_pos s)), s).
Proof.
  intros H. unfold handle_multiplicative_expressions.
  cbn [String.eqb Ascii.eqb Bool.eqb].
  destruct (String.eqb (label left) "number") eqn:El; [|reflexivity].
  apply String.eqb_eq in El.
  destruct (String.eqb (label left) (label right)) eqn:Er; [|reflexivity].
  apply String.eqb_eq in Er. destruct H as [H|H]; [easy|]. congruence.
Qed.

Lemma int_value_as_number p z : int_value p = Some z -> as_number p = Some (NInt z).
Proof. destruct p; simpl; intros H; try discriminate; now injection H as ->. Qed.

Lemma division_of_two_integers (left right : RunTimeObject) (x y : Z) (s : State) :
  label left = "number" -> label right = "number" ->
  int_value (value left) = Some x -> int_value (value right) = Some y -> y <> 0 ->
  handle_multiplicative_expressions left right "/" s =
    match SFdiv 53 1024 (exact_float x) (exact_float y) with
    | S754_infinity _ => (Raise (HostError "OverflowError"), s)
    | q => (Ok (PyObj (length (heap s))),
            set_heap (heap s ++ [mkRunTimeObject "number" (PFloat q) None]) s)
    end.
Proof.
  intros Hl Hr Hx Hy Hz. rewrite (division_on_numbers _ _ _ Hl Hr).
  unfold py_ne_zero, py_truediv.
  rewrite (int_value_as_number _ _ Hx), (int_value_as_number _ _ Hy).
  cbn [num_is_zero]. apply Z.eqb_neq in Hz. rewrite Hz. cbn [negb].
  rewrite new_from_run. unfold float_prec, float_emax.
  now destruct (SFdiv 53 1024 (exact_float x) (exact_float y)).
Qed.

Lemma division_of_two_floats (left right : RunTimeObject) (u v : spec_float) (s : State) :
  label left = "number" -> label right = "number" ->
  value left = PFloat u -> value right = PFloat v ->
  (forall negative, v <> S754_zero negative) ->
  handle_multiplicative_expressions left right "/" s =
    (Ok (PyObj (length (heap s))),
     set_heap (heap s ++ [mkRunTimeObject "number" (PFloat (SFdiv 53 1024 u v)) None]) s).
Proof.
  intros Hl Hr Hu Hv Hz. rewrite (division_on_numbers _ _ _ Hl Hr).
  unfold py_ne_zero, py_truediv. rewrite Hu, Hv. cbn [as_number num_to_float].
  assert (E : num_is_zero (NFloat v) = false)
    by (destruct v as [negative| | |]; try reflexivity; now destruct (Hz negative)).
  rewrite E. reflexivity.
Qed.

Lemma division_of_integer_by_float (left right : RunTimeObject) (x : Z) (v : spec_float)
    (s : State) :
  label left = "number" -> label right = "number" ->
  int_value (value left) = Some x -> value right = PFloat v ->
  (forall negative, v <> S754_zero negative) ->
  handle_multiplicative_expressions left right "/" s =
    match binary_normalize 53 1024 x 0 false with
    | S754_infinity _ => (Raise (HostError "OverflowError"), s)
    | u => (Ok (PyObj (length (heap s))),
            set_heap (heap s ++ [mkRunTimeObject "number" (PFloat (SFdiv 53 1024 u v)) None]) s)
    end.
Proof.
  intros Hl Hr Hx Hv Hz. rewrite (division_on_numbers _ _ _ Hl Hr).
  unfold py_ne_zero, py_truediv. rewrite (int_value_as_number _ _ Hx), Hv.
  cbn [as_number num_to_float].
  assert (E : num_is_zero (NFloat v) = false)
    by (destruct v as [negative| | |]; try reflexivity; now destruct (Hz negative)).
  rewrite E. cbn [negb]. unfold float_of_int, float_prec, float_emax.
  destruct (binary_normalize 53 1024 x 0 false); rewrite ?E; reflexivity.
Qed.

Lemma division_of_float_by_integer (left right : RunTimeObject) (u : spec_float) (y : Z)
    (s : State) :
  label left = "number" -> label right = "number" ->
  value left = PFloat u -> int_value (value right) = Some y -> y <> 0 ->
  handle_multiplicative_expressions left right "/" s =
    match binary_normalize 53 1024 y 0 false with
    | S754_infinity _ => (Raise (HostError "OverflowError"), s)
    | v => (Ok (PyObj (length (heap s))),
            set_heap (heap s ++ [mkRunTimeObject "number" (PFloat (SFdiv 53 1024 u v)) None]) s)
    end.
Proof.
  intros Hl Hr Hu Hy Hz. rewrite (division_on_numbers _ _ _ Hl Hr).
  unfold py_ne_zero, py_truediv. rewrite (int_value_as_number _ _ Hy), Hu.
  cbn [as_number num_to_float num_is_zero].
  apply Z.eqb_neq in Hz. rewrite Hz. cbn [negb].
  unfold float_of_int, float_prec, float_emax.
  destruct (binary_normalize 53 1024 y 0 false); reflexivity.
Qed.

Lemma division_of_other_payloads (left right : RunTimeObject) (s : State) :
  label left = "number" -> label right = "number" ->
  as_number (value right) = None \/
  (as_number (value left) = None /\ py_ne_zero (value right) = true) ->
  handle_multiplicative_expressions left right "/" s = (Raise (HostError "TypeError"), s).
Proof.
  intros Hl Hr H. rewrite (division_on_numbers _ _ _ Hl Hr).
  destruct H as [H|[H Hz]].
  - unfold py_ne_zero, py_truediv. rewrite H.
    now destruct (as_number (value left)) as [[|]|].
  - rewrite Hz. unfold py_truediv. rewrite H. reflexivity.
Qed.

(** C7, amended.  [/] is defined on two operands labelled [number] only;
    any other pair of labels is the RUNTIME invalid-operation error.  On two
    numbers the RUNTIME division-by-zero error is raised exactly when the
    payload of the right operand is a zero: the integer 0, [False], or the
    float 0.0 of either sign.  Otherwise the quotient is Python's: a double.
    Of two integers (booleans counting as 1 and 0) it is the exact quotient
    rounded once to the nearest double, and an [OverflowError] of the host,
    not an error of the interpreter, when that is beyond the doubles.  With
    a float among the operands the integer is converted first, an
    [OverflowError] when it is beyond the doubles, and the division is that
    of the doubles, which raises nothing: it overflows to an infinity and
    yields NaN.  When a payload is no number at all (a string or
    [None] under the label [number]) the division is a [TypeError] of the
    host.  The program [print 1 / 0] ends with the division-by-zero
    diagnostic on stderr and prints nothing. *)
Theorem division_by_zero_is_a_runtime_error :
  (forall (left right : RunTimeObject) (s : State),
     label left = "number" -> label right = "number" ->
     (handle_multiplicative_expressions left right "/" s =
        (Raise (InterpreterError RUNTIME DivisionByZero (node_start_pos s) (node_end_pos s)), s)
      <->
      value right = PInt 0 \/ value right = PBool false \/
      exists negative, value right = PFloat (S754_zero negative))) /\
  (forall (left right : RunTimeObject) (x y : Z) (s : State),
     label left = "number" -> label right = "number" ->
     int_value (value left) = Some x -> int_value (value right) = Some y -> y <> 0 ->
     handle_multiplicative_expressions left right "/" s =
       match SFdiv 53 1024 (exact_float x) (exact_float y) with
       | S754_infinity _ => (Raise (HostError "OverflowError"), s)
       | q => (Ok (PyObj (length (heap s))),
               set_heap (heap s ++ [mkRunTimeObject "number" (PFloat q) None]) s)
       end) /\
  (forall (left right : RunTimeObject) (u v : spec_float) (s : State),
     label left = "number" -> label right = "number" ->
     value left = PFloat u -> value right = PFloat v ->
     (forall negative, v <> S754_zero negative) ->
     handle_multiplicative_expressions left right "/" s =
       (Ok (PyObj (length (heap s))),
        set_heap (heap s ++ [mkRunTimeObject "number" (PFloat (SFdiv 53 1024 u v)) None]) s)) /\
  (forall (left right : RunTimeObject) (x : Z) (v : spec_float) (s : State),
     label left = "number" -> label right = "number" ->
     int_value (value left) = Some x -> value right = PFloat v ->
     (forall negative, v <> S754_zero negative) ->
     handle_multiplicative_expressions left right "/" s =
       match binary_normalize 53 1024 x 0 false with
       | S754_infinity _ => (Raise (HostError "OverflowError"), s)
       | u => (Ok (PyObj (length (heap s))),
               set_heap (heap s ++
                 [mkRunTimeObject "number" (PFloat (SFdiv 53 1024 u v)) None]) s)
       end) /\
  (forall (left right : RunTimeObject) (u : spec_float) (y : Z) (s : State),
     label left = "number" -> label right = "number" ->
     value left = PFloat u -> int_value (value right) = Some y -> y <> 0 ->
     handle_multiplicative_expressions left right "/" s =
       match binary_normalize 53 1024 y 0 false with
       | S754_infinity _ => (Raise (HostError "OverflowError"), s)
       | v => (Ok (PyObj (length (heap s))),
               set_heap (heap s ++
                 [mkRunTimeObject "number" (PFloat (SFdiv 53 1024 u v)) None]) s)
       end) /\
  (forall (left right : RunTimeObject) (s : State),
     label left = "number" -> label right = "number" ->
     (exists t, value right = PStr t) \/ value right = PNone \/
     (((exists t, value left = PStr t) \/ value left = PNone) /\
      value right <> PInt 0 /\ value right <> PBool false /\
      forall negative, value right <> PFloat (S754_zero negative)) ->
     handle_multiplicative_expressions left right "/" s = (Raise (HostError "TypeError"), s)) /\
  (forall (left right : RunTimeObject) (s : State),
     label left ≠ "number" \/ label right ≠ "number" ->
     handle_multiplicative_expressions left right "/" s =
       (Raise (InterpreterError RUNTIME (InvalidOperation (label left) "/" (label right))
                 (node_start_pos s) (node_end_pos s)), s)) /\
  (let r := interpret coerce_to_boolean 20 program_print_1_div_0 (new_Interpreter false []) in
   fst r = Ok PyNone /\ stdout (snd r) = [] /\
   stderr (snd r) = [InterpreterError RUNTIME DivisionByZero (7, 0) (7, 1)]).
Proof.
  split.
  { intros left right s Hl Hr. rewrite (division_on_numbers _ _ _ Hl Hr).
    rewrite <- py_ne_zero_false.
    destruct (py_ne_zero (value right)); split; try easy.
    intros H. now apply new_from_is_no_interpreter_error in H. }
  split; [exact division_of_two_integers|].
  split; [exact division_of_two_floats|].
  split; [exact division_of_integer_by_float|].
  split; [exact division_of_float_by_integer|].
  split.
  { intros left right s Hl Hr H. apply (division_of_other_payloads _ _ _ Hl Hr).
    destruct H as [[t H]|[H|[Hleft (H1 & H2 & H3)]]].
    - left. now rewrite H.
    - left. now rewrite H.
    - right. split.
      + destruct Hleft as [[t H]|H]; now rewrite H.
      + destruct (py_ne_zero (value right)) eqn:E; [reflexivity|].
        apply py_ne_zero_false in E as [E|[E|[negative E]]]; [easy|easy|].
        now destruct (H3 negative). }
  split; [exact division_of_other_labels|].
  vm_compute. repeat split.
Qed.

(** The theorem at [7 / 2], which is 3.5, at [1 / 3], which is the double
    nearest to a third, at [7 / 0] and at [1.5 / 0.0]. *)
Lemma division_by_zero_is_a_runtime_error_witness :
  let number p := mkRunTimeObject "number" p None in
  let s := new_Interpreter false [] in
  handle_multiplicative_expressions (number (PInt 7)) (number (PInt 2)) "/" s =
    (Ok (PyObj 0%nat), set_heap [number (PFloat float_3_5)] s) /\
  handle_multiplicative_expressions (number (PInt 1)) (number (PInt 3)) "/" s =
    (Ok (PyObj 0%nat), set_heap [number (PFloat float_third)] s) /\
  handle_multiplicative_expressions (number (PInt 7)) (number (PInt 0)) "/" s =
    (Raise (InterpreterError RUNTIME DivisionByZero no_pos no_pos), s) /\
  handle_multiplicative_expressions (number (PFloat float_1_5))
      (number (PFloat (S754_zero true))) "/" s =
    (Raise (InterpreterError RUNTIME DivisionByZero no_pos no_pos), s).
Proof.
  intros number s.
  destruct division_by_zero_is_a_runtime_error as (Hzero & Hint & _).
  split; [|split; [|split]].
  - rewrite (Hint (number (PInt 7)) (number (PInt 2)) 7 2 s eq_refl eq_refl eq_refl eq_refl);
      [reflexivity|lia].
  - rewrite (Hint (number (PInt 1)) (number (PInt 3)) 1 3 s eq_refl eq_refl eq_refl eq_refl);
      [reflexivity|lia].
  - apply (Hzero (number (PInt 7)) (number (PInt 0)) s eq_refl eq_refl). now left.
  - apply (Hzero (number (PFloat float_1_5)) (number (PFloat (S754_zero true))) s
             eq_refl eq_refl).
    right. right. now exists true.
Defined.

(** The C7 counterexample: [2 ** 1024 / 1] has a right operand that is not
    zero and yields no quotient: the evaluation ends in Python's
    [OverflowError], which is no error of the interpreter. *)
Lemma huge_quotient_is_an_overflow_error :
  fst (run 20 huge_divided_by_1 (new_Interpreter false [])) =
    Raise (HostError "OverflowError").
Proof. vm_compute. reflexivity. Qed.

(** ** Relational operators on a string and a number (C8) *)


















(** ** What [interpret] returns (C1) *)

Lemma returns_ret {A : Type} (P : A -> Prop) (a : A) : P a -> returns P (ret a).
Proof. intros H s. exact H. Qed.

Lemma returns_raise {A : Type} (P : A -> Prop) (e : Exn) : returns P (raise e).
Proof. intros s. exact I. Qed.

Lemma returns_bind {A B : Type} (P : A -> Prop) (Q : B -> Prop) (m : M A) (k : A -> M B) :
  returns P m -> (forall a, P a -> returns Q (k a)) -> returns Q (bind m k).
Proof.
  intros Hm Hk s. unfold bind. specialize (Hm s).
  destruct (m s) as [[a| |] s']; [|exact I|exact I].
  exact (Hk a Hm s').
Qed.

Lemma returns_any {A : Type} (m : M A) : returns (fun _ => True) m.
Proof. intros s. now destruct (m s) as [[| |] ?]. Qed.

Lemma returns_then {A B : Type} (Q : B -> Prop) (m : M A) (k : A -> M B) :
  (forall a, returns Q (k a)) -> returns Q (bind m k).
Proof. intros Hk. apply (returns_bind (fun _ => True)); [apply returns_any|auto]. Qed.

Lemma visit_program_returns_None acc node :
  returns (eq PyNone) (visit_program acc node).
Proof.
  destruct node; try apply returns_raise.
  unfold visit_program. destruct eof; [now apply returns_ret|].
  repeat (apply returns_then; intros). now apply returns_ret.
Qed.

Lemma call_method_on_program_returns_None tb acc fuel m i functions body eof :
  returns (eq PyNone) (call_method tb acc fuel m (ProgramNode i functions body eof)).
Proof.
  destruct m; try apply returns_raise.
  - apply visit_program_returns_None.
  - unfold call_method, visit_break. repeat (apply returns_then; intros). now apply returns_ret.
  - unfold call_method, visit_continue. repeat (apply returns_then; intros). now apply returns_ret.
Qed.

Lemma accept_program_returns_None tb fuel i functions body eof :
  returns (eq PyNone) (accept tb fuel (ProgramNode i functions body eof)).
Proof.
  destruct fuel as [|fuel]; [intros s; exact I|].
  cbn [accept]. unfold Node_accept.
  apply returns_then. intros [m|].
  - apply call_method_on_program_returns_None.
  - unfold visit. apply returns_then. intros depth.
    destruct (MAX_VISIT_DEPTH <=? depth); [apply returns_raise|].
    apply returns_then. intros [scope|]; [|apply returns_raise].
    do 4 (apply returns_then; intros).
    eapply returns_bind; [apply call_method_on_program_returns_None|].
    intros result <-. repeat (apply returns_then; intros). now apply returns_ret.
Qed.

(** C1 (the code departs from the claim).  [interpret] never returns the
    value of the program body: whatever the program, when it returns a value
    at all that value is [None].  For the program [return 5] the body
    evaluates to the number 5 and [interpret] returns [None]. *)
Theorem interpret_discards_the_program_value :
  (forall tb fuel i functions body eof s,
     match interpret tb fuel (ProgramNode i functions body eof) s with
     | (Ok v, _) => v = PyNone
     | _ => True
     end) /\
  (let s := new_Interpreter false [] in
   fst (interpret coerce_to_boolean 20 program_return_5 s) = Ok PyNone /\
   stderr (snd (interpret coerce_to_boolean 20 program_return_5 s)) = [] /\
   fst (run 20 body_return_5 s) = Ok (PyObj 0%nat) /\
   heap (snd (run 20 body_return_5 s)) !! 0%nat = Some (mkRunTimeObject "number" (PInt 5) None)).
Proof.
  split.
  - intros tb fuel i functions body eof s. unfold interpret.
    pose proof (accept_program_returns_None tb fuel i functions body eof s) as H.
    destruct (accept tb fuel (ProgramNode i functions body eof) s) as [[v|e|] s'].
    + now symmetry.
    + destruct e; auto.
    + exact I.
  - vm_compute. repeat split.
Qed.

(** ** Return from nested conditionals (C2) *)

(** C2 (the code departs from the claim).  A [return] one conditional deep
    is the value of the call.  Two conditionals deep it is lost: the call of
    [f] yields [None], neither 1 nor the 2 of the statement after the outer
    [if], which is not evaluated; when a statement follows the inner [if],
    the function goes on after the outer [if] and yields 2. *)
Theorem return_two_conditionals_deep_is_lost :
  let s := new_Interpreter false [] in
  let single := (run 20 func_single_return ;; run 20 call_f) s in
  let nested := (run 20 func_nested_return ;; run 20 call_f) s in
  let followed := (run 20 func_nested_return_then_print ;; run 20 call_f) s in
  returned_payload single = Some (PInt 1) /\
  fst nested = Ok PyNone /\
  map value (heap (snd nested)) = [PBool true; PBool true; PInt 1] /\
  returned_payload followed = Some (PInt 2) /\
  stdout (snd followed) = [].
Proof. vm_compute. repeat split. Qed.

(** ** [break] in loops (C3) *)

(** C3 (the code departs from the claim).  A [while] loop consumes
    [break_flag]: after [while true { break }] the flag is clear and the
    next statement runs.  A [for] loop does not: after
    [for i in 0..3 { break }] the loop variable has gone through all of
    0, 1, 2, the flag is still set, and the [return 7] that follows is
    skipped.  In [while n < 2 { for .. { break }  n++ }] the one [break]
    ends both loops: [n] is still 0 afterwards. *)
Theorem for_loop_leaves_break_flag_set :
  let s := new_Interpreter false [] in
  let after_while := run 30 while_break_then_return s in
  let after_for := run 30 for_break_then_return s in
  let after_nested := run 60 nested_loops s in
  (returned_payload after_while = Some (PInt 7) /\ break_flag (snd after_while) = false) /\
  (fst after_for = Ok PyNone /\ break_flag (snd after_for) = true /\
   heap (snd after_for) !! 2%nat = Some (mkRunTimeObject "number" (PInt 2) (Some "int"))) /\
  returned_payload after_nested = Some (PInt 0).
Proof. vm_compute. repeat split. Qed.

(** ** The memoized method against the full visit (C5) *)

(** C5 (the code departs from the claim).  The cached path of [accept]
    calls the method without the two guards of [visit].  A literal that is
    cached evaluates at a visitor depth at which the full path raises the
    visitor-depth error, and in an undefined scope, where the full path
    raises the RUNTIME error.  Interpreting [print 1] twice with one
    interpreter prints twice and reports nothing, where the full visit path
    (the node entries of the cache cleared in between) prints once and
    reports the undefined scope. *)
Theorem cached_path_skips_the_guards :
  let s := new_Interpreter false [] in
  let literal := number_ 4 1 in
  let cached t := set_node_cache (<[node_key literal := getattr_visit (node_label literal)]> ∅) t in
  let deep := set_visitor_depth MAX_VISIT_DEPTH s in
  let unscoped := set_current_env None s in
  (fst (run 5 literal deep) = Raise RecursionError /\
   fst (run 5 literal (cached deep)) = Ok (PyObj 0%nat)) /\
  (fst (run 5 literal unscoped) = Raise (InterpreterError RUNTIME UndefinedScope (4, 0) (4, 1)) /\
   fst (run 5 literal (cached unscoped)) = Ok (PyObj 0%nat)) /\
  (let twice :=
     (interpret coerce_to_boolean 20 program_print_1 ;;
      interpret coerce_to_boolean 20 program_print_1) s in
   let twice_uncached :=
     (interpret coerce_to_boolean 20 program_print_1 ;;
      modify (set_node_cache ∅) ;;
      interpret coerce_to_boolean 20 program_print_1) s in
   stdout (snd twice) = [OutPrint (PInt 1) ""; OutPrint (PInt 1) ""] /\
   stderr (snd twice) = [] /\
   stdout (snd twice_uncached) = [OutPrint (PInt 1) ""] /\
   stderr (snd twice_uncached) = [InterpreterError RUNTIME UndefinedScope (0, 0) (0, 1)]).
Proof. vm_compute. repeat split. Qed.

(** ** The number of arguments of a call (C6) *)

(** C6 (the code departs from the claim).  A call that passes arguments is
    checked against the number of parameters: [f(1, 2)] on
    [func f(x) { return 1 }] is the RUNTIME error, and so is a call whose
    argument list is present and empty.  A call without arguments
    ([args] is [None]) is not checked: [f()] runs the body and yields 1. *)
Theorem call_without_arguments_is_not_checked :
  let s := new_Interpreter false [] in
  let empty_args := CallNode (at_ 16) "f" (Some (ArgsNode (at_ 17) [])) in
  fst ((run 20 func_one_param ;; run 20 call_f_two_args) s) =
    Raise (InterpreterError RUNTIME (InvalidArgumentCount 1 2) (17, 0) (17, 1)) /\
  fst ((run 20 func_one_param ;; run 20 empty_args) s) =
    Raise (InterpreterError RUNTIME (InvalidArgumentCount 1 0) (17, 0) (17, 1)) /\
  returned_payload ((run 20 func_one_param ;; run 20 call_f) s) = Some (PInt 1).
Proof. vm_compute. repeat split. Qed.

(** ** Truth of a condition (C9) *)







(** ** The call cache (C10) *)

Lemma assoc_fingerprint_put (h : Fingerprint) (r : PyVal) (t : State) :
  assoc_fingerprint h (call_cache (snd (cache_mem_put h r t))) = Some r.
Proof.
  unfold cache_mem_put, modify. simpl. destruct (decide (h = h)); [reflexivity|contradiction].
Qed.

(** C10.  Once a call is prepared (the function found, the arguments bound
    in the local environment), [visit_call] looks the fingerprint of that
    environment up in the cache.  A stored result that is not [None] is
    returned as it is, and the body is not run: apart from the scope
    switched and restored and the recursion counter the state is the one the
    preparation left.  When nothing is stored, or what is stored is [None],
    the call does one and the same thing: it runs the body and stores the
    result; a run that yields [None] leaves [None] in the cache, so the next
    call with this fingerprint runs the body again. *)
Theorem call_cache_never_serves_None :
  forall (acc : Node -> M PyVal) i identifier args fs local_env old_env s s1,
    prepare_call acc (CallNode i identifier args) identifier args s
      = (Ok (fs, local_env, old_env), s1) ->
    let h := Environment_hash local_env (heap s1) in
    let entered := set_current_env (Some (LocalEnv local_env)) s1 in
    let leave t := set_recursion_count (recursion_count t - 1) (set_current_env old_env t) in
    (forall v, assoc_fingerprint h (call_cache s1) = Some v -> v ≠ PyNone ->
       visit_call acc (CallNode i identifier args) s = (Ok v, leave entered)) /\
    (assoc_fingerprint h (call_cache s1) = None \/
     assoc_fingerprint h (call_cache s1) = Some PyNone ->
       visit_call acc (CallNode i identifier args) s =
         match acc (body fs) entered with
         | (Ok r, t) => (Ok r, leave (snd (cache_mem_put h r t)))
         | (Raise e, t) => (Raise e, t)
         | (OutOfFuel, t) => (OutOfFuel, t)
         end) /\
    (forall r t, assoc_fingerprint h (call_cache (snd (cache_mem_put h r t))) = Some r).
Proof.
  intros acc i identifier args fs local_env old_env s s1 Hprep h entered leave.
  split; [|split].
  - intros v Hv Hne. unfold visit_call. rewrite (bind_Ok _ _ _ _ _ Hprep).
    unfold call_through_cache, cache_mem_get. cbv [bind modify gets ret]. simpl.
    fold h. rewrite Hv. simpl.
    destruct v; [contradiction|reflexivity|reflexivity].
  - intros Hmiss. unfold visit_call. rewrite (bind_Ok _ _ _ _ _ Hprep).
    assert (E : default PyNone (assoc_fingerprint h (call_cache s1)) = PyNone)
      by (destruct Hmiss as [-> | ->]; reflexivity).
    unfold call_through_cache, cache_mem_get. cbv [bind modify gets ret]. simpl.
    fold h. rewrite E. fold entered.
    destruct (acc (body fs) entered) as [[r|e|] t]; reflexivity.
  - intros r t. apply assoc_fingerprint_put.
Qed.

(** ** The [for] loop (C4) *)














(** The C10 theorem at the second call of [p], whose first call left
    [None] in the cache, and at the second call of [q], whose first call
    left the number 1 there: [p] prints again, [q] does not. *)
Lemma call_cache_never_serves_None_witness :
  let s := new_Interpreter false [] in
  let after_p := snd ((run 20 func_p ;; run 20 (call_p 30)) s) in
  let after_q := snd ((run 20 func_q ;; run 20 (call_q 30)) s) in
  (call_cache after_p = [(("p"%string, 2, []), PyNone)] /\
   stdout after_p = [OutPrint (PStr "x") ""] /\
   stdout (snd (visit_call (run 20) (call_p 31) after_p)) =
     [OutPrint (PStr "x") ""; OutPrint (PStr "x") ""]) /\
  (call_cache after_q = [(("q"%string, 2, []), PyObj 1%nat)] /\
   stdout after_q = [OutPrint (PStr "y") ""] /\
   visit_call (run 20) (call_q 31) after_q = (Ok (PyObj 1%nat), after_q)).
Proof.
  intros s after_p after_q. split.
  - split; [vm_compute; reflexivity|]. split; [vm_compute; reflexivity|].
    set (s1 := snd (prepare_call (run 20) (call_p 31) "p" None after_p)).
    destruct (call_cache_never_serves_None (run 20) (at_ 31) "p"%string None
                (mkFunctionSymbol "p" [] (BodyNode (at_ 13) [print_ 14 (StringLiteralNode (at_ 16) "x")]))
                (new_Environment "p" 2 true) (Some GlobalEnv) after_p s1)
      as (_ & Hmiss & _).
    + vm_compute. reflexivity.
    + unfold call_p in *. rewrite Hmiss.
      * vm_compute. reflexivity.
      * right. vm_compute. reflexivity.
  - split; [vm_compute; reflexivity|]. split; [vm_compute; reflexivity|].
    set (s1 := snd (prepare_call (run 20) (call_q 31) "q" None after_q)).
    destruct (call_cache_never_serves_None (run 20) (at_ 31) "q"%string None
                (mkFunctionSymbol "q" []
                   (BodyNode (at_ 23) [print_ 24 (StringLiteralNode (at_ 26) "y");
                                       return_ 27 (number_ 28 1)]))
                (new_Environment "q" 2 true) (Some GlobalEnv) after_q s1)
      as (Hhit & _ & _).
    + vm_compute. reflexivity.
    + unfold call_q in *. rewrite (Hhit (PyObj 1%nat)).
      * vm_compute. reflexivity.
      * vm_compute. reflexivity.
      * discriminate.
Defined.

(** ** The cached path and the full visit agree, the guards apart *)

Lemma sim_ret {A : Type} (a : A) : sim (ret a).
Proof. intros s t H. right. right. split; [reflexivity|exact H]. Qed.

Lemma sim_raise {A : Type} (e : Exn) : sim (@raise A e).
Proof. intros s t H. right. right. split; [reflexivity|exact H]. Qed.

Lemma sim_out_of_fuel {A : Type} : sim (@out_of_fuel A).
Proof. intros s t H. right. right. split; [reflexivity|exact H]. Qed.

Lemma sim_bind {A B : Type} (m : M A) (k : A -> M B) :
  sim m -> (forall a, sim (k a)) -> sim (bind m k).
Proof.
  intros Hm Hk s t H. unfold bind. specialize (Hm s t H).
  unfold agree, stopped_by_guard in Hm |- *.
  destruct (m s) as [ra s'], (m t) as [rb t']. simpl in Hm.
  destruct Hm as [[Hg Hc]|[[Hg Hc]|[E Hs]]].
  - left. destruct Hg as [->|(p & q & ->)]; (split; [|exact Hc]); [now left|right; eauto].
  - right. left. destruct Hg as [->|(p & q & ->)]; (split; [|exact Hc]); [now left|right; eauto].
  - subst rb. destruct ra as [a|e|].
    + apply Hk, Hs.
    + right. right. split; [reflexivity|exact Hs].
    + right. right. split; [reflexivity|exact Hs].
Qed.

Lemma sim_gets {A : Type} (f : State -> A) :
  (forall s t, same_but_for_visit s t -> f s = f t) -> sim (gets f).
Proof.
  intros Hf s t H. right. right. unfold gets. simpl. split; [now rewrite (Hf s t H)|exact H].
Qed.

Lemma sim_modify (f : State -> State) :
  (forall s t, same_but_for_visit s t -> same_but_for_visit (f s) (f t)) -> sim (modify f).
Proof. intros Hf s t H. right. right. unfold modify. simpl. split; [reflexivity|now apply Hf]. Qed.

(** A state function that reads only what the two states share. *)
Lemma sim_state {A : Type} (m : M A) :
  (forall s t, same_but_for_visit s t ->
     fst (m s) = fst (m t) /\ same_but_for_visit (snd (m s)) (snd (m t))) -> sim m.
Proof. intros Hm s t H. right. right. now apply Hm. Qed.

Ltac same_fields :=
  match goal with
  | H : same_but_for_visit _ _ |- _ => destruct H
  end.

Ltac solve_same :=
  intros; same_fields; constructor; simpl; unfold user_output in *; simpl;
  try congruence; auto.

Ltac solve_read :=
  intros; same_fields; simpl; unfold cache_mem_get in *; simpl; try congruence; auto.

Lemma sim_new_RunTimeObject lbl v ty : sim (new_RunTimeObject lbl v ty).
Proof.
  apply sim_state. intros s t H. unfold new_RunTimeObject. simpl. split.
  - now rewrite (sv_heap _ _ H).
  - rewrite (sv_heap _ _ H). solve_same.
Qed.

Lemma sim_get_object v : sim (get_object v).
Proof.
  destruct v; try apply sim_raise.
  apply sim_state. intros s t H. unfold get_object. rewrite (sv_heap _ _ H).
  destruct (heap t !! l); simpl; auto.
Qed.

Lemma sim_get_current_env : sim get_current_env.
Proof.
  apply sim_state. intros s t H. unfold get_current_env. rewrite (sv_current_env _ _ H).
  destruct (current_env t); simpl; auto.
Qed.

Lemma sim_lookup_in {A : Type} (ns : Environment -> gmap string A) k w : sim (lookup_in ns k w).
Proof.
  unfold lookup_in. apply sim_bind; [apply sim_get_current_env|]. intros r.
  apply sim_state. intros s t H.
  assert (E : env_of r s = env_of r t) by (destruct r; simpl; [apply H|reflexivity]).
  rewrite E, (sv_global_env _ _ H).
  destruct (ns (env_of r t) !! k); simpl; auto.
  destruct (if negb w && parent (env_of r t) then ns (global_env t) !! k else None); simpl; auto.
Qed.

Create HintDb simdb discriminated.
#[local] Hint Resolve sim_ret sim_raise sim_out_of_fuel sim_new_RunTimeObject
  sim_get_object sim_get_current_env : simdb.
#[local] Hint Extern 1 (sim (lookup_in _ _ _)) => apply sim_lookup_in : simdb.

Ltac sim_step :=
  first
    [ solve [auto with simdb]
    | apply sim_gets; solve [solve_read]
    | apply sim_modify; solve [solve_same]
    | apply sim_bind; [|intros ?]
    | match goal with
      | |- sim (match ?x with _ => _ end) => destruct x
      | |- sim (if ?b then _ else _) => destruct b
      | |- sim (let _ := _ in _) => cbv zeta
      end ].

Ltac sim_auto := repeat sim_step.

Lemma sim_host_error {A : Type} n : sim (@host_error A n).
Proof. apply sim_raise. Qed.
Lemma sim_interpreter_error {A : Type} ty msg p q : sim (@interpreter_error A ty msg p q).
Proof. apply sim_raise. Qed.
#[local] Hint Resolve sim_host_error sim_interpreter_error : simdb.

Lemma sim_when b m : sim m -> sim (when b m).
Proof. destruct b; simpl; auto with simdb. Qed.

Lemma sim_attr_value v : sim (attr_value v).
Proof. unfold attr_value. sim_auto. Qed.
Lemma sim_attr_label v : sim (attr_label v).
Proof. unfold attr_label. sim_auto. Qed.

Lemma sim_print_event ev : is_log ev = false -> sim (print_event ev).
Proof.
  intros Hev. unfold print_event. apply sim_modify. intros s t H.
  destruct H; constructor; simpl; auto. unfold user_output in *. simpl.
  rewrite !List.filter_app. simpl. rewrite Hev. simpl. congruence.
Qed.

Lemma sim_log_event entry : sim (print_event (OutLog entry)).
Proof.
  unfold print_event. apply sim_modify. intros s t H.
  destruct H; constructor; simpl; auto. unfold user_output in *. simpl.
  rewrite !List.filter_app. simpl. rewrite !app_nil_r. assumption.
Qed.

Lemma sim_log entry : sim (log entry).
Proof. unfold log. sim_auto. apply sim_when, sim_log_event. Qed.
#[local] Hint Resolve sim_attr_value sim_attr_label sim_log : simdb.
#[local] Hint Extern 1 (sim (print_event _)) => (apply sim_print_event; reflexivity) : simdb.

Lemma sim_set_node_pos node : sim (set_node_pos node).
Proof. unfold set_node_pos. sim_auto. Qed.

Lemma sim_throw_invalid_operation_err {A : Type} l op r :
  sim (@throw_invalid_operation_err A l op r).
Proof. unfold throw_invalid_operation_err. sim_auto. Qed.

Lemma sim_throw_unary_type_err {A : Type} op operand :
  sim (@throw_unary_type_err A op operand).
Proof. unfold throw_unary_type_err. sim_auto. Qed.

Lemma sim_new_from lbl r : sim (new_from lbl r).
Proof. unfold new_from. sim_auto. Qed.

#[local] Hint Resolve sim_set_node_pos sim_throw_invalid_operation_err
  sim_throw_unary_type_err sim_new_from : simdb.

Lemma sim_update_current_env f : sim (update_current_env f).
Proof. unfold update_current_env. sim_auto. Qed.
#[local] Hint Resolve sim_update_current_env : simdb.

Lemma sim_insert_variable k v : sim (insert_variable k v).
Proof. unfold insert_variable. sim_auto. Qed.
Lemma sim_insert_array k a : sim (insert_array k a).
Proof. unfold insert_array. sim_auto. Qed.
Lemma sim_insert_function k ps b : sim (insert_function k ps b).
Proof. unfold insert_function. sim_auto. Qed.
Lemma sim_lookup_variable k w : sim (lookup_variable k w).
Proof. unfold lookup_variable. sim_auto. Qed.
Lemma sim_lookup_array k : sim (lookup_array k).
Proof. unfold lookup_array. sim_auto. Qed.
Lemma sim_lookup_function k : sim (lookup_function k).
Proof. unfold lookup_function. sim_auto. Qed.
Lemma sim_set_object_value l v : sim (set_object_value l v).
Proof.
  unfold set_object_value. apply sim_modify. intros s t H.
  rewrite (sv_heap _ _ H). destruct (heap t !! l); [|exact H].
  destruct H; constructor; simpl; unfold user_output in *; simpl; try congruence; auto.
Qed.
Lemma sim_store_array_element k idx v : sim (store_array_element k idx v).
Proof.
  unfold store_array_element. cbv zeta.
  apply sim_bind; [auto with simdb|]. intros r.
  apply sim_bind.
  - apply sim_gets. intros s t H.
    destruct r; simpl; [now rewrite (sv_global_env _ _ H)|reflexivity].
  - intros [|]; [auto with simdb|].
    apply sim_modify. intros s t H. rewrite (sv_global_env _ _ H).
    destruct H; constructor; simpl; unfold user_output in *; simpl; try congruence; auto.
Qed.
Lemma sim_cache_mem_put k v : sim (cache_mem_put k v).
Proof. unfold cache_mem_put. sim_auto. Qed.

#[local] Hint Resolve sim_insert_variable sim_insert_array sim_insert_function
  sim_lookup_variable sim_lookup_array sim_lookup_function sim_set_object_value
  sim_store_array_element sim_cache_mem_put : simdb.

Lemma sim_test_for_identifier v w : sim (test_for_identifier v w).
Proof. unfold test_for_identifier. sim_auto. Qed.
Lemma sim_check_for_stack_overflow node : sim (check_for_stack_overflow node).
Proof. unfold check_for_stack_overflow. sim_auto. Qed.
Lemma sim_handle_additive_expressions l r op : sim (handle_additive_expressions l r op).
Proof. unfold handle_additive_expressions. sim_auto. Qed.
Lemma sim_handle_multiplicative_expressions l r op : sim (handle_multiplicative_expressions l r op).
Proof. unfold handle_multiplicative_expressions. sim_auto. Qed.
Lemma sim_eval_relation op a b : sim (eval_relation op a b).
Proof. unfold eval_relation. sim_auto. Qed.
Lemma sim_formatted operands m : sim m -> sim (formatted operands m).
Proof. intros Hm. unfold formatted. sim_auto. Qed.
#[local] Hint Resolve sim_eval_relation : simdb.
#[local] Hint Extern 1 (sim (formatted _ _)) => apply sim_formatted : simdb.
Lemma sim_handle_relational_expressions l r op : sim (handle_relational_expressions l r op).
Proof. unfold handle_relational_expressions. sim_auto. Qed.
Lemma sim_truthy tb v : sim (truthy tb v).
Proof.
  unfold truthy. apply sim_gets. intros s t H. unfold is_true. now rewrite (sv_heap _ _ H).
Qed.
Lemma sim_as_list v : sim (as_list v).
Proof. unfold as_list. sim_auto. Qed.
Lemma sim_node_value n : sim (node_value n).
Proof. unfold node_value. sim_auto. Qed.

#[local] Hint Resolve sim_test_for_identifier sim_check_for_stack_overflow
  sim_handle_additive_expressions sim_handle_multiplicative_expressions
  sim_handle_relational_expressions sim_truthy sim_as_list sim_node_value : simdb.

Lemma sim_map_M {A B : Type} (f : A -> M B) xs : (forall x, sim (f x)) -> sim (map_M f xs).
Proof. intros Hf. induction xs as [|x xs IH]; simpl; sim_auto; auto. Qed.

Lemma sim_for_each {A : Type} (f : A -> M unit) xs : (forall x, sim (f x)) -> sim (for_each f xs).
Proof. intros Hf. induction xs as [|x xs IH]; simpl; sim_auto; auto. Qed.

Lemma sim_print_args xs : sim (print_args xs).
Proof. induction xs as [|x xs IH]; simpl; sim_auto; auto. Qed.

Lemma sim_collect_params a xs ps : sim (collect_params a xs ps).
Proof. revert ps. induction xs as [|x xs IH]; intros ps; simpl; sim_auto; auto. Qed.

#[local] Hint Resolve sim_print_args sim_collect_params : simdb.

Section Methods_agree.

Variable tb : RunTimeObject -> bool.
Variable acc : Node -> M PyVal.
Variable fuel : nat.
Hypothesis sim_acc : forall n, sim (acc n).

#[local] Hint Resolve sim_acc : simdb.

Lemma sim_accept_opt n : sim (accept_opt acc n).
Proof. unfold accept_opt. sim_auto. Qed.
#[local] Hint Resolve sim_accept_opt : simdb.

Lemma sim_handle_expressions l r op : sim (handle_expressions acc l r op).
Proof. unfold handle_expressions. sim_auto. Qed.
#[local] Hint Resolve sim_handle_expressions : simdb.

Lemma sim_visit_expr n : sim (visit_expr acc n).
Proof. unfold visit_expr. sim_auto. Qed.
Lemma sim_visit_simple_expr n : sim (visit_simple_expr acc n).
Proof. unfold visit_simple_expr. sim_auto. Qed.
Lemma sim_visit_term n : sim (visit_term acc n).
Proof. unfold visit_term. sim_auto. Qed.
Lemma sim_visit_factor n : sim (visit_factor acc n).
Proof. unfold visit_factor. sim_auto. Qed.
Lemma sim_visit_operator n : sim (visit_operator n).
Proof. unfold visit_operator. sim_auto. Qed.
Lemma sim_visit_identifier n : sim (visit_identifier n).
Proof. unfold visit_identifier. sim_auto. Qed.
Lemma sim_visit_numeric_literal n : sim (visit_numeric_literal n).
Proof. unfold visit_numeric_literal. sim_auto. Qed.
Lemma sim_visit_string_literal n : sim (visit_string_literal n).
Proof. unfold visit_string_literal. sim_auto. Qed.
Lemma sim_visit_boolean_literal n : sim (visit_boolean_literal n).
Proof. unfold visit_boolean_literal. sim_auto. Qed.
Lemma sim_generic_visit n : sim (generic_visit n).
Proof. unfold generic_visit. sim_auto. Qed.

Lemma sim_visit_args n : sim (visit_args acc n).
Proof. unfold visit_args. sim_auto. apply sim_map_M, sim_acc. Qed.
Lemma sim_visit_func_def n : sim (visit_func_def acc n).
Proof. unfold visit_func_def. sim_auto. Qed.
Lemma sim_visit_program n : sim (visit_program acc n).
Proof. unfold visit_program. sim_auto. apply sim_for_each. intros. sim_auto. Qed.

Lemma sim_visit_body_loop stmts last : sim (visit_body_loop acc stmts last).
Proof. revert last. induction stmts as [|x xs IH]; intros last; simpl; sim_auto; auto. Qed.
#[local] Hint Resolve sim_visit_body_loop : simdb.
Lemma sim_visit_body n : sim (visit_body acc n).
Proof. unfold visit_body. sim_auto. Qed.
Lemma sim_visit_return n : sim (visit_return acc n).
Proof. unfold visit_return. sim_auto. Qed.
Lemma sim_visit_break n : sim (visit_break n).
Proof. unfold visit_break. sim_auto. Qed.
Lemma sim_visit_continue n : sim (visit_continue n).
Proof. unfold visit_continue. sim_auto. Qed.

Lemma sim_handle_conditional_execution b : sim (handle_conditional_execution acc b).
Proof. unfold handle_conditional_execution. sim_auto. Qed.
#[local] Hint Resolve sim_handle_conditional_execution : simdb.

Lemma sim_visit_else_ifs xs e : sim (visit_else_ifs acc xs e).
Proof. induction xs as [|x xs IH]; simpl; sim_auto; auto. Qed.
#[local] Hint Resolve sim_visit_else_ifs : simdb.
Lemma sim_visit_if n : sim (visit_if acc n).
Proof. unfold visit_if. sim_auto. Qed.

Lemma sim_while_loop n e b c : sim (while_loop tb acc n e b c).
Proof. revert c. induction n as [|n IH]; intros c; simpl; sim_auto; auto. Qed.
#[local] Hint Resolve sim_while_loop : simdb.
Lemma sim_visit_while n : sim (visit_while tb acc fuel n).
Proof. unfold visit_while. sim_auto. Qed.

Lemma sim_validate_range_node n : sim (validate_range_node acc n).
Proof. unfold validate_range_node. sim_auto. Qed.
Lemma sim_for_loop l b rng : sim (for_loop tb acc l b rng).
Proof. induction rng as [|i rng IH]; simpl; sim_auto; auto. Qed.
#[local] Hint Resolve sim_validate_range_node sim_for_loop : simdb.
Lemma sim_visit_for n : sim (visit_for tb acc n).
Proof. unfold visit_for. sim_auto. Qed.

Lemma sim_visit_array_def n : sim (visit_array_def acc n).
Proof. unfold visit_array_def. sim_auto; apply sim_map_M, sim_acc. Qed.
Lemma sim_visit_array_access n : sim (visit_array_access acc n).
Proof. unfold visit_array_access. sim_auto. Qed.
Lemma sim_visit_array_update n : sim (visit_array_update acc n).
Proof. unfold visit_array_update. sim_auto. Qed.
Lemma sim_visit_assignment n : sim (visit_assignment acc n).
Proof. unfold visit_assignment. sim_auto. Qed.

Lemma sim_prepare_call n f a : sim (prepare_call acc n f a).
Proof.
  unfold prepare_call.
  apply sim_bind; [auto with simdb|intros _].
  apply sim_bind; [auto with simdb|intros cur].
  apply sim_bind.
  - apply sim_gets. intros s t H.
    destruct cur; simpl; [now rewrite (sv_global_env _ _ H)|reflexivity].
  - intros lvl. sim_auto.
Qed.
Lemma sim_call_through_cache fs le old : sim (call_through_cache acc fs le old).
Proof. unfold call_through_cache. sim_auto. Qed.
#[local] Hint Resolve sim_prepare_call sim_call_through_cache : simdb.
Lemma sim_visit_call n : sim (visit_call acc n).
Proof. unfold visit_call. sim_auto. Qed.
Lemma sim_visit_input n : sim (visit_input n).
Proof. unfold visit_input. sim_auto. Qed.
Lemma sim_visit_print n : sim (visit_print acc n).
Proof. unfold visit_print. sim_auto. apply sim_when. auto with simdb. Qed.
Lemma sim_visit_postfix_expr n : sim (visit_postfix_expr acc n).
Proof. unfold visit_postfix_expr. sim_auto. Qed.

Lemma sim_call_method m n : sim (call_method tb acc fuel m n).
Proof.
  destruct m; cbn [call_method];
    auto using sim_visit_program, sim_visit_func_def, sim_visit_body, sim_visit_return,
      sim_visit_break, sim_visit_continue, sim_visit_if, sim_visit_while, sim_visit_for,
      sim_visit_array_def, sim_visit_array_access, sim_visit_array_update,
      sim_visit_assignment, sim_visit_call, sim_visit_input, sim_visit_print,
      sim_visit_postfix_expr, sim_visit_args, sim_visit_expr, sim_visit_simple_expr,
      sim_visit_term, sim_visit_factor, sim_visit_operator, sim_visit_identifier,
      sim_visit_numeric_literal, sim_visit_string_literal, sim_visit_boolean_literal,
      sim_generic_visit.
Qed.

End Methods_agree.

Lemma visit_unfold tb acc fuel node s :
  visit tb acc fuel node s =
    if MAX_VISIT_DEPTH <=? visitor_depth s then (Raise RecursionError, s)
    else match current_env s with
         | None => (Raise (InterpreterError RUNTIME UndefinedScope
                             (start_pos (node_info node)) (end_pos (node_info node))), s)
         | Some _ =>
             bind (call_method tb acc fuel (getattr_visit (node_label node)) node)
                  (leave_visit tb node) (enter_visit node s)
         end.
Proof.
  unfold visit, enter_visit, log. cbv [bind gets modify when ret print_event cache_mem_put_node raise interpreter_error].
  destruct (MAX_VISIT_DEPTH <=? visitor_depth s); [reflexivity|].
  destruct (current_env s); [|reflexivity].
  simpl. destruct (verbose s); simpl;
    match goal with |- context [cache_mem_has_key node ?u] => destruct (cache_mem_has_key node u) end;
    reflexivity.
Qed.

Lemma same_refl s : cache_consistent s -> same_but_for_visit s s.
Proof. intros H. constructor; auto. Qed.

Lemma same_sym s t : same_but_for_visit s t -> same_but_for_visit t s.
Proof. intros []. constructor; auto. Qed.

Lemma same_trans s t u :
  same_but_for_visit s t -> same_but_for_visit t u -> same_but_for_visit s u.
Proof. intros [] []. constructor; auto; congruence. Qed.

Lemma cache_consistent_insert (node : Node) (c : gmap (nat * string) VisitMethod) :
  (forall k lbl m, c !! (k, lbl) = Some m -> m = getattr_visit lbl) ->
  forall k lbl m,
    <[node_key node := getattr_visit (node_label node)]> c !! (k, lbl) = Some m ->
    m = getattr_visit lbl.
Proof.
  intros Hc k lbl m. unfold node_key.
  destruct (decide ((nid (node_info node), node_label node) = (k, lbl))) as [E|N].
  - rewrite E, lookup_insert_eq. injection E as _ <-. now intros [= <-].
  - rewrite lookup_insert_ne by exact N. apply Hc.
Qed.

Lemma enter_visit_same node s : cache_consistent s -> same_but_for_visit s (enter_visit node s).
Proof.
  intros Hs. unfold enter_visit. cbv zeta. simpl.
  destruct (verbose s); simpl;
    match goal with |- context [cache_mem_has_key node ?u] => destruct (cache_mem_has_key node u) end;
    constructor; simpl; auto; unfold user_output; simpl;
    try (rewrite List.filter_app; simpl; now rewrite app_nil_r);
    try (unfold cache_consistent; simpl; apply cache_consistent_insert; exact Hs).
Qed.

Lemma leave_visit_same tb node result s :
  cache_consistent s ->
  fst (leave_visit tb node result s) = Ok result /\
  same_but_for_visit s (snd (leave_visit tb node result s)).
Proof.
  intros Hs. unfold leave_visit, truthy, log.
  cbv [bind gets modify when ret print_event].
  destruct (is_true tb result s); simpl; [destruct (verbose s); simpl|];
    (split; [reflexivity|]); constructor; simpl; auto; unfold user_output; simpl;
    rewrite List.filter_app; simpl; now rewrite app_nil_r.
Qed.

Lemma stopped_by_guard_bind {A B : Type} (m : M A) (k : A -> M B) s :
  stopped_by_guard (m s) -> stopped_by_guard (bind m k s).
Proof.
  unfold bind, stopped_by_guard. destruct (m s) as [r s']. simpl.
  intros [[->|(p & q & ->)] Hc]; (split; [|exact Hc]); [now left|right; eauto].
Qed.

Section Accept_agrees.

Variable tb : RunTimeObject -> bool.
Variable acc : Node -> M PyVal.
Variable fuel : nat.
Hypothesis sim_acc : forall n, sim (acc n).

Lemma finish_same b node result s :
  cache_consistent s ->
  fst (finish tb b node result s) = Ok result /\
  same_but_for_visit s (snd (finish tb b node result s)).
Proof.
  intros Hs. destruct b; simpl.
  - now apply leave_visit_same.
  - split; [reflexivity|now apply same_refl].
Qed.

Lemma agree_method_then_finish ba bb m node s t :
  same_but_for_visit s t ->
  agree (bind (call_method tb acc fuel m node) (finish tb ba node) s)
        (bind (call_method tb acc fuel m node) (finish tb bb node) t).
Proof.
  intros H.
  pose proof (sim_call_method tb acc fuel sim_acc m node s t H) as Hm.
  destruct Hm as [Hg|[Hg|[E Hs]]].
  - left. now apply stopped_by_guard_bind.
  - right. left. now apply stopped_by_guard_bind.
  - unfold bind.
    destruct (call_method tb acc fuel m node s) as [ra s'],
             (call_method tb acc fuel m node t) as [rb t'].
    simpl in E, Hs. subst rb. right. right. destruct ra as [v|e|]; simpl; auto.
    destruct (finish_same ba node v s' (sv_cache_left _ _ Hs)) as [Ea Sa].
    destruct (finish_same bb node v t' (sv_cache_right _ _ Hs)) as [Eb Sb].
    split; [congruence|].
    eapply same_trans; [apply same_sym, Sa|]. eapply same_trans; [exact Hs|exact Sb].
Qed.

(** [accept] on a node, by the path it takes: the guards of [visit] when
    the node is not memoized, then the method and what follows it. *)
Lemma Node_accept_unfold node s :
  cache_consistent s ->
  exists through_visit : bool,
    Node_accept tb acc fuel node s =
      if through_visit && (MAX_VISIT_DEPTH <=? visitor_depth s)
      then (Raise RecursionError, s)
      else if through_visit && negb (bool_decide (is_Some (current_env s)))
      then (Raise (InterpreterError RUNTIME UndefinedScope
                     (start_pos (node_info node)) (end_pos (node_info node))), s)
      else bind (call_method tb acc fuel (getattr_visit (node_label node)) node)
                (finish tb through_visit node)
                (if through_visit then enter_visit node s else s).
Proof.
  intros Hs. unfold Node_accept. unfold bind at 1, gets at 1. unfold cache_mem_get_node.
  destruct (node_cache s !! node_key node) as [m|] eqn:Em.
  - exists false. simpl. rewrite (Hs _ _ _ Em). unfold bind.
    destruct (call_method tb acc fuel (getattr_visit (node_label node)) node s) as [[| |] ?];
      reflexivity.
  - exists true. rewrite visit_unfold. simpl.
    destruct (MAX_VISIT_DEPTH <=? visitor_depth s); [reflexivity|].
    destruct (current_env s); reflexivity.
Qed.

Lemma sim_Node_accept node : sim (Node_accept tb acc fuel node).
Proof.
  intros s t H.
  destruct (Node_accept_unfold node s (sv_cache_left _ _ H)) as [ba ->].
  destruct (Node_accept_unfold node t (sv_cache_right _ _ H)) as [bb ->].
  destruct (ba && (MAX_VISIT_DEPTH <=? visitor_depth s));
    [left; split; [now left|apply H]|].
  destruct (bb && (MAX_VISIT_DEPTH <=? visitor_depth t));
    [right; left; split; [now left|apply H]|].
  destruct (ba && negb (bool_decide (is_Some (current_env s))));
    [left; split; [right; eauto|apply H]|].
  destruct (bb && negb (bool_decide (is_Some (current_env t))));
    [right; left; split; [right; eauto|apply H]|].
  apply agree_method_then_finish.
  assert (Sa : same_but_for_visit s (if ba then enter_visit node s else s)).
  { destruct ba; [apply enter_visit_same|apply same_refl]; apply H. }
  assert (Sb : same_but_for_visit t (if bb then enter_visit node t else t)).
  { destruct bb; [apply enter_visit_same|apply same_refl]; apply H. }
  eapply same_trans; [apply same_sym, Sa|]. eapply same_trans; [exact H|exact Sb].
Qed.

End Accept_agrees.

(** Two runs of [accept] from states that differ in the visitor depth, the
    memoized methods and the trace only: unless a guard of [visit] stops one
    of them, they return the same and end in such states again. *)
Lemma sim_accept tb fuel node : sim (accept tb fuel node).
Proof.
  revert node. induction fuel as [|fuel IH]; intros node.
  - apply sim_out_of_fuel.
  - cbn [accept]. apply sim_Node_accept. exact IH.
Qed.

(** The memoized path against the full visit, for every node and state:
    from two states that are the same but for the visitor depth, the
    memoized methods and the trace, [accept] returns the same value or
    raises the same error and ends in two such states again, unless one of
    the runs is stopped by a guard of [visit].  In particular the run that
    finds the node memoized agrees in this sense with the run from the state
    without that entry, which takes the full path. *)
Theorem accept_agrees_apart_from_the_guards :
  forall tb fuel node s t,
    same_but_for_visit s t ->
    agree (accept tb fuel node s) (accept tb fuel node t).
Proof. intros tb fuel node s t H. now apply sim_accept. Qed.

Lemma cache_consistent_empty s : node_cache s = ∅ -> cache_consistent s.
Proof. intros E k lbl m. rewrite E, lookup_empty. discriminate. Qed.

(** The theorem at the literal [1], memoized in one state and not in the
    other: both runs return the new object. *)
Lemma accept_agrees_apart_from_the_guards_witness :
  let literal := number_ 4 1 in
  let t := new_Interpreter false [] in
  let s := set_node_cache (<[node_key literal := getattr_visit (node_label literal)]> ∅) t in
  fst (run 5 literal s) = fst (run 5 literal t) /\ fst (run 5 literal s) = Ok (PyObj 0%nat).
Proof.
  intros literal t s.
  assert (H : same_but_for_visit s t).
  { constructor; try reflexivity.
    - intros k lbl m. unfold s, set_node_cache. cbn [node_cache].
      intros Hm. eapply (cache_consistent_insert literal ∅); [|exact Hm].
      intros k' lbl' m'. rewrite lookup_empty. discriminate.
    - now apply cache_consistent_empty. }
  destruct (accept_agrees_apart_from_the_guards coerce_to_boolean 5 literal s t H)
    as [Hg|[Hg|[E _]]].
  - exfalso. destruct Hg as [[Hg|(p & q & Hg)] _]; vm_compute in Hg; discriminate.
  - exfalso. destruct Hg as [[Hg|(p & q & Hg)] _]; vm_compute in Hg; discriminate.
  - split; [exact E|]. vm_compute. reflexivity.
Defined.

(** The same node always dispatches to the same method: whatever is
    evaluated, and however the evaluation ends, the method memoized under a
    node stays the one its label selects. *)
Theorem memoized_method_is_the_dispatched_one :
  forall tb fuel node s,
    cache_consistent s ->
    cache_consistent (snd (accept tb fuel node s)) /\
    (forall n m, cache_mem_get_node n (snd (accept tb fuel node s)) = Some m ->
                 m = getattr_visit (node_label n)).
Proof.
  intros tb fuel node s Hs.
  assert (Hc : cache_consistent (snd (accept tb fuel node s))).
  { destruct (sim_accept tb fuel node s s (same_refl s Hs)) as [[_ H]|[[_ H]|[_ H]]];
      [exact H|exact H|apply H]. }
  split; [exact Hc|].
  intros n m Hm. exact (Hc _ _ _ Hm).
Qed.

(** The theorem at [print 1] run by a fresh interpreter. *)
Lemma memoized_method_is_the_dispatched_one_witness :
  let s := snd (run 20 program_print_1 (new_Interpreter false [])) in
  cache_mem_get_node program_print_1 s = Some m_visit_program /\
  cache_consistent s.
Proof.
  intros s. split; [vm_compute; reflexivity|].
  apply (memoized_method_is_the_dispatched_one coerce_to_boolean 20 program_print_1
           (new_Interpreter false [])).
  now apply cache_consistent_empty.
Defined.

(** A call that passes arguments is checked: the arguments are evaluated in
    the scope of the caller, and when their number is not the number of
    parameters the call is the RUNTIME error. *)
Theorem call_with_wrong_number_of_arguments :
  forall acc i identifier a s r fs xs s1,
    recursion_count s <= INTERNAL_RECURSION_LIMIT ->
    current_env s = Some r ->
    lookup_function identifier (set_recursion_count (recursion_count s + 1) s)
      = (Ok fs, set_recursion_count (recursion_count s + 1) s) ->
    acc a (set_recursion_count (recursion_count s + 1) s) = (Ok (PyList xs), s1) ->
    length xs ≠ length (params fs) ->
    current_env (set_recursion_count (recursion_count s + 1) s) = current_env s /\
    visit_call acc (CallNode i identifier (Some a)) s =
      (Raise (InterpreterError RUNTIME
                (InvalidArgumentCount (length (params fs)) (length xs))
                (start_pos (node_info a)) (end_pos (node_info a))), s1).
Proof.
  intros acc i identifier a s r fs xs s1 Hrc Hr Hf Ha Hn.
  split; [reflexivity|].
  unfold visit_call. apply bind_Raise. unfold prepare_call.
  unfold check_for_stack_overflow. unfold bind at 1. unfold bind at 1. unfold gets at 1.
  destruct (Z.ltb_spec INTERNAL_RECURSION_LIMIT (recursion_count s)) as [Hlt|_]; [lia|].
  unfold modify at 1.
  unfold bind at 1. unfold get_current_env at 1. cbn [current_env set_recursion_count].
  rewrite Hr.
  unfold bind at 1. unfold gets at 1.
  unfold bind at 1. unfold gets at 1.
  rewrite (bind_Ok _ _ _ _ _ Hf).
  apply bind_Raise. rewrite (bind_Ok _ _ _ _ _ Ha).
  unfold as_list. unfold bind at 1. unfold ret at 1.
  rewrite bool_decide_true by exact Hn. reflexivity.
Qed.

(** The theorem at [f(1, 2)] for [func f(x) { return 1 }]. *)
Lemma call_with_wrong_number_of_arguments_witness :
  let s := snd (run 20 func_one_param (new_Interpreter false [])) in
  visit_call (run 20) call_f_two_args s =
    (Raise (InterpreterError RUNTIME (InvalidArgumentCount 1 2) (17, 0) (17, 1)),
     snd (run 20 (ArgsNode (at_ 17) [number_ 18 1; number_ 19 2])
            (set_recursion_count 1 s))).
Proof.
  intros s.
  refine (proj2 (call_with_wrong_number_of_arguments (run 20) (at_ 16) "f"%string
            (ArgsNode (at_ 17) [number_ 18 1; number_ 19 2]) s GlobalEnv
            (mkFunctionSymbol "f" [("x"%string, None)]
               (BodyNode (at_ 13) [return_ 14 (number_ 15 1)]))
            [PyObj 1%nat; PyObj 2%nat] _ _ _ _ _ _)).
  - vm_compute. discriminate.
  - reflexivity.
  - vm_compute. reflexivity.
  - vm_compute. reflexivity.
  - simpl. discriminate.
Defined.

(** A [while] loop consumes [break_flag]: when an iteration of a loop whose
    condition holds returns nothing true and leaves the flag set, the loop
    is over and the flag is clear. *)
Theorem while_loop_consumes_break_flag :
  forall tb acc n expr body condition c s v s1,
    get_object condition s = (Ok c, s) ->
    py_truthy (value c) = true ->
    handle_conditional_execution acc body s = (Ok v, s1) ->
    is_true tb v s1 = false ->
    break_flag s1 = true ->
    while_loop tb acc (S n) expr body condition s = (Ok PyNone, set_break_flag false s1) /\
    break_flag (set_break_flag false s1) = false.
Proof.
  intros tb acc n expr body condition c s v s1 Hc Ht Hb Hv Hbf.
  split; [|reflexivity].
  cbn [while_loop]. unfold attr_value. unfold bind at 1. unfold bind at 1.
  rewrite Hc. unfold ret at 1. rewrite Ht.
  rewrite (bind_Ok _ _ _ _ _ Hb).
  unfold truthy. unfold bind at 1. unfold gets at 1. rewrite Hv.
  unfold bind at 1. unfold gets at 1. rewrite Hbf. reflexivity.
Qed.

(** The theorem at the first iteration of [while true { break }]. *)
Lemma while_loop_consumes_break_flag_witness :
  let s := snd (run 20 (BooleanNode (at_ 22) true) (new_Interpreter false [])) in
  let body := Some (BodyNode (at_ 25) [BreakNode (at_ 26)]) in
  fst (while_loop coerce_to_boolean (run 20) 1 (BooleanNode (at_ 22) true) body (PyObj 0%nat) s)
    = Ok PyNone /\
  break_flag (snd (while_loop coerce_to_boolean (run 20) 1 (BooleanNode (at_ 22) true) body
                     (PyObj 0%nat) s)) = false.
Proof.
  intros s body.
  destruct (while_loop_consumes_break_flag coerce_to_boolean (run 20) 0
              (BooleanNode (at_ 22) true) body (PyObj 0%nat)
              (mkRunTimeObject "boolean" (PBool true) None) s PyNone
              (snd (handle_conditional_execution (run 20) body s))
              eq_refl eq_refl eq_refl eq_refl eq_refl) as [E _].
  rewrite E. split; reflexivity.
Defined.
(** ** The frame of an evaluation *)

Ltac frame_fields :=
  constructor; simpl; eauto; try (exists []; simpl; now rewrite ?app_nil_r).

Lemma frame_refl s : frame s s.
Proof. frame_fields. Qed.

Lemma frame_trans s t u : frame s t -> frame t u -> frame s u.
Proof.
  intros [H1 H2 H3 [o1 H4] [i1 H5] H6 H7] [G1 G2 G3 [o2 G4] [i2 G5] G6 G7].
  constructor; try congruence; auto.
  - intros l o Ho. destruct (H1 l o Ho) as (o' & Ho' & El & Et).
    destruct (G1 l o' Ho') as (o'' & Ho'' & El' & Et'). exists o''. repeat split; congruence.
  - exists (o1 ++ o2). rewrite G4, H4. now rewrite app_assoc.
  - exists (i1 ++ i2). rewrite H5, G5. now rewrite app_assoc.
Qed.

Lemma framed_by_bind (d1 d2 : Z) {A B : Type} (m : M A) (k : A -> M B) :
  framed_by d1 m -> (forall a, framed_by d2 (k a)) -> framed_by (d1 + d2) (bind m k).
Proof.
  intros Hm Hk s. unfold bind. destruct (Hm s) as [Fm Cm].
  destruct (m s) as [[a|e|] s1]; simpl in *.
  - destruct (Hk a s1) as [Fk Ck]. split; [eapply frame_trans; eauto|].
    intros b Hb. destruct (Ck b Hb) as [-> ->]. destruct (Cm a eq_refl) as [-> ->].
    split; [reflexivity|lia].
  - split; [exact Fm|discriminate].
  - split; [exact Fm|discriminate].
Qed.

Lemma framed_bind {A B : Type} (m : M A) (k : A -> M B) :
  framed m -> (forall a, framed (k a)) -> framed (bind m k).
Proof. intros Hm Hk. exact (framed_by_bind 0 0 m k Hm Hk). Qed.

(** A computation that leaves the state alone. *)
Lemma framed_read {A : Type} (m : M A) : (forall s, snd (m s) = s) -> framed m.
Proof.
  intros Hm s. rewrite Hm. split; [apply frame_refl|]. intros _ _. split; [reflexivity|lia].
Qed.

Lemma framed_ret {A : Type} (a : A) : framed (ret a).
Proof. now apply framed_read. Qed.
Lemma framed_raise {A : Type} (e : Exn) : framed (@raise A e).
Proof. now apply framed_read. Qed.
Lemma framed_out_of_fuel {A : Type} : framed (@out_of_fuel A).
Proof. now apply framed_read. Qed.
Lemma framed_gets {A : Type} (f : State -> A) : framed (gets f).
Proof. now apply framed_read. Qed.

Lemma framed_modify (f : State -> State) :
  (forall s, frame s (f s) /\ visitor_depth (f s) = visitor_depth s /\
             recursion_count (f s) = recursion_count s) ->
  framed (modify f).
Proof.
  intros Hf s. unfold modify. simpl. destruct (Hf s) as (F & D & R).
  split; [exact F|]. intros _ _. split; [exact D|lia].
Qed.

Ltac solve_frame :=
  intros; split; [frame_fields|split; reflexivity].

Lemma framed_new_RunTimeObject lbl v ty : framed (new_RunTimeObject lbl v ty).
Proof.
  intros s. unfold new_RunTimeObject. simpl. split.
  - frame_fields.
    intros l o Ho. exists o. split; [|auto]. now apply lookup_app_l_Some.
  - intros _ _. split; [reflexivity|lia].
Qed.

Lemma framed_get_object v : framed (get_object v).
Proof.
  apply framed_read. intros s. destruct v; try reflexivity.
  unfold get_object. now destruct (heap s !! l).
Qed.

Lemma framed_get_current_env : framed get_current_env.
Proof. apply framed_read. intros s. unfold get_current_env. now destruct (current_env s). Qed.

Lemma framed_lookup_in {A : Type} (ns : Environment -> gmap string A) k w :
  framed (lookup_in ns k w).
Proof.
  apply framed_read. intros s. unfold lookup_in, bind, get_current_env.
  destruct (current_env s); [|reflexivity].
  destruct (ns (env_of e s) !! k); [reflexivity|].
  now destruct (if negb w && parent (env_of e s) then ns (global_env s) !! k else None).
Qed.

Lemma framed_set_object_value l v : framed (set_object_value l v).
Proof.
  unfold set_object_value. apply framed_modify. intros s.
  destruct (heap s !! l) as [o|] eqn:E; [|solve_frame].
  split; [|split; reflexivity].
  frame_fields.
  intros l' o' Ho'. destruct (decide (l = l')) as [<-|N].
  - exists (mkRunTimeObject (label o) v (type o)). split.
    + apply list_lookup_insert_eq. now apply lookup_lt_Some in E.
    + assert (X : Some o' = Some o) by (etransitivity; [symmetry; exact Ho'|exact E]).
      injection X as ->. now split.
  - exists o'. split; [|auto]. now rewrite list_lookup_insert_ne.
Qed.

Lemma framed_print_event ev : framed (print_event ev).
Proof.
  unfold print_event. apply framed_modify. intros s.
  solve_frame.
Qed.

Create HintDb framedb discriminated.
#[local] Hint Resolve framed_ret framed_raise framed_out_of_fuel framed_gets
  framed_new_RunTimeObject framed_get_object framed_get_current_env
  framed_set_object_value framed_print_event : framedb.
#[local] Hint Extern 1 (framed (lookup_in _ _ _)) => apply framed_lookup_in : framedb.
#[local] Hint Extern 1 (framed (host_error _)) => apply framed_raise : framedb.
#[local] Hint Extern 1 (framed (interpreter_error _ _ _ _)) => apply framed_raise : framedb.

Ltac frame_step :=
  first
    [ solve [auto with framedb]
    | apply framed_modify; solve [solve_frame]
    | apply framed_bind; [|intros ?]
    | match goal with
      | |- framed (match ?x with _ => _ end) => destruct x
      | |- framed (if ?b then _ else _) => destruct b
      | |- framed (let _ := _ in _) => cbv zeta
      end ].

Ltac frame_auto := repeat frame_step.

Lemma framed_when b m : framed m -> framed (when b m).
Proof. destruct b; simpl; auto with framedb. Qed.

Lemma framed_attr_value v : framed (attr_value v).
Proof. unfold attr_value. frame_auto. Qed.
Lemma framed_attr_label v : framed (attr_label v).
Proof. unfold attr_label. frame_auto. Qed.
Lemma framed_log entry : framed (log entry).
Proof. unfold log. frame_auto. apply framed_when. auto with framedb. Qed.
Lemma framed_set_node_pos node : framed (set_node_pos node).
Proof. unfold set_node_pos. frame_auto. Qed.
Lemma framed_throw_invalid_operation_err {A : Type} l op r :
  framed (@throw_invalid_operation_err A l op r).
Proof. unfold throw_invalid_operation_err. frame_auto. Qed.
Lemma framed_throw_unary_type_err {A : Type} op operand :
  framed (@throw_unary_type_err A op operand).
Proof. unfold throw_unary_type_err. frame_auto. Qed.
Lemma framed_new_from lbl r : framed (new_from lbl r).
Proof. unfold new_from. frame_auto. Qed.
#[local] Hint Resolve framed_attr_value framed_attr_label framed_log framed_set_node_pos
  framed_throw_invalid_operation_err framed_throw_unary_type_err framed_new_from : framedb.

Lemma framed_update_current_env f : framed (update_current_env f).
Proof. unfold update_current_env. frame_auto. Qed.
#[local] Hint Resolve framed_update_current_env : framedb.

Lemma framed_insert_variable k v : framed (insert_variable k v).
Proof. unfold insert_variable. frame_auto. Qed.
Lemma framed_insert_array k a : framed (insert_array k a).
Proof. unfold insert_array. frame_auto. Qed.
Lemma framed_insert_function k ps b : framed (insert_function k ps b).
Proof. unfold insert_function. frame_auto. Qed.
Lemma framed_lookup_variable k w : framed (lookup_variable k w).
Proof. unfold lookup_variable. frame_auto. Qed.
Lemma framed_lookup_array k : framed (lookup_array k).
Proof. unfold lookup_array. frame_auto. Qed.
Lemma framed_lookup_function k : framed (lookup_function k).
Proof. unfold lookup_function. frame_auto. Qed.
Lemma framed_store_array_element k idx v : framed (store_array_element k idx v).
Proof. unfold store_array_element. frame_auto. Qed.
Lemma framed_cache_mem_put k v : framed (cache_mem_put k v).
Proof. unfold cache_mem_put. frame_auto. Qed.
#[local] Hint Resolve framed_insert_variable framed_insert_array framed_insert_function
  framed_lookup_variable framed_lookup_array framed_lookup_function
  framed_store_array_element framed_cache_mem_put : framedb.

Lemma framed_test_for_identifier v w : framed (test_for_identifier v w).
Proof. unfold test_for_identifier. frame_auto. Qed.
Lemma framed_handle_additive_expressions l r op : framed (handle_additive_expressions l r op).
Proof. unfold handle_additive_expressions. frame_auto. Qed.
Lemma framed_handle_multiplicative_expressions l r op :
  framed (handle_multiplicative_expressions l r op).
Proof. unfold handle_multiplicative_expressions. frame_auto. Qed.
Lemma framed_eval_relation op a b : framed (eval_relation op a b).
Proof. unfold eval_relation. frame_auto. Qed.
Lemma framed_formatted operands m : framed m -> framed (formatted operands m).
Proof. intros Hm. unfold formatted. frame_auto. Qed.
#[local] Hint Resolve framed_eval_relation : framedb.
#[local] Hint Extern 1 (framed (formatted _ _)) => apply framed_formatted : framedb.
Lemma framed_handle_relational_expressions l r op :
  framed (handle_relational_expressions l r op).
Proof. unfold handle_relational_expressions. frame_auto. Qed.
Lemma framed_truthy tb v : framed (truthy tb v).
Proof. unfold truthy. frame_auto. Qed.
Lemma framed_as_list v : framed (as_list v).
Proof. unfold as_list. frame_auto. Qed.
Lemma framed_node_value n : framed (node_value n).
Proof. unfold node_value. frame_auto. Qed.
#[local] Hint Resolve framed_test_for_identifier framed_handle_additive_expressions
  framed_handle_multiplicative_expressions framed_handle_relational_expressions
  framed_truthy framed_as_list framed_node_value : framedb.

Lemma framed_map_M {A B : Type} (f : A -> M B) xs :
  (forall x, framed (f x)) -> framed (map_M f xs).
Proof. intros Hf. induction xs as [|x xs IH]; simpl; frame_auto; auto. Qed.
Lemma framed_for_each {A : Type} (f : A -> M unit) xs :
  (forall x, framed (f x)) -> framed (for_each f xs).
Proof. intros Hf. induction xs as [|x xs IH]; simpl; frame_auto; auto. Qed.
Lemma framed_print_args xs : framed (print_args xs).
Proof. induction xs as [|x xs IH]; simpl; frame_auto; auto. Qed.
Lemma framed_collect_params a xs ps : framed (collect_params a xs ps).
Proof. revert ps. induction xs as [|x xs IH]; intros ps; simpl; frame_auto; auto. Qed.
#[local] Hint Resolve framed_print_args framed_collect_params : framedb.

(** The guard of a call: the count goes up by one, and never past the
    limit by more than one. *)
Lemma framed_check_for_stack_overflow node : framed_by 1 (check_for_stack_overflow node).
Proof.
  intros s. unfold check_for_stack_overflow. cbv [bind gets modify interpreter_error raise].
  destruct (Z.ltb_spec INTERNAL_RECURSION_LIMIT (recursion_count s)) as [H|H]; simpl.
  - split; [|discriminate].
    frame_fields. unfold INTERNAL_RECURSION_LIMIT. lia.
  - split; [|intros _ _; split; reflexivity].
    frame_fields. intros _. lia.
Qed.

Section Methods_framed.

Variable tb : RunTimeObject -> bool.
Variable acc : Node -> M PyVal.
Variable fuel : nat.
Hypothesis framed_acc : forall n, framed (acc n).

#[local] Hint Resolve framed_acc : framedb.

Lemma framed_accept_opt n : framed (accept_opt acc n).
Proof. unfold accept_opt. frame_auto. Qed.
#[local] Hint Resolve framed_accept_opt : framedb.
Lemma framed_handle_expressions l r op : framed (handle_expressions acc l r op).
Proof. unfold handle_expressions. frame_auto. Qed.
#[local] Hint Resolve framed_handle_expressions : framedb.

Lemma framed_visit_expr n : framed (visit_expr acc n).
Proof. unfold visit_expr. frame_auto. Qed.
Lemma framed_visit_simple_expr n : framed (visit_simple_expr acc n).
Proof. unfold visit_simple_expr. frame_auto. Qed.
Lemma framed_visit_term n : framed (visit_term acc n).
Proof. unfold visit_term. frame_auto. Qed.
Lemma framed_visit_factor n : framed (visit_factor acc n).
Proof. unfold visit_factor. frame_auto. Qed.
Lemma framed_visit_operator n : framed (visit_operator n).
Proof. unfold visit_operator. frame_auto. Qed.
Lemma framed_visit_identifier n : framed (visit_identifier n).
Proof. unfold visit_identifier. frame_auto. Qed.
Lemma framed_visit_numeric_literal n : framed (visit_numeric_literal n).
Proof. unfold visit_numeric_literal. frame_auto. Qed.
Lemma framed_visit_string_literal n : framed (visit_string_literal n).
Proof. unfold visit_string_literal. frame_auto. Qed.
Lemma framed_visit_boolean_literal n : framed (visit_boolean_literal n).
Proof. unfold visit_boolean_literal. frame_auto. Qed.
Lemma framed_generic_visit n : framed (generic_visit n).
Proof. unfold generic_visit. frame_auto. Qed.
Lemma framed_visit_args n : framed (visit_args acc n).
Proof. unfold visit_args. frame_auto. apply framed_map_M, framed_acc. Qed.
Lemma framed_visit_func_def n : framed (visit_func_def acc n).
Proof. unfold visit_func_def. frame_auto. Qed.
Lemma framed_visit_program n : framed (visit_program acc n).
Proof. unfold visit_program. frame_auto. apply framed_for_each. intros. frame_auto. Qed.
Lemma framed_visit_body_loop stmts last : framed (visit_body_loop acc stmts last).
Proof. revert last. induction stmts as [|x xs IH]; intros last; simpl; frame_auto; auto. Qed.
#[local] Hint Resolve framed_visit_body_loop : framedb.
Lemma framed_visit_body n : framed (visit_body acc n).
Proof. unfold visit_body. frame_auto. Qed.
Lemma framed_visit_return n : framed (visit_return acc n).
Proof. unfold visit_return. frame_auto. Qed.
Lemma framed_visit_break n : framed (visit_break n).
Proof. unfold visit_break. frame_auto. Qed.
Lemma framed_visit_continue n : framed (visit_continue n).
Proof. unfold visit_continue. frame_auto. Qed.
Lemma framed_handle_conditional_execution b : framed (handle_conditional_execution acc b).
Proof. unfold handle_conditional_execution. frame_auto. Qed.
#[local] Hint Resolve framed_handle_conditional_execution : framedb.
Lemma framed_visit_else_ifs xs e : framed (visit_else_ifs acc xs e).
Proof. induction xs as [|x xs IH]; simpl; frame_auto; auto. Qed.
#[local] Hint Resolve framed_visit_else_ifs : framedb.
Lemma framed_visit_if n : framed (visit_if acc n).
Proof. unfold visit_if. frame_auto. Qed.
Lemma framed_while_loop n e b c : framed (while_loop tb acc n e b c).
Proof. revert c. induction n as [|n IH]; intros c; simpl; frame_auto; auto. Qed.
#[local] Hint Resolve framed_while_loop : framedb.
Lemma framed_visit_while n : framed (visit_while tb acc fuel n).
Proof. unfold visit_while. frame_auto. Qed.
Lemma framed_validate_range_node n : framed (validate_range_node acc n).
Proof. unfold validate_range_node. frame_auto. Qed.
Lemma framed_for_loop l b rng : framed (for_loop tb acc l b rng).
Proof. induction rng as [|i rng IH]; simpl; frame_auto; auto. Qed.
#[local] Hint Resolve framed_validate_range_node framed_for_loop : framedb.
Lemma framed_visit_for n : framed (visit_for tb acc n).
Proof. unfold visit_for. frame_auto. Qed.
Lemma framed_visit_array_def n : framed (visit_array_def acc n).
Proof. unfold visit_array_def. frame_auto; apply framed_map_M, framed_acc. Qed.
Lemma framed_visit_array_access n : framed (visit_array_access acc n).
Proof. unfold visit_array_access. frame_auto. Qed.
Lemma framed_visit_array_update n : framed (visit_array_update acc n).
Proof. unfold visit_array_update. frame_auto. Qed.
Lemma framed_visit_assignment n : framed (visit_assignment acc n).
Proof. unfold visit_assignment. frame_auto. Qed.
Lemma framed_visit_input n : framed (visit_input n).
Proof.
  unfold visit_input. destruct n; try apply framed_raise.
  apply framed_bind; [auto with framedb|intros _].
  intros s. cbv [bind gets]. destruct (stdin s) as [|line rest] eqn:E.
  - simpl. split; [apply frame_refl|discriminate].
  - cbv [modify]. simpl. split.
    + frame_fields.
      * intros l o Ho. exists o. split; [|auto]. now apply lookup_app_l_Some.
      * exists [line]. now rewrite E.
    + intros _ _. split; [reflexivity|lia].
Qed.
Lemma framed_visit_print n : framed (visit_print acc n).
Proof. unfold visit_print. frame_auto. apply framed_when. auto with framedb. Qed.
Lemma framed_visit_postfix_expr n : framed (visit_postfix_expr acc n).
Proof. unfold visit_postfix_expr. frame_auto. Qed.

(** A call takes the count up by one before anything else and down by one
    when the function has returned. *)
Lemma framed_prepare_call n f a : framed_by 1 (prepare_call acc n f a).
Proof.
  unfold prepare_call.
  apply (framed_by_bind 1 0); [apply framed_check_for_stack_overflow|intros _].
  change (framed_by 0) with (@framed (FunctionSymbol * Environment * option EnvRef)).
  frame_auto.
Qed.

Lemma framed_call_through_cache fs le old : framed_by (-1) (call_through_cache acc fs le old).
Proof.
  unfold call_through_cache.
  apply (framed_by_bind 0 (-1)); [apply framed_modify; solve_frame|intros _].
  apply (framed_by_bind 0 (-1)); [apply framed_gets|intros h].
  apply (framed_by_bind 0 (-1)); [apply framed_gets|intros r].
  apply (framed_by_bind 0 (-1)); [change (framed_by 0) with (@framed PyVal); frame_auto|intros r'].
  apply (framed_by_bind 0 (-1)); [apply framed_modify; solve_frame|intros _].
  apply (framed_by_bind (-1) 0); [|intros _; apply framed_ret].
  intros s. cbv [modify]. simpl. split; [|intros _ _; split; [reflexivity|lia]].
  frame_fields. lia.
Qed.

Lemma framed_visit_call n : framed (visit_call acc n).
Proof.
  unfold visit_call. destruct n; try apply framed_raise.
  apply (framed_by_bind 1 (-1)); [apply framed_prepare_call|intros p].
  apply framed_call_through_cache.
Qed.

Lemma framed_call_method m n : framed (call_method tb acc fuel m n).
Proof.
  destruct m; cbn [call_method];
    auto using framed_visit_program, framed_visit_func_def, framed_visit_body,
      framed_visit_return, framed_visit_break, framed_visit_continue, framed_visit_if,
      framed_visit_while, framed_visit_for, framed_visit_array_def,
      framed_visit_array_access, framed_visit_array_update, framed_visit_assignment,
      framed_visit_call, framed_visit_input, framed_visit_print,
      framed_visit_postfix_expr, framed_visit_args, framed_visit_expr,
      framed_visit_simple_expr, framed_visit_term, framed_visit_factor,
      framed_visit_operator, framed_visit_identifier, framed_visit_numeric_literal,
      framed_visit_string_literal, framed_visit_boolean_literal, framed_generic_visit.
Qed.

End Methods_framed.

Lemma enter_visit_frame node s :
  visitor_depth s < MAX_VISIT_DEPTH ->
  frame s (enter_visit node s) /\
  visitor_depth (enter_visit node s) = visitor_depth s + 1 /\
  recursion_count (enter_visit node s) = recursion_count s.
Proof.
  intros Hd. unfold enter_visit. cbv zeta. simpl.
  destruct (verbose s); simpl;
    match goal with |- context [cache_mem_has_key node ?u] => destruct (cache_mem_has_key node u) end;
    (split; [|split; reflexivity]); constructor; simpl; eauto;
    try (exists []; simpl; now rewrite ?app_nil_r); try (intros _; lia); eauto.
Qed.

Lemma leave_visit_frame tb node result s :
  fst (leave_visit tb node result s) = Ok result /\
  frame s (snd (leave_visit tb node result s)) /\
  visitor_depth (snd (leave_visit tb node result s)) = visitor_depth s - 1 /\
  recursion_count (snd (leave_visit tb node result s)) = recursion_count s.
Proof.
  unfold leave_visit, truthy, log. cbv [bind gets modify when ret print_event].
  destruct (is_true tb result s); simpl; [destruct (verbose s); simpl|];
    (split; [reflexivity|split; [|split; reflexivity]]); constructor; simpl; eauto;
    try (exists []; simpl; now rewrite ?app_nil_r); try (intros ?; lia); eauto.
Qed.

Section Accept_framed.

Variable tb : RunTimeObject -> bool.
Variable acc : Node -> M PyVal.
Variable fuel : nat.
Hypothesis framed_acc : forall n, framed (acc n).

(** [visit] goes one level deeper only below the limit, and comes back up
    when the method has returned. *)
Lemma framed_visit node : framed (visit tb acc fuel node).
Proof.
  intros s. rewrite visit_unfold.
  destruct (Z.leb_spec MAX_VISIT_DEPTH (visitor_depth s)) as [Hd|Hd];
    [split; [apply frame_refl|discriminate]|].
  destruct (current_env s); [|split; [apply frame_refl|discriminate]].
  destruct (enter_visit_frame node s Hd) as (F1 & D1 & R1).
  destruct (framed_call_method tb acc fuel framed_acc (getattr_visit (node_label node)) node
              (enter_visit node s)) as [F2 C2].
  unfold bind.
  destruct (call_method tb acc fuel (getattr_visit (node_label node)) node (enter_visit node s))
    as [[v|ex|] s2]; simpl in *.
  - destruct (leave_visit_frame tb node v s2) as (E3 & F3 & D3 & R3).
    split; [eapply frame_trans; [exact F1|eapply frame_trans; eauto]|].
    intros a _. destruct (C2 v eq_refl) as [D2 R2]. split; lia.
  - split; [eapply frame_trans; eauto|discriminate].
  - split; [eapply frame_trans; eauto|discriminate].
Qed.

Lemma framed_Node_accept node : framed (Node_accept tb acc fuel node).
Proof.
  unfold Node_accept. apply framed_bind; [apply framed_gets|].
  intros [m|]; [now apply framed_call_method|apply framed_visit].
Qed.

End Accept_framed.

(** Every evaluation keeps the frame, and one that returns normally leaves
    both counters as it found them. *)
Lemma framed_accept tb fuel node : framed (accept tb fuel node).
Proof.
  revert node. induction fuel as [|fuel IH]; intros node.
  - apply framed_out_of_fuel.
  - cbn [accept]. apply framed_Node_accept. exact IH.
Qed.

(** The two safety counters are bookkeeping of the evaluation in progress:
    a visit that returns normally, of any node and from any state, leaves
    the visitor depth and the recursion count as it found them. *)
Theorem normal_return_restores_the_counters :
  forall tb fuel node s v,
    fst (accept tb fuel node s) = Ok v ->
    visitor_depth (snd (accept tb fuel node s)) = visitor_depth s /\
    recursion_count (snd (accept tb fuel node s)) = recursion_count s.
Proof.
  intros tb fuel node s v H.
  destruct (framed_accept tb fuel node s) as [_ Hc].
  destruct (Hc v H) as [D R]. split; [exact D|lia].
Qed.

(** The theorem at the program [func f() { if true { return 1 } return 2 }
    x = f()  print x]. *)
Lemma normal_return_restores_the_counters_witness :
  let r := run 40 (program_call_then_print func_single_return) (new_Interpreter false []) in
  visitor_depth (snd r) = 0 /\ recursion_count (snd r) = 0.
Proof.
  intros r.
  apply (normal_return_restores_the_counters coerce_to_boolean 40
           (program_call_then_print func_single_return) (new_Interpreter false []) PyNone).
  vm_compute. reflexivity.
Defined.

(** The guards keep the counters bounded: however an evaluation ends, the
    visitor depth is at most [MAX_VISIT_DEPTH] and the recursion count at
    most one more than [INTERNAL_RECURSION_LIMIT], if they were so at the
    start. *)
Theorem guards_bound_the_counters :
  forall tb fuel node s,
    visitor_depth s <= MAX_VISIT_DEPTH ->
    recursion_count s <= INTERNAL_RECURSION_LIMIT + 1 ->
    visitor_depth (snd (accept tb fuel node s)) <= MAX_VISIT_DEPTH /\
    recursion_count (snd (accept tb fuel node s)) <= INTERNAL_RECURSION_LIMIT + 1.
Proof.
  intros tb fuel node s Hd Hr.
  destruct (framed_accept tb fuel node s) as [F _].
  split; [now apply (fr_depth _ _ F)|now apply (fr_count _ _ F)].
Qed.

(** The theorem at [print 1 / 0], which ends in the RUNTIME error with the
    visits of the failed evaluation still counted. *)
Lemma guards_bound_the_counters_witness :
  let r := run 40 program_print_1_div_0 (new_Interpreter false []) in
  0 < visitor_depth (snd r) <= MAX_VISIT_DEPTH /\
  recursion_count (snd r) <= INTERNAL_RECURSION_LIMIT + 1.
Proof.
  intros r.
  destruct (guards_bound_the_counters coerce_to_boolean 40 program_print_1_div_0
              (new_Interpreter false [])) as [D R].
  - vm_compute. discriminate.
  - vm_compute. discriminate.
  - split; [split; [vm_compute; reflexivity|exact D]|exact R].
Defined.

(** A runtime object is never removed and never relabelled: an object on
    the heap before an evaluation is there after it under the same
    reference, with the label and the type it had, however the evaluation
    ends.  Only its payload can have changed. *)
Theorem objects_keep_their_label_and_type :
  forall tb fuel node s l o,
    heap s !! l = Some o ->
    exists o', heap (snd (accept tb fuel node s)) !! l = Some o' /\
               label o' = label o /\ type o' = type o.
Proof.
  intros tb fuel node s l o H.
  destruct (framed_accept tb fuel node s) as [F _].
  exact (fr_objects _ _ F l o H).
Qed.

(** The theorem at [x++] after [x = 1]: the object of [x] has a new
    payload under the old label. *)
Lemma objects_keep_their_label_and_type_witness :
  exists o',
    heap (snd (run 20 incr_x after_inc_and_x)) !! 3%nat = Some o' /\
    label o' = "number"%string /\ type o' = None.
Proof.
  apply (objects_keep_their_label_and_type coerce_to_boolean 20 incr_x after_inc_and_x 3%nat
           (mkRunTimeObject "number" (PInt 1) None)).
  vm_compute. reflexivity.
Defined.

(** An evaluation writes nothing to stderr, only appends to what has been
    printed, and consumes the pending input from the front. *)
Theorem evaluation_appends_output_and_consumes_input :
  forall tb fuel node s,
    stderr (snd (accept tb fuel node s)) = stderr s /\
    (exists out, stdout (snd (accept tb fuel node s)) = stdout s ++ out) /\
    (exists used, stdin s = used ++ stdin (snd (accept tb fuel node s))).
Proof.
  intros tb fuel node s.
  destruct (framed_accept tb fuel node s) as [F _].
  split; [apply (fr_stderr _ _ F)|]. split; [apply (fr_stdout _ _ F)|apply (fr_stdin _ _ F)].
Qed.

(** ** What [interpret] reports *)

(** [interpret] reports exactly the two kinds of error it catches: a
    [RecursionError] or an [InterpreterError] of the evaluation becomes one
    line on stderr and the result [None]; any other outcome, an exception of
    the host included, is passed on as it is with stderr untouched. *)
Theorem interpret_reports_one_error_or_none :
  forall tb fuel ast s,
    (forall e, fst (accept tb fuel ast s) = Raise e ->
       e = RecursionError \/ (exists ty msg p q, e = InterpreterError ty msg p q) ->
       fst (interpret tb fuel ast s) = Ok PyNone /\
       stderr (snd (interpret tb fuel ast s)) = stderr s ++ [e]) /\
    (forall n, fst (accept tb fuel ast s) = Raise (HostError n) ->
       interpret tb fuel ast s = accept tb fuel ast s /\
       stderr (snd (interpret tb fuel ast s)) = stderr s) /\
    (forall v, fst (accept tb fuel ast s) = Ok v ->
       interpret tb fuel ast s = accept tb fuel ast s /\
       stderr (snd (interpret tb fuel ast s)) = stderr s).
Proof.
  intros tb fuel ast s.
  destruct (framed_accept tb fuel ast s) as [F _]. pose proof (fr_stderr _ _ F) as E.
  unfold interpret. destruct (accept tb fuel ast s) as [[v|e|] s']; simpl in *.
  - split; [discriminate|]. split; [discriminate|]. intros ? _. now split.
  - split; [|split; [|discriminate]].
    + intros e' [= <-] [->|(ty & msg & p & q & ->)]; simpl; now rewrite E.
    + intros n [= ->]. now split.
  - split; [discriminate|]. split; discriminate.
Qed.
(** ** [continue] in a body *)

Lemma accept_continue tb fuel i s :
  cache_consistent s ->
  visitor_depth s < MAX_VISIT_DEPTH ->
  is_Some (current_env s) ->
  exists s1,
    accept tb (S fuel) (ContinueNode i) s = (Ok PyNone, s1) /\
    continue_flag s1 = true /\
    conditional_flag s1 = conditional_flag s /\
    break_flag s1 = break_flag s.
Proof.
  intros Hc Hd [r Hr]. cbn [accept].
  destruct (Node_accept_unfold tb (accept tb fuel) fuel (ContinueNode i) s Hc) as [b ->].
  destruct (Z.leb_spec MAX_VISIT_DEPTH (visitor_depth s)) as [|_]; [lia|].
  rewrite andb_false_r.
  rewrite bool_decide_true by (rewrite Hr; eauto). rewrite andb_false_r.
  change (getattr_visit (node_label (ContinueNode i))) with m_visit_continue.
  cbn [call_method]. unfold visit_continue, set_node_pos.
  destruct b; cbn [finish].
  - unfold enter_visit, leave_visit, truthy, log.
    cbv [bind gets modify when ret print_event is_true]. cbv zeta.
    eexists. split; [reflexivity|].
    destruct (verbose _); simpl;
      match goal with |- context [cache_mem_has_key ?n ?u] => destruct (cache_mem_has_key n u) end;
      simpl; auto.
  - cbv [bind gets modify ret]. eexists. split; [reflexivity|]. simpl. auto.
Qed.

(** [continue] skips one statement, not the rest of the body: the statement
    after it is passed over, the flag is cleared, and the statements that
    follow are run.  When [continue] is the last statement, the body ends
    with the flag still set. *)
Theorem continue_skips_one_statement :
  forall tb fuel i stmt rest last s,
    cache_consistent s ->
    visitor_depth s < MAX_VISIT_DEPTH ->
    is_Some (current_env s) ->
    conditional_flag s = false ->
    break_flag s = false ->
    continue_flag s = false ->
    exists s1,
      accept tb (S fuel) (ContinueNode i) s = (Ok PyNone, s1) /\
      visit_body_loop (accept tb (S fuel)) (ContinueNode i :: stmt :: rest) last s =
        visit_body_loop (accept tb (S fuel)) rest last (set_continue_flag false s1) /\
      visit_body_loop (accept tb (S fuel)) [ContinueNode i] last s = (Ok last, s1) /\
      continue_flag s1 = true.
Proof.
  intros tb fuel i stmt rest last s Hc Hd Hr Hcf Hbf Hkf.
  destruct (accept_continue tb fuel i s Hc Hd Hr) as (s1 & E & K1 & C1 & B1).
  exists s1. split; [exact E|].
  assert (Step : forall xs, visit_body_loop (accept tb (S fuel)) (ContinueNode i :: xs) last s
                            = visit_body_loop (accept tb (S fuel)) xs last s1).
  { intros xs. cbn [visit_body_loop].
    unfold bind at 1. unfold gets at 1. rewrite Hcf.
    unfold bind at 1. unfold gets at 1. rewrite Hbf.
    unfold bind at 1. unfold gets at 1. rewrite Hkf.
    unfold bind at 1. rewrite E. reflexivity. }
  split; [|split; [rewrite Step; reflexivity|exact K1]].
  rewrite Step. cbn [visit_body_loop].
  unfold bind at 1. unfold gets at 1. rewrite C1, Hcf.
  unfold bind at 1. unfold gets at 1. rewrite B1, Hbf.
  unfold bind at 1. unfold gets at 1. rewrite K1.
  reflexivity.
Qed.

(** The theorem at [continue  print 1  print 2]: only [2] is printed.  And
    a [continue] that ends the body of a loop is still in force when the
    next iteration starts: [for i in 0..3 { print i  continue }] prints
    [0] and nothing more. *)
Lemma continue_skips_one_statement_witness :
  stdout (snd (visit_body_loop (run 6) continue_then_two_prints PyNone
                 (new_Interpreter false []))) = [OutPrint (PInt 2) ""] /\
  stdout (snd (run 30 for_print_continue (new_Interpreter false [])))
    = [OutPrint (PInt 0) ""].
Proof.
  split; [|vm_compute; reflexivity].
  destruct (continue_skips_one_statement coerce_to_boolean 5 (at_ 2)
              (print_ 3 (number_ 5 1)) [print_ 6 (number_ 8 2)] PyNone
              (new_Interpreter false []))
    as (s1 & E1 & E2 & _).
  - now apply cache_consistent_empty.
  - vm_compute. reflexivity.
  - now eexists.
  - reflexivity.
  - reflexivity.
  - reflexivity.
  - unfold continue_then_two_prints. change (run 6) with (accept coerce_to_boolean 6).
    rewrite E2.
    apply (f_equal snd) in E1. simpl in E1. subst s1.
    vm_compute. reflexivity.
Defined.
(** ** What [print] writes *)





(** ** The parameters of a function definition *)

Lemma is_in_elem_of k (l : list string) : is_in k l = true <-> k ∈ l.
Proof.
  unfold is_in. induction l as [|x l IH]; simpl.
  - split; [discriminate|inversion 1].
  - rewrite orb_true_iff, IH, elem_of_cons. split.
    + intros [H|H]; [left; now apply String.eqb_eq|now right].
    + intros [H|H]; [left; now apply String.eqb_eq|now right].
Qed.

Lemma map_fst_fmap {A B : Type} (l : list (A * B)) : map fst l = fst <$> l.
Proof. induction l as [|x l IH]; [reflexivity|]. cbn. now f_equal. Qed.

Lemma collect_params_distinct a xs ps0 ps s :
  Forall2 (names_parameter (heap s)) xs ps ->
  NoDup (fst <$> (ps0 ++ ps)) ->
  collect_params a xs ps0 s = (Ok (ps0 ++ ps), s).
Proof.
  intros H. revert ps0. induction H as [|x p xs ps Hx Hxs IH]; intros ps0 Hnd.
  - simpl. now rewrite app_nil_r.
  - destruct Hx as (l & o & -> & Ho & Hv & Ht).
    cbn [collect_params]. unfold get_object. unfold bind at 1. rewrite Ho, Hv.
    destruct (is_in (fst p) (map fst ps0)) eqn:E.
    + exfalso. apply is_in_elem_of in E. rewrite map_fst_fmap in E.
      rewrite fmap_app, fmap_cons in Hnd. apply NoDup_app in Hnd.
      destruct Hnd as (_ & Hd & _). apply (Hd _ E). now left.
    + rewrite Ht. replace (fst p, snd p) with p by now destruct p.
      rewrite IH; [now rewrite <- app_assoc|]. now rewrite <- app_assoc.
Qed.

Lemma collect_params_repeated a xs ps0 ps s :
  Forall2 (names_parameter (heap s)) xs ps ->
  NoDup (fst <$> ps0) ->
  ~ NoDup (fst <$> (ps0 ++ ps)) ->
  exists k, k ∈ (fst <$> ps) /\
    collect_params a xs ps0 s =
      (Raise (InterpreterError RUNTIME (DuplicateParameter k)
                (start_pos (node_info a)) (end_pos (node_info a))), s).
Proof.
  intros H. revert ps0. induction H as [|x p xs ps Hx Hxs IH]; intros ps0 Hnd0 Hnd.
  - exfalso. apply Hnd. now rewrite app_nil_r.
  - destruct Hx as (l & o & -> & Ho & Hv & Ht).
    cbn [collect_params]. unfold get_object. unfold bind at 1. rewrite Ho, Hv.
    destruct (is_in (fst p) (map fst ps0)) eqn:E.
    + exists (fst p). split; [rewrite fmap_cons; now left|reflexivity].
    + assert (Hn : fst p ∉ fst <$> ps0).
      { intros Hin. rewrite <- map_fst_fmap in Hin. apply is_in_elem_of in Hin. congruence. }
      rewrite Ht. replace (fst p, snd p) with p by now destruct p.
      destruct (IH (ps0 ++ [p])) as (k & Hk & Ek).
      * rewrite fmap_app. apply NoDup_app. split; [exact Hnd0|]. split.
        -- intros y Hy Hy'. simpl in Hy'. apply list_elem_of_singleton in Hy'. now subst y.
        -- simpl. apply NoDup_singleton.
      * now rewrite <- app_assoc.
      * exists k. split; [rewrite fmap_cons; now right|exact Ek].
Qed.

(** A definition whose parameter names are distinct binds the function in
    the current scope, with its parameters in the order they are written;
    one that repeats a name raises the RUNTIME error at the parameter list
    and binds nothing. *)
Theorem function_definition_checks_its_parameters :
  forall acc i identifier a body s xs s1 ps,
    acc a s = (Ok (PyList xs), s1) ->
    Forall2 (names_parameter (heap s1)) xs ps ->
    is_Some (current_env s1) ->
    (NoDup (fst <$> ps) ->
       exists s2,
         visit_func_def acc (FuncDefNode i identifier (Some a) body) s = (Ok PyNone, s2) /\
         lookup_function identifier s2 = (Ok (mkFunctionSymbol identifier ps body), s2)) /\
    (~ NoDup (fst <$> ps) ->
       exists k, k ∈ (fst <$> ps) /\
         visit_func_def acc (FuncDefNode i identifier (Some a) body) s =
           (Raise (InterpreterError RUNTIME (DuplicateParameter k)
                     (start_pos (node_info a)) (end_pos (node_info a))), s1)).
Proof.
  intros acc i identifier a body s xs s1 ps Ha Hxs [r Hr]. split.
  - intros Hnd. unfold visit_func_def.
    unfold bind at 1. unfold bind at 1. rewrite Ha.
    unfold as_list. unfold bind at 1. unfold ret at 1.
    rewrite (collect_params_distinct a xs [] ps s1 Hxs Hnd). simpl app.
    unfold insert_function, update_current_env, get_current_env.
    unfold lookup_function, lookup_in, get_current_env.
    cbv [bind ret modify]. rewrite Hr.
    destruct r as [|e]; eexists; (split; [reflexivity|]); simpl; rewrite ?Hr; simpl;
      now rewrite lookup_insert_eq.
  - intros Hnd.
    destruct (collect_params_repeated a xs [] ps s1 Hxs (NoDup_nil_2) Hnd) as (k & Hk & Ek).
    exists k. split; [exact Hk|].
    unfold visit_func_def.
    unfold bind at 1. unfold bind at 1. rewrite Ha.
    unfold as_list. unfold bind at 1. unfold ret at 1. now rewrite Ek.
Qed.

(** The theorem at [func g(x, x) { return 1 }]. *)
Lemma function_definition_checks_its_parameters_witness :
  fst (visit_func_def (run 10) func_repeated_param (new_Interpreter false []))
    = Raise (InterpreterError RUNTIME (DuplicateParameter "x") (11, 0) (11, 1)).
Proof.
  destruct (function_definition_checks_its_parameters (run 10) (at_ 10) "g"
              (ArgsNode (at_ 11) [IdentifierNode (at_ 12) "x"; IdentifierNode (at_ 13) "x"])
              (BodyNode (at_ 14) [return_ 15 (number_ 16 1)])
              (new_Interpreter false []) [PyObj 0%nat; PyObj 1%nat]
              (snd (run 10 (ArgsNode (at_ 11) [IdentifierNode (at_ 12) "x";
                                              IdentifierNode (at_ 13) "x"])
                      (new_Interpreter false [])))
              [("x"%string, None); ("x"%string, None)]) as [_ Hrep].
  - vm_compute. reflexivity.
  - repeat constructor; eexists _, _; (split; [reflexivity|]); vm_compute; auto.
  - vm_compute. eauto.
  - destruct Hrep as (k & Hk & Ek).
    + intros Hnd. apply NoDup_cons in Hnd. destruct Hnd as [Hn _]. apply Hn. simpl. now left.
    + unfold func_repeated_param. rewrite Ek. simpl.
      assert (k = "x"%string) as ->; [|reflexivity].
      simpl in Hk. apply elem_of_cons in Hk. destruct Hk as [->|Hk]; [reflexivity|].
      apply elem_of_cons in Hk. destruct Hk as [->|Hk]; [reflexivity|]. inversion Hk.
Defined.
(** ** Arrays: the bounds check, and what an update stores *)

Lemma num_compare_ints a b : num_compare (NInt a) (NInt b) = Some (a ?= b).
Proof. unfold num_compare, Qcompare. simpl. now rewrite !Z.mul_1_r. Qed.

Lemma test_for_identifier_other l o w s :
  heap s !! l = Some o -> label o <> "identifier"%string ->
  test_for_identifier (PyObj l) w s = (Ok (PyObj l), s).
Proof.
  intros Ho Hl. unfold test_for_identifier, get_object. unfold bind. rewrite Ho.
  destruct (String.eqb_spec (label o) "identifier"); [contradiction|reflexivity].
Qed.

Lemma attr_value_object l o s : heap s !! l = Some o -> attr_value (PyObj l) s = (Ok (value o), s).
Proof. intros Ho. unfold attr_value, get_object, bind. now rewrite Ho. Qed.

(** An array access is checked against the bounds of the array: an integer
    index below 0 or not below the length is the RUNTIME error at the node,
    never Python's indexing from the end; an index within bounds yields the
    value stored there, the very object and no copy. *)
Theorem array_access_is_bounds_checked :
  forall acc i lbl identifier index sz val init s l o s1 z arr,
    acc index s = (Ok (PyObj l), s1) ->
    heap s1 !! l = Some o ->
    label o <> "identifier"%string ->
    value o = PInt z ->
    lookup_array identifier s1 = (Ok arr, s1) ->
    (z < 0 \/ Z.of_nat (length (values arr)) <= z ->
       visit_array_access acc (ArrayNode i lbl identifier (Some index) sz val init) s =
         (Raise (InterpreterError RUNTIME ArrayIndexOutOfBounds (start_pos i) (end_pos i)), s1)) /\
    (0 <= z < Z.of_nat (length (values arr)) ->
       exists v, values arr !! Z.to_nat z = Some v /\
         visit_array_access acc (ArrayNode i lbl identifier (Some index) sz val init) s =
           (Ok v, s1)).
Proof.
  intros acc i lbl identifier index sz val init s l o s1 z arr Ha Ho Hl Hv Harr.
  assert (E : visit_array_access acc (ArrayNode i lbl identifier (Some index) sz val init) s =
              if (z <? 0) || (Z.of_nat (length (values arr)) <=? z)
              then (Raise (InterpreterError RUNTIME ArrayIndexOutOfBounds
                             (start_pos i) (end_pos i)), s1)
              else match values arr !! Z.to_nat z with
                   | Some v => (Ok v, s1)
                   | None => (Raise (HostError "IndexError"), s1)
                   end).
  { unfold visit_array_access, accept_opt.
    rewrite (bind_Ok _ _ _ _ _ Ha).
    rewrite (bind_Ok _ _ _ _ _ (test_for_identifier_other l o false s1 Ho Hl)).
    rewrite (bind_Ok _ _ _ _ _ (attr_value_object l o s1 Ho)).
    rewrite (bind_Ok _ _ _ _ _ Harr).
    rewrite Hv. cbn [as_number int_value]. rewrite !num_compare_ints.
    destruct (Z.ltb_spec z 0) as [H0|H0], (Z.leb_spec (Z.of_nat (length (values arr))) z) as [H1|H1];
      destruct (Z.compare_spec z 0), (Z.compare_spec z (Z.of_nat (length (values arr))));
      try lia; simpl; try reflexivity;
      now destruct (values arr !! Z.to_nat z). }
  rewrite E. split.
  - intros [H|H].
    + destruct (Z.ltb_spec z 0); [reflexivity|lia].
    + destruct (Z.leb_spec (Z.of_nat (length (values arr))) z); [|lia]. now rewrite orb_true_r.
  - intros [H0 H1].
    destruct (Z.ltb_spec z 0); [lia|].
    destruct (Z.leb_spec (Z.of_nat (length (values arr))) z); [lia|]. simpl.
    destruct (lookup_lt_is_Some_2 (values arr) (Z.to_nat z)) as [v Hv']; [lia|].
    exists v. now rewrite Hv'.
Qed.

(** The theorem at [a[5]] for an array of two elements. *)
Lemma array_access_is_bounds_checked_witness :
  let s := snd (run 10 array_a_of_2 (new_Interpreter false [])) in
  fst (visit_array_access (run 10) (a_at 20 5) s)
    = Raise (InterpreterError RUNTIME ArrayIndexOutOfBounds (20, 0) (20, 1)).
Proof.
  intros s.
  destruct (array_access_is_bounds_checked (run 10) (at_ 20) "array_access" "a"
              (number_ 21 5) None None None s 2%nat
              (mkRunTimeObject "number" (PInt 5) None)
              (snd (run 10 (number_ 21 5) s)) 5
              (mkArraySymbol "a" (PInt 2) [PyObj 1%nat; PyObj 1%nat])) as [Hout _].
  - vm_compute. reflexivity.
  - vm_compute. reflexivity.
  - discriminate.
  - reflexivity.
  - vm_compute. reflexivity.
  - unfold a_at. rewrite Hout; [reflexivity|]. right. simpl. lia.
Defined.

Lemma lookup_array_Ok k s arr :
  lookup_array k s = (Ok arr, s) ->
  exists r, current_env s = Some r /\
    (arrays (env_of r s) !! k = Some arr \/
     (arrays (env_of r s) !! k = None /\ parent (env_of r s) = true /\
      arrays (global_env s) !! k = Some arr)).
Proof.
  unfold lookup_array, lookup_in, get_current_env, bind.
  destruct (current_env s) as [r|]; [|discriminate]. intros H. exists r. split; [reflexivity|].
  destruct (arrays (env_of r s) !! k) as [a|] eqn:E.
  - left. now injection H as ->.
  - right. simpl in H. destruct (parent (env_of r s)); [|discriminate].
    destruct (arrays (global_env s) !! k) as [a|]; [|discriminate].
    now injection H as ->.
Qed.

(** An update within bounds puts a new object at the index, a copy of the
    value, and leaves the other elements and the length alone; the array
    is changed in the scope that holds it.  An index out of bounds is the
    RUNTIME error, raised after the value has been evaluated. *)
Theorem array_update_stores_a_copy :
  forall acc i lbl identifier index sz val init s l o s1 z vl vo s2 arr,
    acc index (snd (set_node_pos (ArrayNode i lbl identifier (Some index) sz (Some val) init) s))
      = (Ok (PyObj l), s1) ->
    heap s1 !! l = Some o ->
    label o <> "identifier"%string ->
    value o = PInt z ->
    acc val s1 = (Ok (PyObj vl), s2) ->
    heap s2 !! vl = Some vo ->
    lookup_array identifier s2 = (Ok arr, s2) ->
    (0 <= z < Z.of_nat (length (values arr)) ->
       exists s3,
         visit_array_update acc (ArrayNode i lbl identifier (Some index) sz (Some val) init) s
           = (Ok PyNone, s3) /\
         heap s3 = heap s2 ++ [vo] /\
         lookup_array identifier s3 =
           (Ok (mkArraySymbol (arr_name arr) (arr_size arr)
                  (<[Z.to_nat z := PyObj (length (heap s2))]> (values arr))), s3)) /\
    (z < 0 \/ Z.of_nat (length (values arr)) <= z ->
       visit_array_update acc (ArrayNode i lbl identifier (Some index) sz (Some val) init) s =
         (Raise (InterpreterError RUNTIME ArrayIndexOutOfBounds (start_pos i) (end_pos i)), s2)).
Proof.
  intros acc i lbl identifier index sz val init s l o s1 z vl vo s2 arr
         Hi Ho Hl Hv Hval Hvo Harr.
  assert (E : visit_array_update acc (ArrayNode i lbl identifier (Some index) sz (Some val) init) s =
              if (z <? 0) || (Z.of_nat (length (values arr)) <=? z)
              then (Raise (InterpreterError RUNTIME ArrayIndexOutOfBounds
                             (start_pos i) (end_pos i)), s2)
              else bind (store_array_element identifier (Z.to_nat z) (PyObj (length (heap s2))))
                        (fun _ => ret PyNone)
                        (set_heap (heap s2 ++ [vo]) s2)).
  { unfold visit_array_update, accept_opt.
    unfold bind at 1. unfold set_node_pos at 1, modify at 1.
    unfold set_node_pos, modify in Hi. simpl in Hi.
    rewrite (bind_Ok _ _ _ _ _ Hi).
    rewrite (bind_Ok _ _ _ _ _ (test_for_identifier_other l o false s1 Ho Hl)).
    rewrite (bind_Ok _ _ _ _ _ (attr_value_object l o s1 Ho)).
    rewrite (bind_Ok _ _ _ _ _ Hval).
    rewrite (bind_Ok _ _ _ _ _ Harr).
    rewrite Hv. cbn [py_int int_value].
    destruct ((z <? 0) || (Z.of_nat (length (values arr)) <=? z)); [reflexivity|].
    unfold get_object. unfold bind at 1. rewrite Hvo.
    unfold bind at 1. unfold new_RunTimeObject at 1.
    now destruct vo. }
  rewrite E. split.
  - intros [H0 H1].
    destruct (Z.ltb_spec z 0); [lia|].
    destruct (Z.leb_spec (Z.of_nat (length (values arr))) z); [lia|]. simpl.
    destruct (lookup_array_Ok _ _ _ Harr) as (r & Hr & Hcase).
    unfold store_array_element, update_current_env, get_current_env, lookup_array, lookup_in.
    cbv [bind gets modify ret get_current_env]. simpl. rewrite Hr.
    destruct Hcase as [Hin|(Hnot & Hp & Hg)].
    + rewrite bool_decide_true by (destruct r; simpl in *; rewrite Hin; eauto).
      destruct r as [|e]; simpl in *; rewrite ?Hr; simpl; rewrite Hin;
        eexists; (split; [reflexivity|]); simpl; rewrite ?Hr; simpl;
        rewrite lookup_insert_eq; auto.
    + destruct r as [|e]; simpl in *; [congruence|].
      rewrite bool_decide_false by (rewrite Hnot; intros [? ?]; discriminate).
      change (global_env (set_heap (heap s2 ++ [vo]) s2)) with (global_env s2).
      rewrite Hg. eexists. split; [reflexivity|]. simpl. rewrite Hr. simpl.
      rewrite Hnot, Hp. simpl. rewrite lookup_insert_eq. auto.
  - intros [H|H].
    + destruct (Z.ltb_spec z 0); [reflexivity|lia].
    + destruct (Z.leb_spec (Z.of_nat (length (values arr))) z); [|lia]. now rewrite orb_true_r.
Qed.

(** The theorem at [a[1] = 7] for an array of two elements: the second
    element is the new object, the first is as it was. *)
Lemma array_update_stores_a_copy_witness :
  let s := snd (run 10 array_a_of_2 (new_Interpreter false [])) in
  exists s3,
    visit_array_update (run 10) (a_update 30 1 7) s = (Ok PyNone, s3) /\
    heap s3 !! 4%nat = Some (mkRunTimeObject "number" (PInt 7) None) /\
    lookup_array "a" s3 = (Ok (mkArraySymbol "a" (PInt 2) [PyObj 1%nat; PyObj 4%nat]), s3).
Proof.
  intros s.
  destruct (array_update_stores_a_copy (run 10) (at_ 30) "array_update" "a"
              (number_ 31 1) None (number_ 32 7) None s 2%nat
              (mkRunTimeObject "number" (PInt 1) None)
              (snd (run 10 (number_ 31 1) (snd (set_node_pos (a_update 30 1 7) s)))) 1
              3%nat (mkRunTimeObject "number" (PInt 7) None)
              (snd (run 10 (number_ 32 7)
                      (snd (run 10 (number_ 31 1) (snd (set_node_pos (a_update 30 1 7) s))))))
              (mkArraySymbol "a" (PInt 2) [PyObj 1%nat; PyObj 1%nat])) as [Hin _].
  - vm_compute. reflexivity.
  - vm_compute. reflexivity.
  - discriminate.
  - reflexivity.
  - vm_compute. reflexivity.
  - vm_compute. reflexivity.
  - vm_compute. reflexivity.
  - destruct Hin as (s3 & E & Hh & Hl); [simpl; lia|].
    exists s3. split; [exact E|]. split; [rewrite Hh; reflexivity|exact Hl].
Defined.
(** ** Sharing and copying: arguments, assignments, postfix steps *)

Lemma bind_params_eq ps xs e :
  NoDup (fst <$> ps) ->
  length xs = length ps ->
  bind_params ps xs e =
    {| name := name e; level := level e; parent := parent e;
       variables := list_to_map (zip (fst <$> ps) xs) ∪ variables e;
       arrays := arrays e; functions := functions e |}.
Proof.
  revert xs e. induction ps as [|p ps IH]; intros xs e Hnd Hlen.
  - destruct xs; [|discriminate]. unfold bind_params. simpl.
    rewrite (left_id ∅ (∪)). now destruct e.
  - destruct xs as [|x xs]; [discriminate|].
    rewrite fmap_cons in Hnd. apply NoDup_cons in Hnd. destruct Hnd as [Hn Hnd].
    injection Hlen as Hlen.
    unfold bind_params. simpl. fold (bind_params ps xs (env_insert_variable (fst p) x e)).
    rewrite IH by assumption. simpl. f_equal.
    rewrite <- insert_union_l. symmetry. apply insert_union_r.
    apply not_elem_of_list_to_map_1. rewrite fst_zip; [exact Hn|].
    rewrite length_fmap. lia.
Qed.

(** Arguments are passed by sharing: the body of a call runs in a new
    scope below the global one that holds the parameters and nothing else,
    each bound to the very object its argument evaluated to. *)
Theorem call_binds_parameters_to_the_arguments :
  forall acc i identifier a s r fs xs s1,
    recursion_count s <= INTERNAL_RECURSION_LIMIT ->
    current_env s = Some r ->
    lookup_function identifier (set_recursion_count (recursion_count s + 1) s)
      = (Ok fs, set_recursion_count (recursion_count s + 1) s) ->
    acc a (set_recursion_count (recursion_count s + 1) s) = (Ok (PyList xs), s1) ->
    length xs = length (params fs) ->
    NoDup (fst <$> params fs) ->
    visit_call acc (CallNode i identifier (Some a)) s =
      call_through_cache acc fs
        {| name := identifier; level := level (env_of r s) + 1; parent := true;
           variables := list_to_map (zip (fst <$> params fs) xs);
           arrays := ∅; functions := ∅ |}
        (Some r) s1.
Proof.
  intros acc i identifier a s r fs xs s1 Hrc Hr Hf Ha Hn Hnd.
  unfold visit_call, prepare_call.
  unfold check_for_stack_overflow. unfold bind at 1. unfold bind at 1. unfold bind at 1.
  unfold gets at 1.
  destruct (Z.ltb_spec INTERNAL_RECURSION_LIMIT (recursion_count s)) as [Hlt|_]; [lia|].
  unfold modify at 1.
  unfold bind at 1. unfold get_current_env at 1. cbn [current_env set_recursion_count].
  rewrite Hr.
  unfold bind at 1. unfold gets at 1.
  unfold bind at 1. unfold gets at 1.
  rewrite (bind_Ok _ _ _ _ _ Hf).
  unfold bind at 1. unfold bind at 1. rewrite Ha.
  unfold as_list. unfold bind at 1. unfold ret at 1.
  rewrite bool_decide_false by (intros H; now apply H).
  unfold ret. cbn [fst snd current_env set_recursion_count].
  rewrite Hr. rewrite bind_params_eq by assumption.
  unfold new_Environment. cbn [name level parent variables arrays functions].
  rewrite (right_id ∅ (∪)). now destruct r.
Qed.

(** The theorem at [inc(x)] for [func inc(n) { n++ }] and [x = 1]: the
    call steps the object of the caller's [x]. *)
Lemma call_binds_parameters_to_the_arguments_witness :
  payload_of (heap after_inc_and_x) (PyObj 3%nat) = Some (PInt 1) /\
  payload_of (heap (snd (visit_call (run 20) call_inc_x after_inc_and_x))) (PyObj 3%nat)
    = Some (PInt 2).
Proof.
  split; [vm_compute; reflexivity|].
  unfold call_inc_x.
  rewrite (call_binds_parameters_to_the_arguments (run 20) (at_ 30) "inc"
             (ArgsNode (at_ 31) [var_ 32 "x"]) after_inc_and_x GlobalEnv
             (mkFunctionSymbol "inc" [("n"%string, None)]
                (BodyNode (at_ 13)
                   [PostfixExprNode (at_ 14) (IdentifierNode (at_ 15) "n") (Some "++"%string)]))
             [PyObj 3%nat]
             (snd (run 20 (ArgsNode (at_ 31) [var_ 32 "x"])
                     (set_recursion_count 1 after_inc_and_x)))).
  - vm_compute. reflexivity.
  - vm_compute. discriminate.
  - reflexivity.
  - vm_compute. reflexivity.
  - vm_compute. reflexivity.
  - reflexivity.
  - simpl. apply NoDup_singleton.
Defined.

(** An assignment binds the name, in the current scope, to a new object
    that is a copy of what the right-hand side evaluated to: the two are
    different objects, and inside a function the global scope is left as it
    was. *)
Theorem assignment_binds_a_copy :
  forall acc i left_node right_node s ll lo s1 rl ro s2 k r,
    acc left_node s = (Ok (PyObj ll), s1) ->
    acc right_node s1 = (Ok (PyObj rl), s2) ->
    heap s2 !! ll = Some lo ->
    value lo = PStr k ->
    heap s2 !! rl = Some ro ->
    current_env s2 = Some r ->
    exists s3,
      visit_assignment acc (AssignmentNode i left_node right_node) s = (Ok PyNone, s3) /\
      heap s3 = heap s2 ++ [ro] /\
      lookup_variable (PStr k) true s3 = (Ok (PyObj (length (heap s2))), s3) /\
      length (heap s2) <> rl /\
      (r <> GlobalEnv -> global_env s3 = global_env s2).
Proof.
  intros acc i left_node right_node s ll lo s1 rl ro s2 k r Hl Hr Hlo Hk Hro Hcur.
  unfold visit_assignment.
  rewrite (bind_Ok _ _ _ _ _ Hl). rewrite (bind_Ok _ _ _ _ _ Hr).
  rewrite (bind_Ok _ _ _ _ _ (attr_value_object ll lo s2 Hlo)).
  unfold get_object. unfold bind at 1. rewrite Hro, Hk.
  unfold insert_variable, update_current_env, get_current_env, new_RunTimeObject.
  unfold lookup_variable, lookup_in, get_current_env.
  cbv [bind ret modify]. simpl. rewrite Hcur.
  assert (Hne : length (heap s2) <> rl).
  { apply lookup_lt_Some in Hro. lia. }
  destruct ro as [rlabel rvalue rtype].
  destruct r as [|e]; eexists; (split; [reflexivity|]); simpl; rewrite ?Hcur; simpl;
    rewrite lookup_insert_eq; repeat split; auto; congruence.
Qed.

(** The theorem at [y = x] after [x = 1]: [y] is bound to a new object
    with the payload of [x]. *)
Lemma assignment_binds_a_copy_witness :
  exists s3,
    visit_assignment (run 20) assign_y_x after_inc_and_x = (Ok PyNone, s3) /\
    lookup_variable (PStr "y") true s3 = (Ok (PyObj 6%nat), s3) /\
    lookup_variable (PStr "x") true s3 = (Ok (PyObj 3%nat), s3) /\
    payload_of (heap s3) (PyObj 6%nat) = Some (PInt 1).
Proof.
  destruct (assignment_binds_a_copy (run 20) (at_ 40) (IdentifierNode (at_ 41) "y")
              (var_ 42 "x") after_inc_and_x 4%nat
              (mkRunTimeObject "identifier" (PStr "y") None)
              (snd (run 20 (IdentifierNode (at_ 41) "y") after_inc_and_x))
              3%nat (mkRunTimeObject "number" (PInt 1) None)
              (snd (run 20 (var_ 42 "x")
                      (snd (run 20 (IdentifierNode (at_ 41) "y") after_inc_and_x))))
              "y"%string GlobalEnv)
    as (s3 & E & Hh & Hy & _ & _).
  - vm_compute. reflexivity.
  - vm_compute. reflexivity.
  - vm_compute. reflexivity.
  - reflexivity.
  - vm_compute. reflexivity.
  - vm_compute. reflexivity.
  - exists s3. split; [exact E|]. split; [exact Hy|].
    unfold assign_y_x in E. apply (f_equal snd) in E. simpl in E. subst s3.
    split; vm_compute; reflexivity.
Defined.

(** A postfix step changes the object of the variable in place, so that
    every reference to it sees the new payload, and returns a new [number]
    with the payload after the step; any operator but [++] steps down. *)
Theorem postfix_steps_the_object_in_place :
  forall acc i left_node operator s x s1 l o n,
    acc left_node s = (Ok x, s1) ->
    test_for_identifier x false s1 = (Ok (PyObj l), s1) ->
    heap s1 !! l = Some o ->
    value o = PInt n ->
    visit_postfix_expr acc (PostfixExprNode i left_node operator) s =
      (Ok (PyObj (length (heap s1))),
       set_heap
         (<[l := mkRunTimeObject (label o)
                   (PInt (if bool_decide (operator = Some "++"%string) then n + 1 else n - 1))
                   (type o)]> (heap s1)
          ++ [mkRunTimeObject "number"
                (PInt (if bool_decide (operator = Some "++"%string) then n + 1 else n - 1))
                None])
         s1).
Proof.
  intros acc i left_node operator s x s1 l o n Ha Ht Ho Hn.
  unfold visit_postfix_expr.
  rewrite (bind_Ok _ _ _ _ _ Ha). rewrite (bind_Ok _ _ _ _ _ Ht).
  unfold get_object. unfold bind at 1. rewrite Ho, Hn. cbv zeta.
  destruct (bool_decide (operator = Some "++"%string)); cbn [py_add as_number num_binop mbind option_bind];
    unfold set_object_value, new_RunTimeObject; cbv [bind modify]; rewrite Ho;
    cbn [heap set_heap]; rewrite length_insert; reflexivity.
Qed.

(** The theorem at [x++] after [x = 1]. *)
Lemma postfix_steps_the_object_in_place_witness :
  returned_payload (visit_postfix_expr (run 20) incr_x after_inc_and_x) = Some (PInt 2) /\
  payload_of (heap (snd (visit_postfix_expr (run 20) incr_x after_inc_and_x))) (PyObj 3%nat)
    = Some (PInt 2).
Proof.
  unfold incr_x.
  rewrite (postfix_steps_the_object_in_place (run 20) (at_ 50) (IdentifierNode (at_ 51) "x")
             (Some "++"%string) after_inc_and_x (PyObj 4%nat)
             (snd (run 20 (IdentifierNode (at_ 51) "x") after_inc_and_x)) 3%nat
             (mkRunTimeObject "number" (PInt 1) None) 1).
  - split; vm_compute; reflexivity.
  - vm_compute. reflexivity.
  - vm_compute. reflexivity.
  - vm_compute. reflexivity.
  - reflexivity.
Defined.
(** ** What a call restores, and what it does not *)

(** A call that runs the body of the function restores the scope of the
    caller and takes the recursion count back down, but leaves the three
    control-flow flags as the body left them: a [conditional_flag] set by a
    return inside the function is still set in the caller. *)
Theorem call_returns_with_the_flags_of_its_body :
  forall acc i identifier args s fs local_env old_env s0 v s1,
    prepare_call acc (CallNode i identifier args) identifier args s
      = (Ok (fs, local_env, old_env), s0) ->
    cache_mem_get (Environment_hash local_env (heap s0)) s0 = PyNone ->
    acc (body fs) (set_current_env (Some (LocalEnv local_env)) s0) = (Ok v, s1) ->
    exists s2,
      visit_call acc (CallNode i identifier args) s = (Ok v, s2) /\
      current_env s2 = old_env /\
      recursion_count s2 = recursion_count s1 - 1 /\
      conditional_flag s2 = conditional_flag s1 /\
      break_flag s2 = break_flag s1 /\
      continue_flag s2 = continue_flag s1.
Proof.
  intros acc i identifier args s fs local_env old_env s0 v s1 Hp Hmiss Hbody.
  unfold visit_call. rewrite (bind_Ok _ _ _ _ _ Hp). cbn [fst snd].
  unfold call_through_cache.
  unfold bind at 1. unfold modify at 1.
  unfold bind at 1. unfold gets at 1.
  unfold bind at 1. unfold gets at 1.
  change (cache_mem_get
            (Environment_hash local_env (heap (set_current_env (Some (LocalEnv local_env)) s0)))
            (set_current_env (Some (LocalEnv local_env)) s0))
    with (cache_mem_get (Environment_hash local_env (heap s0)) s0).
  rewrite Hmiss.
  unfold bind at 1. unfold bind at 1. rewrite Hbody.
  cbv [cache_mem_put bind modify ret].
  eexists. split; [reflexivity|]. simpl. auto.
Qed.

(** The theorem at [f()] for [func f() { if true { return 1 } }]: the flag
    is set when the call is over, and the program [x = f()  print x] prints
    nothing. *)
Lemma call_returns_with_the_flags_of_its_body_witness :
  let s := snd (run 20 func_if_return (new_Interpreter false [])) in
  conditional_flag (snd (visit_call (run 20) (CallNode (at_ 23) "f" None) s)) = true /\
  stdout (snd (run 40 (program_call_then_print func_if_return) (new_Interpreter false []))) = [] /\
  stdout (snd (run 40 (program_call_then_print func_single_return) (new_Interpreter false [])))
    = [OutPrint (PInt 1) ""].
Proof.
  intros s. split; [|split; vm_compute; reflexivity].
  destruct (call_returns_with_the_flags_of_its_body (run 20) (at_ 23) "f" None s
              (mkFunctionSymbol "f" []
                 (BodyNode (at_ 1)
                    [ IfNode (at_ 2) (BooleanNode (at_ 3) true)
                        (Some (BodyNode (at_ 4) [return_ 8 (number_ 9 1)])) [] None ]))
              (new_Environment "f" 2 true) (Some GlobalEnv)
              (set_recursion_count 1 s) (PyObj 1%nat)
              (snd (run 20 (BodyNode (at_ 1)
                              [ IfNode (at_ 2) (BooleanNode (at_ 3) true)
                                  (Some (BodyNode (at_ 4) [return_ 8 (number_ 9 1)])) [] None ])
                      (set_current_env (Some (LocalEnv (new_Environment "f" 2 true)))
                         (set_recursion_count 1 s)))))
    as (s2 & E & _ & _ & Hc & _).
  - vm_compute. reflexivity.
  - vm_compute. reflexivity.
  - vm_compute. reflexivity.
  - rewrite E. simpl. rewrite Hc. vm_compute. reflexivity.
Defined.

(** A call made when the recursion count is past its limit is the
    RECURSION error at the call; the count starts again from 0, and nothing
    of the call is evaluated. *)
Theorem call_beyond_the_recursion_limit :
  forall acc i identifier args s,
    INTERNAL_RECURSION_LIMIT < recursion_count s ->
    visit_call acc (CallNode i identifier args) s =
      (Raise (InterpreterError RECURSION RecursionDepthExceeded (start_pos i) (end_pos i)),
       set_recursion_count 0 s).
Proof.
  intros acc i identifier args s H.
  unfold visit_call, prepare_call, check_for_stack_overflow.
  unfold bind at 1. unfold bind at 1. unfold bind at 1. unfold gets at 1.
  destruct (Z.ltb_spec INTERNAL_RECURSION_LIMIT (recursion_count s)) as [_|Hle]; [|lia].
  reflexivity.
Qed.

(** The theorem at a call made with 1011 calls active. *)
Lemma call_beyond_the_recursion_limit_witness :
  fst (visit_call (run 20) call_f (set_recursion_count 1011 (new_Interpreter false [])))
    = Raise (InterpreterError RECURSION RecursionDepthExceeded (16, 0) (16, 1)).
Proof.
  unfold call_f. rewrite call_beyond_the_recursion_limit; [reflexivity|].
  vm_compute. reflexivity.
Defined.
(** ** A conditional with an empty body *)

(** A conditional whose condition holds and whose body has no statement
    fails with Python's [IndexError], from [statements[-1]], once the empty
    body has been evaluated; [interpret] does not catch it. *)
Theorem empty_conditional_body_is_an_index_error :
  forall acc i expr j else_ifs else_body s l c s1 v s2,
    acc expr s = (Ok (PyObj l), s1) ->
    heap s1 !! l = Some c ->
    py_truthy (value c) = true ->
    acc (BodyNode j []) s1 = (Ok v, s2) ->
    visit_if acc (IfNode i expr (Some (BodyNode j [])) else_ifs else_body) s
      = (Raise (HostError "IndexError"), s2).
Proof.
  intros acc i expr j else_ifs else_body s l c s1 v s2 He Hc Ht Hb.
  unfold visit_if. rewrite (bind_Ok _ _ _ _ _ He).
  unfold attr_value, get_object. unfold bind at 1. unfold bind at 1. rewrite Hc.
  unfold ret at 1. rewrite Ht.
  unfold handle_conditional_execution. rewrite (bind_Ok _ _ _ _ _ Hb). reflexivity.
Qed.

(** The theorem at [if true { }], passed to [interpret]. *)
Lemma empty_conditional_body_is_an_index_error_witness :
  fst (interpret coerce_to_boolean 20 if_true_nothing (new_Interpreter false []))
    = Raise (HostError "IndexError") /\
  fst (visit_if (run 10) if_true_nothing (new_Interpreter false []))
    = Raise (HostError "IndexError").
Proof.
  split; [vm_compute; reflexivity|].
  unfold if_true_nothing.
  rewrite (empty_conditional_body_is_an_index_error (run 10) (at_ 1) (BooleanNode (at_ 2) true)
             (at_ 3) [] None (new_Interpreter false []) 0%nat
             (mkRunTimeObject "boolean" (PBool true) None)
             (snd (run 10 (BooleanNode (at_ 2) true) (new_Interpreter false [])))
             PyNone
             (snd (run 10 (BodyNode (at_ 3) [])
                     (snd (run 10 (BooleanNode (at_ 2) true) (new_Interpreter false [])))))).
  - reflexivity.
  - vm_compute. reflexivity.
  - vm_compute. reflexivity.
  - reflexivity.
  - vm_compute. reflexivity.
Defined.
(** ** After the program *)

Lemma visit_program_leaves_no_scope acc i fs b s v t :
  visit_program acc (ProgramNode i fs b false) s = (Ok v, t) ->
  v = PyNone /\ current_env t = None.
Proof.
  unfold visit_program. unfold bind at 1.
  destruct (for_each _ fs s) as [[[]|e|] s1]; try discriminate.
  unfold bind at 1.
  destruct (accept_opt acc b s1) as [[w|e|] s2]; try discriminate.
  cbv [bind modify ret]. intros [= <- <-]. now split.
Qed.

Lemma finish_keeps_the_scope tb bv node result s :
  fst (finish tb bv node result s) = Ok result /\
  current_env (snd (finish tb bv node result s)) = current_env s.
Proof.
  destruct bv; simpl; [|now split].
  unfold leave_visit, truthy, log. cbv [bind gets modify when ret print_event].
  destruct (is_true tb result s); simpl; [destruct (verbose s); simpl|]; now split.
Qed.

(** A program that has run to its end leaves the interpreter without a
    scope: [current_env] is [None], and a visit of any node that is not
    memoized is from then on the RUNTIME "undefined scope" error. *)
Theorem program_leaves_no_scope :
  forall tb fuel i fs b s v,
    cache_consistent s ->
    fst (accept tb fuel (ProgramNode i fs b false) s) = Ok v ->
    current_env (snd (accept tb fuel (ProgramNode i fs b false) s)) = None /\
    forall fuel' node,
      cache_mem_get_node node (snd (accept tb fuel (ProgramNode i fs b false) s)) = None ->
      visitor_depth (snd (accept tb fuel (ProgramNode i fs b false) s)) < MAX_VISIT_DEPTH ->
      accept tb (S fuel') node (snd (accept tb fuel (ProgramNode i fs b false) s)) =
        (Raise (InterpreterError RUNTIME UndefinedScope
                  (start_pos (node_info node)) (end_pos (node_info node))),
         snd (accept tb fuel (ProgramNode i fs b false) s)).
Proof.
  intros tb fuel i fs b s v Hc Hok.
  assert (Hnone : current_env (snd (accept tb fuel (ProgramNode i fs b false) s)) = None).
  { destruct fuel as [|fuel]; [discriminate|]. cbn [accept] in *.
    destruct (Node_accept_unfold tb (accept tb fuel) fuel (ProgramNode i fs b false) s Hc)
      as [bv E].
    rewrite E in *. clear E.
    destruct (bv && (MAX_VISIT_DEPTH <=? visitor_depth s)); [discriminate|].
    destruct (bv && negb (bool_decide (is_Some (current_env s)))); [discriminate|].
    change (getattr_visit (node_label (ProgramNode i fs b false))) with m_visit_program in *.
    cbn [call_method] in *. unfold bind in *.
    destruct (visit_program (accept tb fuel) (ProgramNode i fs b false)
                (if bv then enter_visit (ProgramNode i fs b false) s else s))
      as [[w|e|] t] eqn:Ev; try discriminate.
    destruct (visit_program_leaves_no_scope _ _ _ _ _ _ _ Ev) as [-> Ht].
    destruct (finish_keeps_the_scope tb bv (ProgramNode i fs b false) PyNone t) as [_ Hs].
    now rewrite Hs. }
  split; [exact Hnone|].
  intros fuel' node Hmiss Hd. cbn [accept]. unfold Node_accept.
  unfold bind at 1. unfold gets at 1. rewrite Hmiss. rewrite visit_unfold.
  destruct (Z.leb_spec MAX_VISIT_DEPTH
              (visitor_depth (snd (accept tb fuel (ProgramNode i fs b false) s)))); [lia|].
  now rewrite Hnone.
Qed.

(** The theorem at [print 1], followed by the visit of a new literal. *)
Lemma program_leaves_no_scope_witness :
  let t := snd (run 20 program_print_1 (new_Interpreter false [])) in
  current_env t = None /\
  fst (run 5 (number_ 99 7) t) = Raise (InterpreterError RUNTIME UndefinedScope (99, 0) (99, 1)).
Proof.
  intros t.
  destruct (program_leaves_no_scope coerce_to_boolean 20 (at_ 0) []
              (Some (BodyNode (at_ 1) [print_ 2 (number_ 4 1)])) (new_Interpreter false [])
              PyNone) as [Hn Hv].
  - now apply cache_consistent_empty.
  - vm_compute. reflexivity.
  - split; [exact Hn|].
    change (run 5) with (accept coerce_to_boolean 5).
    unfold t, program_print_1, run. rewrite (Hv 4%nat (number_ 99 7)); [reflexivity| |].
    + vm_compute. reflexivity.
    + vm_compute. reflexivity.
Defined.
(** ** Strings and integers under the operators *)

Lemma append_empty (a : string) : (a ++ "")%string = a.
Proof.
  induction a as [|c a IH]; [reflexivity|].
  change (String c (String.append a "") = String c a). now rewrite IH.
Qed.

Lemma str_repeat_concat (a : string) (n : nat) :
  str_repeat a n = String.concat "" (replicate n a).
Proof.
  induction n as [|n IH]; [reflexivity|].
  cbn [str_repeat replicate String.concat]. rewrite IH.
  destruct n; [apply append_empty|reflexivity].
Qed.

Lemma str_mul_within (a : string) (n : Z) :
  - 2 ^ 63 <= n < 2 ^ 63 -> Z.of_nat (String.length a) * n < 2 ^ 63 ->
  str_mul a n = inr (PStr (String.concat "" (replicate (Z.to_nat n) a))).
Proof.
  intros Hn Hlen. unfold str_mul, index_max.
  destruct (Z.ltb_spec n (- 2 ^ 63)) as [Hlow|Hlow]; [lia|].
  destruct (Z.ltb_spec (2 ^ 63 - 1) n) as [Hhigh|Hhigh]; [lia|]. cbn [orb].
  destruct (Z.ltb_spec n 1) as [Hone|Hone].
  - replace (Z.to_nat n) with 0%nat by lia. reflexivity.
  - destruct (Z.ltb_spec ((2 ^ 63 - 1) / n) (Z.of_nat (String.length a))) as [H1|H1].
    + exfalso. pose proof (Z.mul_succ_div_gt (2 ^ 63 - 1) n). nia.
    + now rewrite str_repeat_concat.
Qed.

Lemma str_mul_beyond (a : string) (n : Z) :
  n < - 2 ^ 63 \/ 2 ^ 63 <= n \/ 2 ^ 63 <= Z.of_nat (String.length a) * n ->
  str_mul a n = inl "OverflowError"%string.
Proof.
  intros H. unfold str_mul, index_max.
  destruct (Z.ltb_spec n (- 2 ^ 63)) as [Hlow|Hlow]; [reflexivity|].
  destruct (Z.ltb_spec (2 ^ 63 - 1) n) as [Hhigh|Hhigh]; [reflexivity|]. cbn [orb].
  destruct H as [H|[H|H]]; [lia|lia|].
  destruct (Z.ltb_spec n 1) as [Hone|Hone]; [nia|].
  destruct (Z.ltb_spec ((2 ^ 63 - 1) / n) (Z.of_nat (String.length a))) as [H1|H1];
    [reflexivity|].
  exfalso. pose proof (Z.mul_div_le (2 ^ 63 - 1) n). nia.
Qed.

(** A string times an integer is the same in either order.  When the
    integer fits an index and the repeated text is no longer than the
    largest index, it is a new [string] that holds the text that many times
    over, one copy after the other, and the empty string when the number is
    zero or negative; memory has no bound here.  Otherwise it is Python's
    [OverflowError]. *)
Theorem string_times_number_repeats_the_string :
  forall (left right : RunTimeObject) txt n s,
    label left = "string"%string -> value left = PStr txt ->
    label right = "number"%string -> value right = PInt n ->
    handle_multiplicative_expressions right left "*" s =
      handle_multiplicative_expressions left right "*" s /\
    (- 2 ^ 63 <= n < 2 ^ 63 -> Z.of_nat (String.length txt) * n < 2 ^ 63 ->
     handle_multiplicative_expressions left right "*" s =
       (Ok (PyObj (length (heap s))),
        set_heap (heap s ++
          [mkRunTimeObject "string"
             (PStr (String.concat "" (replicate (Z.to_nat n) txt))) None]) s)) /\
    (n < - 2 ^ 63 \/ 2 ^ 63 <= n \/ 2 ^ 63 <= Z.of_nat (String.length txt) * n ->
     handle_multiplicative_expressions left right "*" s =
       (Raise (HostError "OverflowError"), s)).
Proof.
  intros left right txt n s Hl Hv Hr Hn.
  assert (E : handle_multiplicative_expressions left right "*" s =
              new_from "string" (str_mul txt n) s).
  { unfold handle_multiplicative_expressions. rewrite Hl, Hv, Hr, Hn. reflexivity. }
  split; [|split].
  - rewrite E. unfold handle_multiplicative_expressions. rewrite Hl, Hv, Hr, Hn. reflexivity.
  - intros H1 H2. now rewrite E, (str_mul_within _ _ H1 H2).
  - intros H. now rewrite E, (str_mul_beyond _ _ H).
Qed.

(** The theorem at ["ab" * 3] and at ["" * 2 ** 63]. *)
Lemma string_times_number_repeats_the_string_witness :
  let s := new_Interpreter false [] in
  handle_multiplicative_expressions (mkRunTimeObject "string" (PStr "ab") None)
    (mkRunTimeObject "number" (PInt 3) None) "*" s =
    (Ok (PyObj 0%nat), set_heap [mkRunTimeObject "string" (PStr "ababab") None] s) /\
  handle_multiplicative_expressions (mkRunTimeObject "string" (PStr "") None)
    (mkRunTimeObject "number" (PInt (2 ^ 63)) None) "*" s =
    (Raise (HostError "OverflowError"), s).
Proof.
  intros s. split.
  - destruct (string_times_number_repeats_the_string
                (mkRunTimeObject "string" (PStr "ab") None)
                (mkRunTimeObject "number" (PInt 3) None) "ab" 3 s
                eq_refl eq_refl eq_refl eq_refl) as (_ & H & _).
    rewrite H; [reflexivity|lia|simpl; lia].
  - destruct (string_times_number_repeats_the_string
                (mkRunTimeObject "string" (PStr "") None)
                (mkRunTimeObject "number" (PInt (2 ^ 63)) None) "" (2 ^ 63) s
                eq_refl eq_refl eq_refl eq_refl) as (_ & _ & H).
    apply H. right. left. lia.
Defined.

(** On integers the difference undoes the sum: [(a + b) - b] is [a]
    again, each step a new [number]. *)
Theorem difference_undoes_sum_on_integers :
  forall (left right : RunTimeObject) a b s,
    label left = "number"%string -> value left = PInt a ->
    label right = "number"%string -> value right = PInt b ->
    exists sum,
      handle_additive_expressions left right "+" s =
        (Ok (PyObj (length (heap s))), set_heap (heap s ++ [sum]) s) /\
      label sum = "number"%string /\
      forall t,
        handle_additive_expressions sum right "-" t =
          (Ok (PyObj (length (heap t))),
           set_heap (heap t ++ [mkRunTimeObject "number" (PInt a) None]) t).
Proof.
  intros left right a b s Hl Hv Hr Hn.
  exists (mkRunTimeObject "number" (PInt (a + b)) None).
  unfold handle_additive_expressions. rewrite Hl, Hv, Hr, Hn. simpl.
  split; [reflexivity|]. split; [reflexivity|].
  intros t. unfold py_sub. cbn. replace (a + b - b) with a by lia. reflexivity.
Qed.

(** The theorem at [2 + 3] and [(2 + 3) - 3]. *)
Lemma difference_undoes_sum_on_integers_witness :
  exists sum,
    handle_additive_expressions (mkRunTimeObject "number" (PInt 2) None)
      (mkRunTimeObject "number" (PInt 3) None) "+" (new_Interpreter false [])
      = (Ok (PyObj 0%nat), set_heap [sum] (new_Interpreter false [])) /\
    returned_payload
      (handle_additive_expressions sum (mkRunTimeObject "number" (PInt 3) None) "-"
         (new_Interpreter false []))
      = Some (PInt 2).
Proof.
  destruct (difference_undoes_sum_on_integers
              (mkRunTimeObject "number" (PInt 2) None)
              (mkRunTimeObject "number" (PInt 3) None) 2 3 (new_Interpreter false [])
              eq_refl eq_refl eq_refl eq_refl) as (sum & E & _ & H).
  exists sum. split; [exact E|]. rewrite H. reflexivity.
Defined.
(** ** The dispatch by label *)

Lemma assoc_string_None {A : Type} (k : string) (l : list (string * A)) :
  assoc_string k l = None <-> ~ In k (map fst l).
Proof.
  induction l as [|[k' a] l IH]; simpl; [tauto|].
  destruct (String.eqb_spec k k') as [->|N].
  - split; [discriminate|]. intros H. destruct H. now left.
  - rewrite IH. split; [intros H [E|E]; [now subst|contradiction]|tauto].
Qed.

Lemma assoc_string_in {A : Type} (k : string) (l : list (string * A)) (a : A) :
  assoc_string k l = Some a -> In a (map snd l).
Proof.
  induction l as [|[k' a'] l IH]; simpl; [discriminate|].
  destruct (String.eqb k k'); [intros [= ->]; now left|intros H; right; auto].
Qed.

(** [getattr] selects [generic_visit], which raises [NotImplementedError],
    for exactly the labels for which the interpreter has no method: the
    labels outside the list of twenty-seven below.  Every class of
    [ASTNodes.py] that sets a label of its own has its method, the [elif]
    and [else] nodes apart; the base class [ConditionalNode], whose label
    when none is given is [Conditional], has none either.  An array node is
    given its label; each of the three labels the interpreter knows selects
    its method. *)
Theorem only_elif_and_else_have_no_method :
  (forall lbl,
     getattr_visit lbl = m_generic_visit <->
     ~ In lbl [ "program"; "func_def"; "body"; "return"; "break"; "continue"; "if";
                "while"; "for"; "array_def"; "array_access"; "array_update";
                "assignment"; "call"; "input"; "print"; "postfix_expr"; "args"; "expr";
                "simple_expr"; "term"; "factor"; "operator"; "identifier";
                "numeric_literal"; "string_literal"; "boolean_literal" ]%string) /\
  (forall n,
     match n with
     | ElifNode _ _ _ | ElseNode _ _ => getattr_visit (node_label n) = m_generic_visit
     | ArrayNode _ _ _ _ _ _ _ => True
     | _ => getattr_visit (node_label n) <> m_generic_visit
     end) /\
  getattr_visit "Conditional" = m_generic_visit /\
  getattr_visit "array_def" = m_visit_array_def /\
  getattr_visit "array_access" = m_visit_array_access /\
  getattr_visit "array_update" = m_visit_array_update /\
  (forall tb acc fuel n s,
     call_method tb acc fuel m_generic_visit n s = (Raise (HostError "NotImplementedError"), s)).
Proof.
  split; [|split; [|repeat split]].
  - intros lbl. unfold getattr_visit.
    change ([ "program"; "func_def"; "body"; "return"; "break"; "continue"; "if";
                "while"; "for"; "array_def"; "array_access"; "array_update";
                "assignment"; "call"; "input"; "print"; "postfix_expr"; "args"; "expr";
                "simple_expr"; "term"; "factor"; "operator"; "identifier";
                "numeric_literal"; "string_literal"; "boolean_literal" ]%string)
           with (map fst visit_methods).
    rewrite <- assoc_string_None.
    destruct (assoc_string lbl visit_methods) as [m|] eqn:E; [|easy].
    split; [|discriminate]. simpl. intros ->. exfalso.
    apply assoc_string_in in E. simpl in E.
    repeat (destruct E as [E|E]; [discriminate E|]). contradiction.
  - intros n. destruct n; try reflexivity; vm_compute; discriminate.
Qed.
(** ** What [to_json] writes *)

Section To_json_leaves.

Variable py_str : Payload -> string.
Variable str_of_token_type : Info -> string.

Lemma leaf_false : json_leaf_text py_str str_of_token_type "false".
Proof. right. now left. Qed.

Lemma leaf_bool b :
  Forall (json_leaf_text py_str str_of_token_type) (json_texts (json_of_bool b)).
Proof. destruct b; (constructor; [|constructor]); [now left|apply leaf_false]. Qed.

Lemma leaf_option_string o :
  Forall (json_leaf_text py_str str_of_token_type) (json_texts (json_of_option_string o)).
Proof. destruct o; simpl; [constructor; [apply leaf_false|constructor]|constructor]. Qed.

Lemma leaf_array (l : list Node) :
  Forall (fun m => Forall (json_leaf_text py_str str_of_token_type)
                     (json_texts (to_json py_str str_of_token_type m))) l ->
  Forall (json_leaf_text py_str str_of_token_type)
    (concat (map json_texts (map (to_json py_str str_of_token_type) l))).
Proof.
  induction 1 as [|m l Hm Hl IH]; simpl; [constructor|]. apply Forall_app. now split.
Qed.

Lemma to_json_leaves n :
  Forall (json_leaf_text py_str str_of_token_type)
    (json_texts (to_json py_str str_of_token_type n)).
Proof.
  revert n. fix IH 1. intros n.
  destruct n; cbn [to_json json_texts map concat snd expr_entries app node_entries];
    repeat first
      [ apply Forall_nil_2
      | apply Forall_app; split
      | apply Forall_cons; split
      | apply leaf_false
      | apply leaf_bool
      | apply leaf_option_string
      | apply IH
      | match goal with
        | |- Forall _ (json_texts match ?o with _ => _ end) =>
            destruct o; [|apply Forall_nil_2]
        end
      | apply leaf_array;
        match goal with |- Forall _ ?l =>
          induction l as [|m l IHl]; [constructor|constructor; [apply IH|exact IHl]] end
      | match goal with
        | |- json_leaf_text _ _ (if ?b then _ else _) => destruct b
        end
      | left; reflexivity
      | right; left; reflexivity
      | right; right; left; reflexivity
      | right; right; right; left; reflexivity
      | right; right; right; right; left; eexists; reflexivity
      | right; right; right; right; right; eexists; reflexivity ].
Qed.

End To_json_leaves.

(** The dictionary of a tree keeps its shape and loses its content: every
    text in it is ["true"] or ["false"], or the text of a numeric or
    boolean literal.  No label, name, operator, string or position of the
    tree is written. *)
Theorem to_json_writes_flags_and_literals_only :
  forall py_str str_of_token_type n s,
    s ∈ json_texts (to_json py_str str_of_token_type n) ->
    json_leaf_text py_str str_of_token_type s.
Proof.
  intros py_str str_of_token_type n s H.
  pose proof (to_json_leaves py_str str_of_token_type n) as F.
  rewrite Forall_forall in F. now apply F.
Qed.

(** The theorem at [return 5]: the texts are ["false"] six times, then the
    type and the number of the literal. *)
Lemma to_json_writes_flags_and_literals_only_witness :
  json_texts (to_json (fun _ => "5"%string) (fun _ => "int"%string) body_return_5)
    = ["false"; "false"; "false"; "false"; "false"; "false"; "int"; "5"]%string /\
  json_leaf_text (fun _ => "5"%string) (fun _ => "int"%string) "false".
Proof.
  split; [reflexivity|].
  apply (to_json_writes_flags_and_literals_only _ _ body_return_5).
  vm_compute. repeat constructor.
Defined.

(** The label and the two positions of a node are written as ["false"],
    whatever they are, by every node that does not write its own
    dictionary; and two identifiers, two strings, two operators or two
    calls without arguments have the same dictionary whatever their names
    and places. *)
Theorem to_json_forgets_labels_names_and_positions :
  forall py_str str_of_token_type,
    (forall n,
       match n with
       | NumericLiteralNode _ _ | BooleanNode _ _ => True
       | _ => exists rest,
                to_json py_str str_of_token_type n =
                  JObject (("label"%string, JString "false") ::
                           ("start_pos"%string, JString "false") ::
                           ("end_pos"%string, JString "false") :: rest)
       end) /\
    (forall i j x y,
       to_json py_str str_of_token_type (IdentifierNode i x) =
         to_json py_str str_of_token_type (IdentifierNode j y) /\
       to_json py_str str_of_token_type (StringLiteralNode i x) =
         to_json py_str str_of_token_type (StringLiteralNode j y) /\
       to_json py_str str_of_token_type (OperatorNode i x) =
         to_json py_str str_of_token_type (OperatorNode j y) /\
       to_json py_str str_of_token_type (CallNode i x None) =
         to_json py_str str_of_token_type (CallNode j y None)).
Proof.
  intros py_str str_of_token_type. split.
  - intros n. destruct n; try exact I; eexists; reflexivity.
  - intros i j x y. repeat split.
Qed.
